(** * PythonLauncher: configuration loading, variable resolution and launch

    A shallow embedding of the launcher's core modules
    ([config_loader.py], [env_parser.py], [variable_resolver.py],
    [menu_builder.py], [app_launcher.py], [venv_detector.py] and the
    selections and the output of [app_wizard.py]) together with the
    properties established about them.

    Python strings are modelled by [string] (8-bit characters); the
    character classes of the regular expressions ([\w], [\s]) and
    [str.lower] are given on the ASCII range. *)

From Stdlib Require Import String Ascii List Bool Arith Lia.
From Stdlib Require Import Sorting.Sorted Sorting.Permutation.
From Stdlib Require Import Structures.OrderedTypeEx.
Import ListNotations.

Set Implicit Arguments.
Set Warnings "-register-all".
Open Scope string_scope.

(* ================================================================= *)
(** ** Python built-ins used by the sources *)

Module Py.

Definition dquote : ascii := "034"%char.
Definition squote : ascii := "039"%char.
Definition newline : ascii := "010"%char.
Definition percent : ascii := "%"%char.
Definition dollar : ascii := "$"%char.

Definition in_range (lo hi : nat) (c : ascii) : bool :=
  let n := nat_of_ascii c in ((lo <=? n) && (n <=? hi))%nat.

Definition is_upper (c : ascii) : bool := in_range 65 90 c.
Definition is_lower (c : ascii) : bool := in_range 97 122 c.
Definition is_digit (c : ascii) : bool := in_range 48 57 c.
Definition is_underscore (c : ascii) : bool := (c =? "_")%char.

(** [str.isspace] on one character, which is also the class [\s]:
    TAB, LF, VT, FF, CR, FS, GS, RS, US and the space. *)
Definition isspace (c : ascii) : bool :=
  in_range 9 13 c || in_range 28 32 c.

(** The class [[A-Za-z_]]. *)
Definition is_ident_start (c : ascii) : bool :=
  is_upper c || is_lower c || is_underscore c.

(** The classes [[A-Za-z0-9_]] and [\w]. *)
Definition is_word (c : ascii) : bool :=
  is_ident_start c || is_digit c.

Definition lower_char (c : ascii) : ascii :=
  if is_upper c then ascii_of_nat (nat_of_ascii c + 32) else c.

(** [s.lower()] *)
Fixpoint lower (s : string) : string :=
  match s with
  | EmptyString => EmptyString
  | String c r => String (lower_char c) (lower r)
  end.

Fixpoint rev_onto (s acc : string) : string :=
  match s with
  | EmptyString => acc
  | String c r => rev_onto r (String c acc)
  end.

Definition rev (s : string) : string := rev_onto s EmptyString.

(** [s.lstrip()], [s.rstrip()], [s.strip()] *)
Fixpoint lstrip (s : string) : string :=
  match s with
  | EmptyString => EmptyString
  | String c r => if isspace c then lstrip r else s
  end.

Definition rstrip (s : string) : string := rev (lstrip (rev s)).

Definition strip (s : string) : string := rstrip (lstrip s).

(** [s.startswith(p)], [s.endswith(p)], [p in s] *)
Definition startswith (p s : string) : bool := String.prefix p s.

Definition endswith (p s : string) : bool := String.prefix (rev p) (rev s).

Fixpoint contains (p s : string) : bool :=
  String.prefix p s ||
  match s with
  | EmptyString => false
  | String _ r => contains p r
  end.

(** [s[1:]], [s[:-1]] and [s[1:-1]] *)
Definition drop_first (s : string) : string :=
  match s with
  | EmptyString => EmptyString
  | String _ r => r
  end.

Fixpoint drop_last (s : string) : string :=
  match s with
  | EmptyString => EmptyString
  | String _ EmptyString => EmptyString
  | String c r => String c (drop_last r)
  end.

Definition slice_1_m1 (s : string) : string := drop_last (drop_first s).

(** [s.replace(c, new)] for a one-character pattern [c]. *)
Fixpoint replace_char (c : ascii) (new : string) (s : string) : string :=
  match s with
  | EmptyString => EmptyString
  | String x r =>
      if (x =? c)%char then new ++ replace_char c new r
      else String x (replace_char c new r)
  end.

(** The longest prefix of [s] made of characters satisfying [p], and
    what follows it (a greedy [p*]). *)
Fixpoint span (p : ascii -> bool) (s : string) : string * string :=
  match s with
  | EmptyString => (EmptyString, EmptyString)
  | String c r =>
      if p c then let (a, b) := span p r in (String c a, b)
      else (EmptyString, s)
  end.

Fixpoint all_chars (p : ascii -> bool) (s : string) : bool :=
  match s with
  | EmptyString => true
  | String c r => p c && all_chars p r
  end.

(** Truthiness of a string. *)
Definition truthy (s : string) : bool :=
  match s with EmptyString => false | _ => true end.

(** Exceptions are kept by class and message. *)
Inductive exn : Type :=
| AttributeError (msg : string)
| TypeError (msg : string)
| ValueError (msg : string)
| OSError (msg : string).

Definition exn_str (e : exn) : string :=
  match e with
  | AttributeError m | TypeError m | ValueError m | OSError m => m
  end.

(** Values as [json.load] produces them. *)
Inductive value : Type :=
| VNone
| VBool (b : bool)
| VNum (n : nat)
| VStr (s : string)
| VList (l : list value)
| VDict (d : list (string * value)).

End Py.

(* ================================================================= *)
(** ** Dictionaries

    A [dict] keeps its keys in insertion order; re-assigning a key keeps
    its position; deleting removes it. *)

Module Dict.

Definition t (V : Type) : Type := list (string * V).

Definition empty {V} : t V := [].

Fixpoint get {V} (k : string) (d : t V) : option V :=
  match d with
  | [] => None
  | (k', v) :: r => if (k' =? k)%string then Some v else get k r
  end.

Definition mem {V} (k : string) (d : t V) : bool :=
  match get k d with Some _ => true | None => false end.

(** [d[k] = v] *)
Fixpoint set {V} (k : string) (v : V) (d : t V) : t V :=
  match d with
  | [] => [(k, v)]
  | (k', v') :: r =>
      if (k' =? k)%string then (k, v) :: r else (k', v') :: set k v r
  end.

(** [del d[k]] *)
Fixpoint del {V} (k : string) (d : t V) : t V :=
  match d with
  | [] => []
  | (k', v') :: r =>
      if (k' =? k)%string then r else (k', v') :: del k r
  end.

Definition keys {V} (d : t V) : list string := map fst d.
Definition values {V} (d : t V) : list V := map snd d.

(** [d.get(k, default)] *)
Definition get_default {V} (k : string) (default : V) (d : t V) : V :=
  match get k d with Some v => v | None => default end.

(** Keys are unique in every dictionary built with [set]. *)
Definition wf {V} (d : t V) : Prop := NoDup (keys d).

End Dict.

(* ================================================================= *)
(** ** Paths

    A [pathlib.Path] is modelled by its sequence of parts.  The launcher
    runs on Windows (batch files, [Scripts\python.exe]), so two paths are
    compared, and identified in a [set], by their case-folded parts. *)

Module Pathlib.

Definition Path : Type := list string.

Definition is_sep (c : ascii) : bool := ((c =? "/") || (c =? "\"))%char.

Fixpoint split_sep (s cur : string) : list string :=
  match s with
  | EmptyString => [cur]
  | String c r =>
      if is_sep c then cur :: split_sep r EmptyString
      else split_sep r (cur ++ String c EmptyString)
  end.

Definition keep_part (part : string) : bool :=
  negb (part =? "")%string && negb (part =? ".")%string.

(** [Path(s)] *)
Definition of_str (s : string) : Path :=
  filter keep_part (split_sep s EmptyString).

(** [str(p)] *)
Definition to_str (p : Path) : string := String.concat "\" p.

(** [p / s], for a right operand that is relative: the parts of [s]
    are appended.  (A right operand that begins with a separator or
    with a drive, a character followed by a colon, makes [pathlib]
    start again from there; the operands in the sources are file and
    directory names, and where one comes from the user it is taken to
    be relative.) *)
Definition join (p : Path) (s : string) : Path := (p ++ of_str s)%list.

(** [p.name] *)
Definition name (p : Path) : string := last p EmptyString.

(** [p.parent] *)
Definition parent (p : Path) : Path := removelast p.

(** [s.rfind(".")], as the number of characters before the last dot. *)
Fixpoint rfind_dot (s : string) : option nat :=
  match s with
  | EmptyString => None
  | String c r =>
      match rfind_dot r with
      | Some i => Some (S i)
      | None => if (c =? ".")%char then Some 0 else None
      end
  end.

(** Where the suffix of a file name begins: the last dot, when it is
    neither the first nor the last character. *)
Definition suffix_at (nm : string) : option nat :=
  match rfind_dot nm with
  | Some i =>
      if ((0 <? i) && (i <? String.length nm - 1))%nat then Some i else None
  | None => None
  end.

(** [p.suffix] *)
Definition suffix (p : Path) : string :=
  let nm := name p in
  match suffix_at nm with
  | Some i => substring i (String.length nm - i) nm
  | None => EmptyString
  end.

(** [p.stem] *)
Definition stem (p : Path) : string :=
  let nm := name p in
  match suffix_at nm with
  | Some i => substring 0 i nm
  | None => nm
  end.

Definition normcase (p : Path) : list string := map Py.lower p.

Definition compare (p q : Path) : comparison :=
  list_compare String.compare (normcase p) (normcase q).

(** [p == q] and [p <= q] *)
Definition eqb (p q : Path) : bool :=
  match compare p q with Eq => true | _ => false end.

Definition leb (p q : Path) : bool :=
  match compare p q with Gt => false | _ => true end.

(** [p != q] *)
Definition differ (p q : Path) : Prop := compare p q <> Eq.

End Pathlib.


(* ================================================================= *)
(** ** Sorting

    [sorted] is stable: elements with equal keys keep their order. *)

Section Sorted.

Variable A : Type.
Variable leb : A -> A -> bool.

Fixpoint insert_sorted (x : A) (l : list A) : list A :=
  match l with
  | [] => [x]
  | y :: r => if leb x y then x :: l else y :: insert_sorted x r
  end.

Fixpoint sorted (l : list A) : list A :=
  match l with
  | [] => []
  | x :: r => insert_sorted x (sorted r)
  end.

End Sorted.

(** [sorted(l, key=key)] with string keys. *)
Definition sorted_by_key {A} (key : A -> string) (l : list A) : list A :=
  sorted (fun x y => String.leb (key x) (key y)) l.

(** The members of a list in the order of their first occurrence. *)
Fixpoint first_occurrences (l : list string) : list string :=
  match l with
  | [] => []
  | x :: r =>
      x :: filter (fun y => negb (y =? x)%string) (first_occurrences r)
  end.

(* ================================================================= *)
(** ** The world outside the program

    What the program does to its surroundings is recorded as a sequence
    of events; what the surroundings answer is given by an environment
    of oracles.  The answers of the user, of the clock, of the clipboard
    and of the process table may depend on what happened before. *)

Module Sys.

Inductive event : Type :=
| Print (msg : string)
| Traceback (e : Py.exn)
| AskString (title prompt initialvalue : string)
| AskOpenFilename (title : string) (initialdir : option Pathlib.Path)
    (initialfile : string)
| AskDirectory (title : string) (initialdir : option Pathlib.Path)
| Now
| Paste
| WriteFile (file : Pathlib.Path) (content : string)
| Popen (cmd : string).

Record env : Type := {
  (* the file system *)
  exists_ : Pathlib.Path -> bool;
  is_file : Pathlib.Path -> bool;
  is_dir : Pathlib.Path -> bool;
  resolve : Pathlib.Path -> Pathlib.Path;
  rglob_all : Pathlib.Path -> list Pathlib.Path;
  glob_json : Pathlib.Path -> list Pathlib.Path;
  (* the lines read from a text file before reading fails, if it does *)
  read_lines : Pathlib.Path -> list string * option Py.exn;
  load_json : Pathlib.Path -> Py.exn + Py.value;
  write_text : Pathlib.Path -> string -> option Py.exn;
  gettempdir : Py.exn + string;
  getpid : string;
  (* processes: the PID of the process [Popen] starts, or its error *)
  spawn : list event -> string -> Py.exn + string;
  (* [shlex.split], which raises on an unbalanced quote *)
  shlex_split : string -> Py.exn + list string;
  (* dialogs: [None] is a cancelled text prompt, the empty string a
     cancelled file or folder selection *)
  askstring : list event -> string -> string -> string -> option string;
  askopenfilename :
    list event -> string -> option Pathlib.Path -> string -> string;
  askdirectory : list event -> string -> option Pathlib.Path -> string;
  (* the order in which a [set] built from these strings is iterated *)
  set_iter : list string -> list string;
  (* clock and clipboard *)
  strftime : list event -> string -> Py.exn + string;
  (* the current time in the built-in pattern, which is always valid *)
  strftime_default : list event -> string;
  timestamp : list event -> string;
  paste : list event -> Py.exn + string
}.

(** A computation reads the events so far and returns a result, or an
    exception, with the events it adds. *)
Definition M (A : Type) : Type :=
  list event -> (Py.exn + A) * list event.

Definition ret {A} (a : A) : M A := fun _ => (inr a, []).

Definition raise {A} (e : Py.exn) : M A := fun _ => (inl e, []).

Definition bind {A B} (m : M A) (k : A -> M B) : M B :=
  fun h =>
    let (r, out1) := m h in
    match r with
    | inl e => (inl e, out1)
    | inr a => let (r2, out2) := k a (h ++ out1)%list in
               (r2, (out1 ++ out2)%list)
    end.

Definition emit (ev : event) : M unit := fun _ => (inr tt, [ev]).

Definition print (msg : string) : M unit := emit (Print msg).

(** The answer of an oracle that looks at the events so far. *)
Definition ask {A} (oracle : list event -> A) : M A :=
  fun h => (inr (oracle h), []).

Definition lift {A} (r : Py.exn + A) : M A := fun _ => (r, []).

(** [try: m  except Exception as e: handler e] *)
Definition try_except {A} (m : M A) (handler : Py.exn -> M A) : M A :=
  fun h =>
    let (r, out1) := m h in
    match r with
    | inr a => (inr a, out1)
    | inl e => let (r2, out2) := handler e (h ++ out1)%list in
               (r2, (out1 ++ out2)%list)
    end.

(** Iterating a set visits each of its members once. *)
Definition set_iter_ok (E : env) : Prop :=
  forall l : list string,
    NoDup (set_iter E l) /\ (forall x, In x (set_iter E l) <-> In x l).

Definition is_dialog (ev : event) : bool :=
  match ev with
  | AskString _ _ _ | AskOpenFilename _ _ _ | AskDirectory _ _ => true
  | _ => false
  end.

Definition is_print (ev : event) : bool :=
  match ev with Print _ => true | _ => false end.

(** [Popen] was called (whether or not the process then started). *)
Definition is_spawn (ev : event) : bool :=
  match ev with Popen _ => true | _ => false end.

Definition is_write (ev : event) : bool :=
  match ev with WriteFile _ _ => true | _ => false end.

(** The number of dialogs shown. *)
Definition dialogs (out : list event) : nat :=
  List.length (filter is_dialog out).

(** Either nothing was started and the result is not a success, or the
    result is the exception [e]. *)
Definition stopped_or_raised {A} (e : Py.exn) (ok : A)
    (res : (Py.exn + A) * list event) : Prop :=
  (existsb is_spawn (snd res) = false /\ fst res <> inr ok) \/
  fst res = inl e.

End Sys.

Declare Scope py_scope.
Delimit Scope py_scope with py.
Notation "x <- m ;; k" := (Sys.bind m (fun x => k))
  (at level 61, m at next level, right associativity) : py_scope.
Notation "m ;;; k" := (Sys.bind m (fun _ => k))
  (at level 61, right associativity) : py_scope.

Local Open Scope py_scope.

(* ================================================================= *)
(** ** app_launcher.py *)

Module AppLauncher.

Import Sys.

(** The pattern of a KEY=VALUE line is matched in three steps: the
    identifier (one of [A-Za-z_], then any number of [A-Za-z0-9_]),
    the equals sign between optional white space, and the rest of the
    line as the value. *)

(** The value group up to the end anchor: the dot does not match a
    line feed, and the anchor matches at the end of the text or before
    a line feed that ends it. *)
Fixpoint match_rest (v : string) : option string :=
  match v with
  | EmptyString => Some EmptyString
  | String c r =>
      if (c =? Py.newline)%char then
        match r with EmptyString => Some EmptyString | _ => None end
      else option_map (String c) (match_rest r)
  end.

(** [re.match(pattern, line)] and its two groups. *)
Definition match_assignment (line : string) : option (string * string) :=
  match line with
  | EmptyString => None
  | String c rest =>
      if Py.is_ident_start c then
        let (ident, after) := Py.span Py.is_word rest in
        match Py.lstrip after with
        | String eq after_eq =>
            if (eq =? "=")%char then
              option_map (fun value => (String c ident, value))
                         (match_rest (Py.lstrip after_eq))
            else None
        | EmptyString => None
        end
      else None
  end.

(** Remove quotes if present. *)
Definition unquote (value : string) : string :=
  let dq := String Py.dquote EmptyString in
  let sq := String Py.squote EmptyString in
  if Py.startswith dq value && Py.endswith dq value then
    Py.slice_1_m1 value
  else if Py.startswith sq value && Py.endswith sq value then
    Py.slice_1_m1 value
  else value.

(** The binding a line of the file provides, if any. *)
Definition line_binding (line : string) : option (string * string) :=
  let line := Py.strip line in
  if negb (Py.truthy line) || Py.startswith "#" line then None
  else
    match match_assignment line with
    | Some (key, value) => Some (key, unquote value)
    | None => None
    end.

(** One turn of the loop over the lines of the file. *)
Definition parse_line (env_vars : Dict.t string) (line : string)
  : Dict.t string :=
  match line_binding line with
  | Some (key, value) => Dict.set key value env_vars
  | None => env_vars
  end.

Definition parse_lines (lines : list string) : Dict.t string :=
  fold_left parse_line lines Dict.empty.

(** An identifier: a letter or an underscore, then letters, digits and
    underscores. *)
Definition is_identifier (key : string) : bool :=
  match key with
  | EmptyString => false
  | String c r => Py.is_ident_start c && Py.all_chars Py.is_word r
  end.

(** The binding that the last line providing [key] gives it. *)
Definition last_binding (key : string) (lines : list string)
  : option string :=
  let provided :=
    flat_map (fun line => match line_binding line with
                          | Some kv => [kv]
                          | None => []
                          end) lines in
  option_map snd
    (find (fun kv => (fst kv =? key)%string) (List.rev provided)).

Definition parse_env_file (E : env) (env_file_path : Pathlib.Path)
  : M (Dict.t string) :=
  let (lines, failure) := read_lines E env_file_path in
  let env_vars := parse_lines lines in
  match failure with
  | None => ret env_vars
  | Some e =>
      print ("Warning: Failed to parse " ++ Pathlib.to_str env_file_path
             ++ ": " ++ Py.exn_str e) ;;;
      ret env_vars
  end.

(** Escape special characters in batch files. *)
Definition escape_value (value : string) : string :=
  Py.replace_char Py.percent "%%" value.

(** One level of shell interpretation, as the specification describes
    it: each doubled percent sign is read back as one percent sign. *)
Fixpoint shell_unescape (s : string) : string :=
  match s with
  | String a (String b r as t) =>
      if ((a =? Py.percent) && (b =? Py.percent))%char
      then String Py.percent (shell_unescape r)
      else String a (shell_unescape t)
  | other => other
  end.

Definition set_line (kv : string * string) : string :=
  "set " ++ fst kv ++ "=" ++ escape_value (snd kv).

(** The lines a single env file adds to the batch file. *)
Definition env_file_lines (E : env) (env_file : Pathlib.Path)
  : M (list string) :=
  if exists_ E env_file then
    env_vars <- parse_env_file E env_file ;;
    match env_vars with
    | [] => ret []
    | _ :: _ =>
        let remark :=
          "REM Load environment variables from " ++ Pathlib.name env_file in
        ret (remark :: (map set_line env_vars ++ [""])%list)
    end
  else ret [].

Fixpoint env_files_lines (E : env) (env_files : list Pathlib.Path)
  : M (list string) :=
  match env_files with
  | [] => ret []
  | env_file :: rest =>
      l1 <- env_file_lines E env_file ;;
      l2 <- env_files_lines E rest ;;
      ret (l1 ++ l2)%list
  end.

Definition quoted (s : string) : string :=
  String Py.dquote s ++ String Py.dquote EmptyString.

(** The body of [launch_app], inside its [try]. *)
Definition launch_app_body (E : env)
    (script_path : Pathlib.Path) (parameters : string)
    (venv_path : option Pathlib.Path) (env_files : list Pathlib.Path)
    (working_directory : option Pathlib.Path) : M bool :=
  let cwd :=
    match working_directory with
    | Some wd => Pathlib.to_str wd
    | None => Pathlib.to_str (Pathlib.parent script_path)
    end in
  tmp <- lift (gettempdir E) ;;
  let temp_dir := Pathlib.of_str tmp in
  let batch_file :=
    Pathlib.join temp_dir
      ("launcher_" ++ Pathlib.stem script_path ++ "_" ++ getpid E ++ ".bat") in
  let head := ["@echo off"; ""; "cd /d " ++ quoted cwd; ""] in
  env_lines <- env_files_lines E env_files ;;
  venv_lines <-
    match venv_path with
    | Some venv =>
        let activate_script :=
          Pathlib.join (Pathlib.join venv "Scripts") "activate.bat" in
        if exists_ E activate_script then
          ret (Some ["REM Activate virtual environment";
                     "call " ++ quoted (Pathlib.to_str activate_script);
                     ""])
        else
          print ("Error: Venv activation script not found: "
                 ++ Pathlib.to_str activate_script) ;;;
          ret None
    | None => ret (Some [])
    end ;;
  match venv_lines with
  | None => ret false
  | Some venv_lines =>
      let script := quoted (Pathlib.to_str (resolve E script_path)) in
      run_line <-
        (if Py.truthy parameters then
           words <- lift (shlex_split E parameters) ;;
           ret ("python " ++ script ++ " " ++ String.concat " " words)
         else ret ("python " ++ script)) ;;
      let tail :=
        [""; "echo."; "echo Process finished. Press any key to close...";
         "pause > nul"] in
      let batch_lines :=
        (head ++ env_lines ++ venv_lines
           ++ ["REM Run Python script"; run_line] ++ tail)%list in
      let content := String.concat (String Py.newline EmptyString) batch_lines in
      match write_text E batch_file content with
      | Some e => raise e
      | None =>
          emit (WriteFile batch_file content) ;;;
          let full_cmd :=
            "start " ++ quoted "Python App" ++ " cmd /K "
              ++ quoted (Pathlib.to_str batch_file) in
          print ("Launching script: "
                 ++ Pathlib.to_str (resolve E script_path)) ;;;
          print ("Working directory: " ++ cwd) ;;;
          match venv_path with
          | Some venv => print ("Virtual environment: " ++ Pathlib.to_str venv)
          | None => ret tt
          end ;;;
          (if Py.truthy parameters then print ("Parameters: " ++ parameters)
           else ret tt) ;;;
          print ("Batch file: " ++ Pathlib.to_str batch_file) ;;;
          emit (Popen full_cmd) ;;;
          started <- ask (fun h => spawn E h full_cmd) ;;
          pid <- lift started ;;
          print ("Process started with PID: " ++ pid) ;;;
          ret true
      end
  end.

(** [launch_app]: any exception of the body is reported and turned
    into [False]. *)
Definition launch_app (E : env)
    (script_path : Pathlib.Path) (parameters : string)
    (venv_path : option Pathlib.Path) (env_files : list Pathlib.Path)
    (working_directory : option Pathlib.Path) : M bool :=
  try_except
    (launch_app_body E script_path parameters venv_path env_files
                     working_directory)
    (fun e =>
       print ("Error launching app: " ++ Py.exn_str e) ;;;
       emit (Traceback e) ;;;
       ret false).

End AppLauncher.

(* ================================================================= *)
(** ** env_parser.py *)

Module EnvParser.

Import Sys.

(** Match blah.env or blah.env.blah *)
Definition matches (path : Pathlib.Path) : bool :=
  (Pathlib.suffix path =? ".env")%string
  || Py.contains ".env." (Pathlib.name path).

Definition find_env_files (E : env) (directory : Pathlib.Path)
  : list Pathlib.Path :=
  if negb (exists_ E directory) || negb (is_dir E directory) then []
  else
    let env_files :=
      filter (fun path => is_file E path && matches path)
             (rglob_all E directory) in
    sorted_by_key (fun p => Py.lower (Pathlib.name p)) env_files.

End EnvParser.

(* ================================================================= *)
(** ** config_loader.py *)

Module ConfigLoader.

Import Sys.

(** Operations on values of unknown shape, as [json.load] returns
    them; each fails the way Python does on the wrong shape. *)

Definition attr_get (data : Py.value) : Py.exn + Dict.t Py.value :=
  match data with
  | Py.VDict d => inr d
  | _ => inl (Py.AttributeError "object has no attribute 'get'")
  end.

Definition attr_lower (v : Py.value) : Py.exn + string :=
  match v with
  | Py.VStr s => inr (Py.lower s)
  | _ => inl (Py.AttributeError "object has no attribute 'lower'")
  end.

(** [Path(v)] *)
Definition to_path (v : Py.value) : Py.exn + Pathlib.Path :=
  match v with
  | Py.VStr s => inr (Pathlib.of_str s)
  | _ => inl (Py.TypeError "expected str, bytes or os.PathLike object")
  end.

Fixpoint chars (s : string) : list Py.value :=
  match s with
  | EmptyString => []
  | String c r => Py.VStr (String c EmptyString) :: chars r
  end.

(** [for x in v] *)
Definition iterate (v : Py.value) : Py.exn + list Py.value :=
  match v with
  | Py.VList l => inr l
  | Py.VStr s => inr (chars s)
  | Py.VDict d => inr (map Py.VStr (Dict.keys d))
  | _ => inl (Py.TypeError "object is not iterable")
  end.

Definition fail_bind {A B} (r : Py.exn + A) (k : A -> Py.exn + B)
  : Py.exn + B :=
  match r with inl e => inl e | inr a => k a end.

Fixpoint map_fail {A B} (f : A -> Py.exn + B) (l : list A)
  : Py.exn + list B :=
  match l with
  | [] => inr []
  | x :: r =>
      fail_bind (f x) (fun y =>
      fail_bind (map_fail f r) (fun ys => inr (y :: ys)))
  end.

(** [Path(data[key]) if key in data else None] *)
Definition optional_path (key : string) (d : Dict.t Py.value)
  : Py.exn + option Pathlib.Path :=
  match Dict.get key d with
  | Some v => fail_bind (to_path v) (fun p => inr (Some p))
  | None => inr None
  end.

(** The fields [variables] and [parameter_sets] are stored as they
    are found; their types are left open so that the record serves
    both before and after they are read at their declared shapes. *)
Record AppConfig (V P : Type) : Type := {
  config_path : Pathlib.Path;
  config_name : string;
  name : Py.value;
  script : option Pathlib.Path;
  icon : option Pathlib.Path;
  venv : option Pathlib.Path;
  working_directory : option Pathlib.Path;
  description : Py.value;
  env_files : list Pathlib.Path;
  env_directory : option Pathlib.Path;
  variables : V;
  parameter_sets : P
}.

Definition RawConfig : Type := AppConfig Py.value Py.value.

(** [AppConfig.__init__] *)
Definition AppConfig_init (path : Pathlib.Path) (data : Py.value)
  : Py.exn + RawConfig :=
  let stem := Pathlib.stem path in
  fail_bind (attr_get data) (fun d =>
  let nm := Dict.get_default "name" (Py.VStr stem) d in
  fail_bind (optional_path "script" d) (fun script_ =>
  fail_bind (optional_path "icon" d) (fun icon_ =>
  fail_bind (optional_path "venv" d) (fun venv_ =>
  fail_bind (optional_path "working_directory" d) (fun wd =>
  let descr := Dict.get_default "description" (Py.VStr "") d in
  fail_bind (iterate (Dict.get_default "env_files" (Py.VList []) d))
            (fun items =>
  fail_bind (map_fail to_path items) (fun files =>
  fail_bind (optional_path "env_directory" d) (fun env_dir =>
  inr {| config_path := path;
         config_name := stem;
         name := nm;
         script := script_;
         icon := icon_;
         venv := venv_;
         working_directory := wd;
         description := descr;
         env_files := files;
         env_directory := env_dir;
         variables := Dict.get_default "variables" (Py.VDict []) d;
         parameter_sets :=
           Dict.get_default "parameter_sets" (Py.VList []) d |})))))))).

(** A [set] of paths, in the order its members were first added. *)
Definition set_add (p : Pathlib.Path) (s : list Pathlib.Path)
  : list Pathlib.Path :=
  if existsb (Pathlib.eqb p) s then s else (s ++ [p])%list.

(** Match .env patterns *)
Definition env_name_matches (filename : string) : bool :=
  (filename =? ".env")%string
  || Py.endswith ".env" filename
  || Py.contains ".env." filename.

Definition add_explicit (E : env) (s : list Pathlib.Path)
    (env_file : Pathlib.Path) : list Pathlib.Path :=
  if exists_ E env_file then set_add (resolve E env_file) s else s.

Definition add_scanned (E : env) (s : list Pathlib.Path)
    (file_path : Pathlib.Path) : list Pathlib.Path :=
  if negb (is_file E file_path) then s
  else if env_name_matches (Pathlib.name file_path)
       then set_add (resolve E file_path) s
       else s.

(** [AppConfig.get_all_env_files] *)
Definition get_all_env_files {V P} (E : env) (self : AppConfig V P)
  : list Pathlib.Path :=
  let explicit := fold_left (add_explicit E) (env_files self) [] in
  let all :=
    match env_directory self with
    | Some dir =>
        if exists_ E dir
        then fold_left (add_scanned E) (rglob_all E dir) explicit
        else explicit
    | None => explicit
    end in
  sorted Pathlib.leb all.

(** The resolved paths discovery draws from: the explicit files that
    exist, and the regular files of the scan whose name matches. *)
Definition explicit_sources {V P} (E : env) (self : AppConfig V P)
  : list Pathlib.Path :=
  map (resolve E) (filter (exists_ E) (env_files self)).

Definition scanned_sources {V P} (E : env) (self : AppConfig V P)
  : list Pathlib.Path :=
  match env_directory self with
  | Some dir =>
      if exists_ E dir then
        map (resolve E)
            (filter (fun f => is_file E f
                              && env_name_matches (Pathlib.name f))
                    (rglob_all E dir))
      else []
  | None => []
  end.

(** Adding the paths of a list to a set, one after the other. *)
Definition add_all (l s : list Pathlib.Path) : list Pathlib.Path :=
  fold_left (fun s p => set_add p s) l s.

(** [AppConfig.validate] *)
Definition validate {V P} (E : env) (self : AppConfig V P)
  : bool * option string :=
  match script self with
  | None => (false, Some "Missing required field: script")
  | Some script_ =>
      if negb (exists_ E script_) then
        (false, Some ("Script not found: " ++ Pathlib.to_str script_))
      else
        match venv self with
        | Some venv_ =>
            if negb (exists_ E (Pathlib.join (Pathlib.join venv_ "Scripts")
                                             "python.exe"))
            then (false, Some ("Invalid venv: " ++ Pathlib.to_str venv_))
            else (true, None)
        | None => (true, None)
        end
  end.

(** The index file of a configuration directory. *)
Definition master_config_path (config_dir : Pathlib.Path) : Pathlib.Path :=
  Pathlib.join config_dir "master.json".

(** Try to load master config *)
Definition load_custom_order (E : env) (config_dir : Pathlib.Path)
  : M Py.value :=
  let master := master_config_path config_dir in
  if exists_ E master then
    try_except
      (master_data <- lift (load_json E master) ;;
       d <- lift (attr_get master_data) ;;
       ret (Dict.get_default "order" (Py.VList []) d))
      (fun e =>
         print ("Warning: Failed to load master.json: " ++ Py.exn_str e) ;;;
         ret (Py.VList []))
  else ret (Py.VList []).

(** [config_name in configs], for a key of any type: lists and
    dictionaries cannot be hashed, and nothing but a string equals a
    string key.  The answer is the key's entry, when it is there. *)
Definition key_in {V} (k : Py.value) (configs : Dict.t V)
  : Py.exn + option (string * V) :=
  match k with
  | Py.VStr s =>
      inr (match Dict.get s configs with
           | Some c => Some (s, c)
           | None => None
           end)
  | Py.VList _ | Py.VDict _ => inl (Py.TypeError "unhashable type")
  | _ => inr None
  end.

(** Add configs in custom order *)
Fixpoint take_ordered {V} (custom_order : list Py.value)
    (configs : Dict.t V) (sorted_configs : list V)
  : Py.exn + (list V * Dict.t V) :=
  match custom_order with
  | [] => inr (sorted_configs, configs)
  | k :: rest =>
      fail_bind (key_in k configs) (fun found =>
      match found with
      | Some (s, c) =>
          take_ordered rest (Dict.del s configs)
                       (sorted_configs ++ [c])%list
      | None => take_ordered rest configs sorted_configs
      end)
  end.

(** [sorted(configs.values(), key=lambda c: c.name.lower())]: the keys
    are computed first, then the values are sorted by them. *)
Definition sort_remaining {V P} (configs : Dict.t (AppConfig V P))
  : Py.exn + list (AppConfig V P) :=
  fail_bind
    (map_fail (fun c => fail_bind (attr_lower (name c))
                                  (fun k => inr (k, c)))
              (Dict.values configs))
    (fun keyed => inr (map snd (sorted_by_key fst keyed))).

(** The display name a configuration is sorted by. *)
Definition lower_name {V P} (c : AppConfig V P) : string :=
  match name c with
  | Py.VStr s => Py.lower s
  | _ => EmptyString
  end.

(** The identities of an order list that have a configuration, each at
    its first occurrence; and the configurations no identity of the
    order list names. *)
Definition listed {V} (order : list string) (configs : Dict.t V)
  : list string :=
  first_occurrences (filter (fun id => Dict.mem id configs) order).

Definition unlisted {V} (order : list string) (configs : Dict.t V)
  : Dict.t V :=
  filter (fun kv => negb (existsb (fun id => (fst kv =? id)%string) order))
         configs.

(** [ConfigLoader._sort_configs] *)
Definition _sort_configs {V P} (E : env) (config_dir : Pathlib.Path)
    (configs : Dict.t (AppConfig V P)) : M (list (AppConfig V P)) :=
  custom_order <- load_custom_order E config_dir ;;
  order <- lift (iterate custom_order) ;;
  taken <- lift (take_ordered order configs []) ;;
  remaining <- lift (sort_remaining (snd taken)) ;;
  ret (fst taken ++ remaining)%list.

(** One configuration file: parsed, validated and kept, or reported. *)
Definition load_one (E : env) (configs : Dict.t RawConfig)
    (config_file : Pathlib.Path) : M (Dict.t RawConfig) :=
  if (Pathlib.name config_file =? "master.json")%string then ret configs
  else
    try_except
      (data <- lift (load_json E config_file) ;;
       config <- lift (AppConfig_init config_file data) ;;
       let (is_valid, error) := validate E config in
       if is_valid then ret (Dict.set (config_name config) config configs)
       else
         print ("Warning: Invalid config " ++ Pathlib.name config_file
                ++ ": " ++ match error with Some m => m | None => "None" end) ;;;
         ret configs)
      (fun e =>
         print ("Warning: Failed to load " ++ Pathlib.name config_file
                ++ ": " ++ Py.exn_str e) ;;;
         ret configs).

Fixpoint load_each (E : env) (files : list Pathlib.Path)
    (configs : Dict.t RawConfig) : M (Dict.t RawConfig) :=
  match files with
  | [] => ret configs
  | f :: rest =>
      configs' <- load_one E configs f ;;
      load_each E rest configs'
  end.

(** [ConfigLoader.load_all_configs] *)
Definition load_all_configs (E : env) (config_dir : Pathlib.Path)
  : M (list RawConfig) :=
  configs <- load_each E (glob_json E config_dir) Dict.empty ;;
  _sort_configs E config_dir configs.

End ConfigLoader.

(* ================================================================= *)
(** ** variable_resolver.py *)

Module VariableResolver.

Import Sys.

(** The pattern for variable references, a dollar sign and the
    longest run of word characters after it, cuts a text into the
    references it matches and the characters between them. *)
Inductive piece : Type :=
| Lit (c : ascii)
| Ref (var_name : string).

(** What a pending dollar sign with the word characters [acc] after it
    amounts to at the end of the run. *)
Definition flush (acc : string) : list piece :=
  match acc with
  | EmptyString => [Lit Py.dollar]
  | _ => [Ref acc]
  end.

(** [cur] is [Some acc] inside a run started by a dollar sign. *)
Fixpoint scan (s : string) (cur : option string) : list piece :=
  match s, cur with
  | EmptyString, None => []
  | EmptyString, Some acc => flush acc
  | String c r, None =>
      if (c =? Py.dollar)%char then scan r (Some EmptyString)
      else Lit c :: scan r None
  | String c r, Some acc =>
      if Py.is_word c then scan r (Some (acc ++ String c EmptyString))
      else
        (flush acc ++
           (if (c =? Py.dollar)%char then scan r (Some EmptyString)
            else Lit c :: scan r None))%list
  end.

Definition pieces (params : string) : list piece := scan params None.

(** [re.findall(pattern, params)] *)
Fixpoint findall (ps : list piece) : list string :=
  match ps with
  | [] => []
  | Lit _ :: r => findall r
  | Ref v :: r => v :: findall r
  end.

(** [re.sub(pattern, replace_var, params)] *)
Fixpoint sub (replace_var : string -> string) (ps : list piece) : string :=
  match ps with
  | [] => EmptyString
  | Lit c :: r => String c (sub replace_var r)
  | Ref v :: r => replace_var v ++ sub replace_var r
  end.

Definition VarConfig : Type := Dict.t string.

Record resolver : Type := {
  variables_config : Dict.t VarConfig;
  resolved_values : Dict.t string
}.

(** [VariableResolver.__init__] *)
Definition init (variables_config : Dict.t VarConfig) : resolver :=
  {| variables_config := variables_config; resolved_values := Dict.empty |}.

(** [default if default else None] *)
Definition default_or_none (default : string) : option string :=
  if Py.truthy default then Some default else None.

Definition _prompt_file_picker (E : env) (var_config : VarConfig)
    (default : string) : M (option string) :=
  let prompt := Dict.get_default "prompt" "Select a file" var_config in
  let initial_dir :=
    if Py.truthy default && exists_ E (Pathlib.of_str default)
    then Some (Pathlib.parent (Pathlib.of_str default)) else None in
  let initial_file :=
    if Py.truthy default then Pathlib.name (Pathlib.of_str default)
    else EmptyString in
  emit (AskOpenFilename prompt initial_dir initial_file) ;;;
  result <- ask (fun h => askopenfilename E h prompt initial_dir initial_file) ;;
  ret (if Py.truthy result then Some result else default_or_none default).

Definition _prompt_folder_picker (E : env) (var_config : VarConfig)
    (default : string) : M (option string) :=
  let prompt := Dict.get_default "prompt" "Select a folder" var_config in
  let initial_dir :=
    if Py.truthy default && exists_ E (Pathlib.of_str default)
    then Some (Pathlib.of_str default) else None in
  emit (AskDirectory prompt initial_dir) ;;;
  result <- ask (fun h => askdirectory E h prompt initial_dir) ;;
  ret (if Py.truthy result then Some result else default_or_none default).

Definition _prompt_input (E : env) (var_config : VarConfig)
    (default : string) : M (option string) :=
  let prompt := Dict.get_default "prompt" "Enter value" var_config in
  emit (AskString "Input Required" prompt default) ;;;
  result <- ask (fun h => askstring E h "Input Required" prompt default) ;;
  ret (match result with
       | Some text => Some text
       | None => default_or_none default
       end).

Definition default_format : string := "%Y-%m-%d_%H-%M-%S".

Definition _resolve_variable (E : env) (self : resolver)
    (var_name : string) : M (option string) :=
  match Dict.get var_name (variables_config self) with
  | None =>
      print ("Warning: Unknown variable $" ++ var_name) ;;;
      ret (Some ("$" ++ var_name))
  | Some var_config =>
      let var_type := Dict.get_default "type" "input" var_config in
      let default := Dict.get_default "default" "" var_config in
      if (var_type =? "filepicker")%string then
        _prompt_file_picker E var_config default
      else if (var_type =? "folderpicker")%string then
        _prompt_folder_picker E var_config default
      else if (var_type =? "input")%string then
        _prompt_input E var_config default
      else if (var_type =? "datetime")%string then
        let format_str := Dict.get_default "format" default_format var_config in
        try_except
          (emit Now ;;;
           formatted <- ask (fun h => strftime E h format_str) ;;
           text <- lift formatted ;;
           ret (Some text))
          (fun e =>
             print ("Warning: Invalid datetime format '" ++ format_str
                    ++ "': " ++ Py.exn_str e) ;;;
             emit Now ;;;
             text <- ask (strftime_default E) ;;
             ret (Some text))
      else if (var_type =? "timestamp")%string then
        emit Now ;;;
        seconds <- ask (timestamp E) ;;
        ret (Some seconds)
      else if (var_type =? "clipboard")%string then
        try_except
          (emit Paste ;;;
           pasted <- ask (paste E) ;;
           text <- lift pasted ;;
           ret (Some text))
          (fun e =>
             print ("Warning: Failed to get clipboard: " ++ Py.exn_str e) ;;;
             ret (Some EmptyString))
      else
        print ("Warning: Unknown variable type '" ++ var_type
               ++ "' for $" ++ var_name) ;;;
        ret (Some default)
  end.

(** [self.resolved_values[var_name] = value] *)
Definition with_value (self : resolver) (var_name value : string) : resolver :=
  {| variables_config := variables_config self;
     resolved_values := Dict.set var_name value (resolved_values self) |}.

(** Resolve each unique variable.  The result tells whether the loop
    ran to its end ([false]: the user cancelled), with the resolver as
    the loop left it. *)
Fixpoint resolve_each (E : env) (names : list string) (self : resolver)
  : M (bool * resolver) :=
  match names with
  | [] => ret (true, self)
  | var_name :: rest =>
      if Dict.mem var_name (resolved_values self) then
        resolve_each E rest self
      else
        value <- _resolve_variable E self var_name ;;
        match value with
        | None => ret (false, self)
        | Some v =>
            resolve_each E rest (with_value self var_name v)
        end
  end.

Definition replace_var (self : resolver) (var_name : string) : string :=
  Dict.get_default var_name ("$" ++ var_name) (resolved_values self).

(** [VariableResolver.resolve_parameters]: the resolved string, or
    [None] if the user cancelled, and the resolver afterwards. *)
Definition resolve_parameters (E : env) (self : resolver) (params : string)
  : M (option string * resolver) :=
  let variables_found := findall (pieces params) in
  done <- resolve_each E (set_iter E variables_found) self ;;
  let (completed, self') := done in
  if completed then ret (Some (sub (replace_var self') (pieces params)), self')
  else ret (None, self').

(** [out] is what one resolution of [var_name] does, from some state of
    the resolver and of the world. *)
Definition resolution_of (E : env) (var_name : string) (out : list event)
  : Prop :=
  exists self h, snd (_resolve_variable E self var_name h) = out.

(** [VariableResolver.reset] *)
Definition reset (self : resolver) : resolver :=
  {| variables_config := variables_config self;
     resolved_values := Dict.empty |}.

End VariableResolver.

(* ================================================================= *)
(** ** menu_builder.py *)

Module MenuBuilder.

Import Sys.

Definition ParamSet : Type := Dict.t string.

(** A configuration whose variables and parameter sets have their
    declared shapes. *)
Definition Config : Type :=
  ConfigLoader.AppConfig (Dict.t VariableResolver.VarConfig) (list ParamSet).

Record builder : Type := {
  on_launch_callback : option (Config -> M unit)
}.

(** Truthiness of an optional dictionary. *)
Definition chosen (param_set : option ParamSet) : option ParamSet :=
  match param_set with
  | Some [] => None
  | other => other
  end.

(** The launch itself, once the parameters are known. *)
Definition launch_resolved (E : env) (self : builder) (app_config : Config)
    (env_file : option Pathlib.Path) (params : string) : M unit :=
  let env_files :=
    match env_file with Some f => [f] | None => [] end in
  success <-
    match ConfigLoader.script app_config with
    | Some script_path =>
        AppLauncher.launch_app E script_path params
          (ConfigLoader.venv app_config) env_files
          (ConfigLoader.working_directory app_config)
    | None =>
        (* without a script [launch_app] fails inside its [try] *)
        let e := Py.AttributeError "'NoneType' object has no attribute 'stem'" in
        print ("Error launching app: " ++ Py.exn_str e) ;;;
        emit (Traceback e) ;;;
        ret false
    end ;;
  match success, on_launch_callback self with
  | true, Some callback => callback app_config
  | _, _ => ret tt
  end.

(** [MenuBuilder.launch_app_with_config] *)
Definition launch_app_with_config (E : env) (self : builder)
    (app_config : Config) (env_file : option Pathlib.Path)
    (param_set : option ParamSet) : M unit :=
  match chosen param_set with
  | Some ps =>
      let params := Dict.get_default "params" "" ps in
      if Py.contains "$" params then
        let resolver :=
          VariableResolver.init (ConfigLoader.variables app_config) in
        resolved <- VariableResolver.resolve_parameters E resolver params ;;
        match fst resolved with
        | None => ret tt
        | Some resolved_params =>
            launch_resolved E self app_config env_file resolved_params
        end
      else launch_resolved E self app_config env_file params
  | None => launch_resolved E self app_config env_file ""
  end.

(** [MenuBuilder.should_show_env_menu] *)
Definition should_show_env_menu (E : env) (app_config : Config) : bool :=
  (0 <? List.length (ConfigLoader.get_all_env_files E app_config))%nat.

(** [MenuBuilder.should_show_param_menu] *)
Definition should_show_param_menu (app_config : Config) : bool :=
  (0 <? List.length (ConfigLoader.parameter_sets app_config))%nat.

(** [MenuBuilder.get_menu_flow] *)
Definition get_menu_flow (E : env) (app_config : Config) : string :=
  let has_env := should_show_env_menu E app_config in
  let has_param := should_show_param_menu app_config in
  if negb has_env && negb has_param then "direct"
  else if has_env && negb has_param then "env_only"
  else if negb has_env && has_param then "param_only"
  else "env_then_param".

(** [MenuBuilder.build_env_menu_items] *)
Definition build_env_menu_items (E : env) (app_config : Config)
  : list (string * option Pathlib.Path) :=
  ("No env file", None)
    :: map (fun env_file => (Pathlib.name env_file, Some env_file))
           (ConfigLoader.get_all_env_files E app_config).

(** [MenuBuilder.build_param_menu_items] *)
Definition build_param_menu_items (app_config : Config)
  : list (string * ParamSet) :=
  let items :=
    map (fun param_set => (Dict.get_default "name" "Unnamed" param_set, param_set))
        (ConfigLoader.parameter_sets app_config) in
  match items with
  | [] => [("Run", [("name", "Run"); ("params", "")])]
  | _ :: _ => items
  end.

End MenuBuilder.

(* ================================================================= *)
(** ** Worlds to run the program in *)

Module Scenario.

Import Sys.

Definition among (files : list Pathlib.Path) (p : Pathlib.Path) : bool :=
  existsb (Pathlib.eqb p) files.

(** A world given by its files and directories, by what a recursive
    scan and a listing of configuration files find, by the content of
    its JSON and text files, by what the user types into a text prompt
    and by what comes of starting a process.  File and folder
    selections are cancelled, paths are already resolved, a parameter
    string is taken to be one word, and nothing else fails. *)
Definition world
    (files dirs scan configs : list Pathlib.Path)
    (json : Pathlib.Path -> Py.exn + Py.value)
    (text : Pathlib.Path -> list string)
    (typed : list event -> option string)
    (started : Py.exn + string) : env :=
  {| exists_ := fun p => among files p || among dirs p;
     is_file := among files;
     is_dir := among dirs;
     resolve := fun p => p;
     rglob_all := fun _ => scan;
     glob_json := fun _ => configs;
     read_lines := fun p => (text p, None);
     load_json := json;
     write_text := fun _ _ => None;
     gettempdir := inr "C:\Temp";
     getpid := "4242";
     spawn := fun _ _ => started;
     shlex_split := fun s => inr [s];
     askstring := fun h _ _ _ => typed h;
     askopenfilename := fun _ _ _ _ => "";
     askdirectory := fun _ _ _ => "";
     set_iter := first_occurrences;
     strftime := fun _ _ => inr "2024-01-01_00-00-00";
     strftime_default := fun _ => "2024-01-01_00-00-00";
     timestamp := fun _ => "1704067200";
     paste := fun _ => inr "" |}.

Definition no_json (p : Pathlib.Path) : Py.exn + Py.value :=
  inl (Py.OSError "No such file or directory").

Definition no_text (p : Pathlib.Path) : list string := [].

Definition script_py : Pathlib.Path := Pathlib.of_str "C:\apps\demo\run.py".

(** A configuration of the given variables and parameter sets around
    one script. *)
Definition config_of (V P : Type) (variables : V) (parameter_sets : P)
  : ConfigLoader.AppConfig V P :=
  {| ConfigLoader.config_path := Pathlib.of_str "C:\configs\demo.json";
     ConfigLoader.config_name := "demo";
     ConfigLoader.name := Py.VStr "Demo";
     ConfigLoader.script := Some script_py;
     ConfigLoader.icon := None;
     ConfigLoader.venv := None;
     ConfigLoader.working_directory := None;
     ConfigLoader.description := Py.VStr "";
     ConfigLoader.env_files := [];
     ConfigLoader.env_directory := None;
     ConfigLoader.variables := variables;
     ConfigLoader.parameter_sets := parameter_sets |}.

Definition plain_builder : MenuBuilder.builder :=
  {| MenuBuilder.on_launch_callback := None |}.

(** The worked example of a "Debug" parameter set with an input
    variable "mode" that defaults to "dev". *)
Definition mode_variables : Dict.t VariableResolver.VarConfig :=
  [("mode", [("type", "input"); ("default", "dev")])].

Definition debug_set : MenuBuilder.ParamSet :=
  [("name", "Debug"); ("params", "--mode=$mode")].

Definition debug_config : MenuBuilder.Config :=
  config_of mode_variables [debug_set].

(** The same with an input variable that has no default. *)
Definition bare_variables : Dict.t VariableResolver.VarConfig :=
  [("mode", [("type", "input")])].

Definition bare_config : MenuBuilder.Config :=
  config_of bare_variables [debug_set].

(** A user who cancels every text prompt, and one who types [text]
    into every text prompt; processes start. *)
Definition cancelling_world : env :=
  world [script_py] [] [] [] no_json no_text (fun _ => None) (inr "1234").

Definition typing_world (text : string) : env :=
  world [script_py] [] [] [] no_json no_text (fun _ => Some text)
        (inr "1234").

(** A project directory for discovery: a note and two env files in two
    sub-directories.  The note is also listed explicitly. *)
Definition proj_dir : Pathlib.Path := Pathlib.of_str "C:\proj".
Definition notes_txt : Pathlib.Path := Pathlib.of_str "C:\proj\notes.txt".
Definition a_env : Pathlib.Path := Pathlib.of_str "C:\proj\b\a.env".
Definition z_env : Pathlib.Path := Pathlib.of_str "C:\proj\a\z.env".
Definition dot_env : Pathlib.Path := Pathlib.of_str "C:\proj\.env".

Definition discovery_world : env :=
  world [notes_txt; a_env; z_env; dot_env] [proj_dir]
        [a_env; z_env; notes_txt] [] no_json no_text (fun _ => None)
        (inr "1234").

Definition discovery_config : ConfigLoader.RawConfig :=
  {| ConfigLoader.config_path := Pathlib.of_str "C:\configs\demo.json";
     ConfigLoader.config_name := "demo";
     ConfigLoader.name := Py.VStr "Demo";
     ConfigLoader.script := Some script_py;
     ConfigLoader.icon := None;
     ConfigLoader.venv := None;
     ConfigLoader.working_directory := None;
     ConfigLoader.description := Py.VStr "";
     ConfigLoader.env_files := [notes_txt];
     ConfigLoader.env_directory := Some proj_dir;
     ConfigLoader.variables := Py.VDict [];
     ConfigLoader.parameter_sets := Py.VList [] |}.

(** A configuration directory with an index. *)
Definition config_dir : Pathlib.Path := Pathlib.of_str "C:\configs".

Definition named (id display : string) : ConfigLoader.RawConfig :=
  {| ConfigLoader.config_path := Pathlib.join config_dir (id ++ ".json");
     ConfigLoader.config_name := id;
     ConfigLoader.name := Py.VStr display;
     ConfigLoader.script := Some script_py;
     ConfigLoader.icon := None;
     ConfigLoader.venv := None;
     ConfigLoader.working_directory := None;
     ConfigLoader.description := Py.VStr "";
     ConfigLoader.env_files := [];
     ConfigLoader.env_directory := None;
     ConfigLoader.variables := Py.VDict [];
     ConfigLoader.parameter_sets := Py.VList [] |}.

Definition four_configs : Dict.t ConfigLoader.RawConfig :=
  [("a", named "a" "Apple"); ("b", named "b" "Banana");
   ("c", named "c" "Zed"); ("d", named "d" "alpha")].

Definition index_json (p : Pathlib.Path) : Py.exn + Py.value :=
  if Pathlib.eqb p (ConfigLoader.master_config_path config_dir) then
    inr (Py.VDict [("order", Py.VList [Py.VStr "b"; Py.VStr "ghost";
                                        Py.VStr "a"])])
  else no_json p.

Definition indexed_world : env :=
  world [ConfigLoader.master_config_path config_dir] [config_dir] [] []
        index_json no_text (fun _ => None) (inr "1234").

(** A configuration directory whose only record has a number for a
    name, next to an existing script, and no index. *)
Definition app_json : Pathlib.Path := Pathlib.join config_dir "app.json".

Definition numbered_json (p : Pathlib.Path) : Py.exn + Py.value :=
  if Pathlib.eqb p app_json then
    inr (Py.VDict [("script", Py.VStr "C:\apps\demo\run.py");
                   ("name", Py.VNum 5)])
  else no_json p.

Definition numbered_world : env :=
  world [script_py; app_json] [config_dir] [] [app_json]
        numbered_json no_text (fun _ => None) (inr "1234").

End Scenario.

(* ================================================================= *)
(** ** venv_detector.py *)

Module VenvDetector.

Import Sys.

(** Common venv directory names *)
Definition venv_names : list string := ["venv"; ".venv"; "virtualenv"].

Definition python_exe (venv_path : Pathlib.Path) : Pathlib.Path :=
  Pathlib.join (Pathlib.join venv_path "Scripts") "python.exe".

(** One of the three loops: the first name under [directory] that has
    an interpreter. *)
Fixpoint first_venv (E : env) (directory : Pathlib.Path)
    (names : list string) : option Pathlib.Path :=
  match names with
  | [] => None
  | venv_name :: rest =>
      let venv_path := Pathlib.join directory venv_name in
      if exists_ E (python_exe venv_path) then Some venv_path
      else first_venv E directory rest
  end.

Definition script_dir_of (E : env) (script_path : Pathlib.Path)
  : Pathlib.Path :=
  if is_file E script_path then Pathlib.parent script_path else script_path.

(** [detect_venv]: the parent directory first, then the directory of
    the script, then the grandparent directory. *)
Definition detect_venv (E : env) (script_path : Pathlib.Path)
  : option Pathlib.Path :=
  let script_dir := script_dir_of E script_path in
  let parent_dir := Pathlib.parent script_dir in
  match first_venv E parent_dir venv_names with
  | Some venv_path => Some venv_path
  | None =>
      match first_venv E script_dir venv_names with
      | Some venv_path => Some venv_path
      | None =>
          let grandparent_dir := Pathlib.parent parent_dir in
          first_venv E grandparent_dir venv_names
      end
  end.

(** The places looked at, in the order in which they are looked at. *)
Definition candidates (E : env) (script_path : Pathlib.Path)
  : list Pathlib.Path :=
  let script_dir := script_dir_of E script_path in
  let parent_dir := Pathlib.parent script_dir in
  flat_map (fun directory => map (Pathlib.join directory) venv_names)
           [parent_dir; script_dir; Pathlib.parent parent_dir].

End VenvDetector.

(* ================================================================= *)
(** ** app_wizard.py

    The wizard is a window; what is kept of it is the text of its name
    field and the selections it holds.  Its labels, which only display
    the selections, are left out.  What it shows and writes is recorded
    as a sequence of events of its own. *)

Module AppWizard.

Import Sys.

Record wizard : Type := {
  config_dir : Pathlib.Path;
  on_complete_callback : option (Py.exn + unit);
  name_entry : string;
  selected_script : option Pathlib.Path;
  selected_venv : option Pathlib.Path;
  selected_icon : option Pathlib.Path;
  selected_env_files : list Pathlib.Path;
  selected_env_directory : option Pathlib.Path
}.

(** What the user answers, and what comes of writing a file. *)
Record ui : Type := {
  askyesno : string -> string -> bool;
  dump : Pathlib.Path -> Dict.t Py.value -> option Py.exn
}.

Inductive event : Type :=
| ShowError (title message : string)
| ShowInfo (title message : string)
| AskYesNo (title message : string)
| Dump (config_path : Pathlib.Path) (config : Dict.t Py.value)
| Callback
| Destroy.

(** [AppWizard.__init__] *)
Definition init (config_dir : Pathlib.Path)
    (on_complete_callback : option (Py.exn + unit)) : wizard :=
  {| config_dir := config_dir;
     on_complete_callback := on_complete_callback;
     name_entry := "";
     selected_script := None;
     selected_venv := None;
     selected_icon := None;
     selected_env_files := [];
     selected_env_directory := None |}.

Definition upper_char (c : ascii) : ascii :=
  if Py.is_lower c then ascii_of_nat (nat_of_ascii c - 32) else c.

(** [s.title()]: a letter that follows a letter is lower-cased, any
    other letter is upper-cased. *)
Fixpoint title_from (previous_is_cased : bool) (s : string) : string :=
  match s with
  | EmptyString => EmptyString
  | String c r =>
      if Py.is_lower c then
        String (if previous_is_cased then c else upper_char c)
               (title_from true r)
      else if Py.is_upper c then
        String (if previous_is_cased then Py.lower_char c else c)
               (title_from true r)
      else String c (title_from false r)
  end.

Definition title (s : string) : string := title_from false s.

(** [select_script], given what the file dialog returned. *)
Definition select_script (E : env) (filepath : string) (self : wizard)
  : wizard :=
  if Py.truthy filepath then
    let script := Pathlib.of_str filepath in
    let env_files := EnvParser.find_env_files E (Pathlib.parent script) in
    {| config_dir := config_dir self;
       on_complete_callback := on_complete_callback self;
       name_entry :=
         if negb (Py.truthy (name_entry self)) then
           title (Py.replace_char "_" " " (Pathlib.stem script))
         else name_entry self;
       selected_script := Some script;
       selected_venv := VenvDetector.detect_venv E script;
       selected_icon := selected_icon self;
       selected_env_files :=
         match env_files with
         | [] => selected_env_files self
         | _ :: _ => env_files
         end;
       selected_env_directory := selected_env_directory self |}
  else self.

Definition with_venv (self : wizard) (venv : option Pathlib.Path) : wizard :=
  {| config_dir := config_dir self;
     on_complete_callback := on_complete_callback self;
     name_entry := name_entry self;
     selected_script := selected_script self;
     selected_venv := venv;
     selected_icon := selected_icon self;
     selected_env_files := selected_env_files self;
     selected_env_directory := selected_env_directory self |}.

(** [select_venv], given what the directory dialog returned. *)
Definition select_venv (E : env) (dirpath : string) (self : wizard)
  : wizard * list event :=
  if Py.truthy dirpath then
    let venv_path := Pathlib.of_str dirpath in
    if exists_ E (VenvDetector.python_exe venv_path) then
      (with_venv self (Some venv_path), [])
    else
      (self,
       [ShowError "Invalid Venv"
          "Selected directory is not a valid virtual environment."])
  else (self, []).

(** [clear_venv] *)
Definition clear_venv (self : wizard) : wizard := with_venv self None.

Definition with_icon (self : wizard) (icon : option Pathlib.Path) : wizard :=
  {| config_dir := config_dir self;
     on_complete_callback := on_complete_callback self;
     name_entry := name_entry self;
     selected_script := selected_script self;
     selected_venv := selected_venv self;
     selected_icon := icon;
     selected_env_files := selected_env_files self;
     selected_env_directory := selected_env_directory self |}.

(** [select_icon] and [clear_icon] *)
Definition select_icon (filepath : string) (self : wizard) : wizard :=
  if Py.truthy filepath then with_icon self (Some (Pathlib.of_str filepath))
  else self.

Definition clear_icon (self : wizard) : wizard := with_icon self None.

Definition with_env (self : wizard) (files : list Pathlib.Path)
    (directory : option Pathlib.Path) : wizard :=
  {| config_dir := config_dir self;
     on_complete_callback := on_complete_callback self;
     name_entry := name_entry self;
     selected_script := selected_script self;
     selected_venv := selected_venv self;
     selected_icon := selected_icon self;
     selected_env_files := files;
     selected_env_directory := directory |}.

(** The buttons of [configure_env_files]. *)
Definition add_file (filepath : string) (self : wizard) : wizard :=
  if Py.truthy filepath then
    let env_file := Pathlib.of_str filepath in
    if existsb (Pathlib.eqb env_file) (selected_env_files self) then self
    else with_env self (selected_env_files self ++ [env_file])%list
                  (selected_env_directory self)
  else self.

Fixpoint pop {A} (index : nat) (l : list A) : list A :=
  match l, index with
  | [], _ => []
  | _ :: r, O => r
  | x :: r, S i => x :: pop i r
  end.

(** The index is that of a line of the list box, which shows the
    files selected. *)
Definition remove_file (index : nat) (self : wizard) : wizard :=
  with_env self (pop index (selected_env_files self))
           (selected_env_directory self).

Definition select_dir (dirpath : string) (self : wizard) : wizard :=
  if Py.truthy dirpath then
    with_env self (selected_env_files self) (Some (Pathlib.of_str dirpath))
  else self.

Definition clear_dir (self : wizard) : wizard :=
  with_env self (selected_env_files self) None.

(** Typing into the name field. *)
Definition type_name (text : string) (self : wizard) : wizard :=
  {| config_dir := config_dir self;
     on_complete_callback := on_complete_callback self;
     name_entry := text;
     selected_script := selected_script self;
     selected_venv := selected_venv self;
     selected_icon := selected_icon self;
     selected_env_files := selected_env_files self;
     selected_env_directory := selected_env_directory self |}.

(** [str(p).replace(backslash, "/")] *)
Definition forward_slashes (p : Pathlib.Path) : string :=
  Py.replace_char "\" "/" (Pathlib.to_str p).

(** Build config *)
Definition build_config (self : wizard) (app_name : string)
    (script : Pathlib.Path) : Dict.t Py.value :=
  let config :=
    [("name", Py.VStr app_name);
     ("script", Py.VStr (forward_slashes script))] in
  let config :=
    match selected_icon self with
    | Some icon => Dict.set "icon" (Py.VStr (forward_slashes icon)) config
    | None => config
    end in
  let config :=
    match selected_venv self with
    | Some venv => Dict.set "venv" (Py.VStr (forward_slashes venv)) config
    | None => config
    end in
  let config :=
    match selected_env_files self with
    | [] => config
    | files =>
        Dict.set "env_files"
          (Py.VList (map (fun f => Py.VStr (forward_slashes f)) files))
          config
    end in
  match selected_env_directory self with
  | Some directory =>
      Dict.set "env_directory" (Py.VStr (forward_slashes directory)) config
  | None => config
  end.

(** Generate config filename from app name *)
Definition config_filename (app_name : string) : string :=
  Py.replace_char " " "_" (Py.lower app_name) ++ ".json".

Definition nl : string := String Py.newline EmptyString.

(** [create_config] *)
Definition create_config (E : env) (U : ui) (self : wizard) : list event :=
  let app_name := Py.strip (name_entry self) in
  if negb (Py.truthy app_name) then
    [ShowError "Error" "Please enter an app name."]
  else
    match selected_script self with
    | None => [ShowError "Error" "Please select a Python script."]
    | Some script =>
        let config := build_config self app_name script in
        let filename := config_filename app_name in
        let config_path := Pathlib.join (config_dir self) filename in
        let question := filename ++ " already exists. Overwrite?" in
        let asked :=
          if exists_ E config_path then [AskYesNo "File Exists" question]
          else [] in
        if exists_ E config_path && negb (askyesno U "File Exists" question)
        then asked
        else
          (asked ++
           match dump U config_path config with
           | Some e =>
               [ShowError "Error"
                  ("Failed to create config:" ++ nl ++ Py.exn_str e)]
           | None =>
               Dump config_path config
               :: ShowInfo "Success"
                    ("Configuration created!" ++ nl ++ nl
                       ++ Pathlib.to_str config_path ++ nl ++ nl
                       ++ "Click 'Reload Configs' in the launcher menu to see your new app.")
               :: match on_complete_callback self with
                  | Some (inl e) =>
                      [Callback;
                       ShowError "Error"
                         ("Failed to create config:" ++ nl ++ Py.exn_str e)]
                  | Some (inr _) => [Callback; Destroy]
                  | None => [Destroy]
                  end
           end)%list
    end.

(** What the user does with the wizard before creating the
    configuration. *)
Inductive action : Type :=
| TypeName (text : string)
| SelectScript (filepath : string)
| SelectVenv (dirpath : string)
| ClearVenv
| SelectIcon (filepath : string)
| ClearIcon
| AddFile (filepath : string)
| RemoveFile (index : nat)
| SelectDir (dirpath : string)
| ClearDir.

Definition act (E : env) (self : wizard) (a : action) : wizard :=
  match a with
  | TypeName text => type_name text self
  | SelectScript filepath => select_script E filepath self
  | SelectVenv dirpath => fst (select_venv E dirpath self)
  | ClearVenv => clear_venv self
  | SelectIcon filepath => select_icon filepath self
  | ClearIcon => clear_icon self
  | AddFile filepath => add_file filepath self
  | RemoveFile index => remove_file index self
  | SelectDir dirpath => select_dir dirpath self
  | ClearDir => clear_dir self
  end.

Definition run (E : env) (actions : list action) (self : wizard) : wizard :=
  fold_left (act E) actions self.

End AppWizard.

(* ================================================================= *)
(** ** The format of an env file

    What a line of an env file says, in the words of the format and
    without reference to the parser: the parser is compared with
    this. *)

Module EnvFormat.

Definition first_char (s : string) : option ascii :=
  match s with
  | EmptyString => None
  | String c _ => Some c
  end.

Fixpoint last_char (s : string) : option ascii :=
  match s with
  | EmptyString => None
  | String c EmptyString => Some c
  | String _ r => last_char r
  end.

(** No character, or a character that is not white space. *)
Definition visible (c : option ascii) : bool :=
  match c with
  | Some c => negb (Py.isspace c)
  | None => true
  end.

Definition is_quote (c : ascii) : bool :=
  ((c =? Py.dquote) || (c =? Py.squote))%char.

Definition no_line_feed (s : string) : bool :=
  Py.all_chars (fun c => negb (c =? Py.newline)%char) s.

Definition blank (s : string) : bool := Py.all_chars Py.isspace s.

(** The value a text stands for: what is between its quotes, when it
    begins and ends with the same quote; itself otherwise.  A text
    that is a single quote character stands for the empty text. *)
Inductive stands_for : string -> string -> Prop :=
| in_quotes (q : ascii) (body : string) :
    is_quote q = true ->
    stands_for (String q (body ++ String q EmptyString)) body
| lone_quote (q : ascii) :
    is_quote q = true -> stands_for (String q EmptyString) EmptyString
| bare (raw : string) :
    (forall q, is_quote q = true ->
               ~ (first_char raw = Some q /\ last_char raw = Some q)) ->
    stands_for raw raw.

(** The line reads IDENTIFIER = VALUE: white space, an identifier,
    white space, the equals sign, white space, a text that neither
    begins nor ends with white space and holds no line feed, and white
    space up to the end of the line; the value is what the text stands
    for. *)
Definition assigns (line key value : string) : Prop :=
  exists lead ws1 ws2 raw trail,
    line = lead ++ key ++ ws1 ++ "=" ++ ws2 ++ raw ++ trail /\
    blank lead = true /\ blank ws1 = true /\
    blank ws2 = true /\ blank trail = true /\
    AppLauncher.is_identifier key = true /\
    visible (first_char raw) = true /\
    visible (last_char raw) = true /\
    no_line_feed raw = true /\
    stands_for raw value.

(** The last line among [lines] that assigns to [key] gives it
    [value]. *)
Definition last_assigned (lines : list string) (key value : string)
  : Prop :=
  exists before line after,
    lines = (before ++ line :: after)%list /\
    assigns line key value /\
    forall later other, In later after -> ~ assigns later key other.

(** A comment line: white space, then [#]. *)
Definition comment (line : string) : Prop :=
  exists lead rest, blank lead = true /\ line = lead ++ String "#" rest.

End EnvFormat.

(* ================================================================= *)
(** ** Words for stating properties *)

Module Vocabulary.

Import Sys.

(** The types of variable that open a dialog. *)
Definition interactive (var_type : string) : bool :=
  (var_type =? "filepicker")%string
  || (var_type =? "folderpicker")%string
  || (var_type =? "input")%string.

Definition var_type_of (var_config : VariableResolver.VarConfig) : string :=
  Dict.get_default "type" "input" var_config.

Definition default_of (var_config : VariableResolver.VarConfig) : string :=
  Dict.get_default "default" "" var_config.

(** The warning printed for a reference to an undeclared variable. *)
Definition unknown_warning (var_name : string) : event :=
  Print ("Warning: Unknown variable $" ++ var_name).

(** A reference is rendered as it was written. *)
Definition as_written (var_name : string) : string := "$" ++ var_name.

(** A variable that opens no dialog: it is not declared, or its type is
    not one of the interactive ones. *)
Definition never_asks (vars : Dict.t VariableResolver.VarConfig)
    (var_name : string) : Prop :=
  match Dict.get var_name vars with
  | None => True
  | Some var_config => interactive (var_type_of var_config) = false
  end.

(** A variable with a value to fall back on: one that opens no dialog,
    or one declared with a non-empty default. *)
Definition has_fallback (vars : Dict.t VariableResolver.VarConfig)
    (var_name : string) : Prop :=
  match Dict.get var_name vars with
  | None => True
  | Some var_config =>
      interactive (var_type_of var_config) = false \/
      Py.truthy (default_of var_config) = true
  end.

(** The bindings the lines of a file provide, in their order. *)
Definition bindings (lines : list string) : list (string * string) :=
  flat_map (fun line => match AppLauncher.line_binding line with
                        | Some kv => [kv]
                        | None => []
                        end) lines.

(** One [set] line for each variable the lines bind, in the order in
    which the variables first appear, with the value of the last line
    that binds the variable, escaped. *)
Definition set_lines_of (lines : list string) : list string :=
  map (fun key =>
         "set " ++ key ++ "="
           ++ AppLauncher.escape_value
                (match AppLauncher.last_binding key lines with
                 | Some value => value
                 | None => ""
                 end))
      (first_occurrences (map fst (bindings lines))).

(** The batch file of a launch, in the directory for temporary files. *)
Definition batch_file_in (E : env) (tmp : string) (script : Pathlib.Path)
  : Pathlib.Path :=
  Pathlib.join (Pathlib.of_str tmp)
    ("launcher_" ++ Pathlib.stem script ++ "_" ++ getpid E ++ ".bat").

Definition start_command (batch_file : Pathlib.Path) : string :=
  "start " ++ AppLauncher.quoted "Python App" ++ " cmd /K "
    ++ AppLauncher.quoted (Pathlib.to_str batch_file).

Definition activate_script (root : Pathlib.Path) : Pathlib.Path :=
  Pathlib.join (Pathlib.join root "Scripts") "activate.bat".

(** What a launch has done once it calls [Popen]: after some printing
    it has written the batch file, whose first lines go to the working
    directory (the one given, else the directory of the script); after
    more printing it has asked for the start of that file; [after] is
    what followed.  Nothing stood in the way: the directory for
    temporary files was found, a declared interpreter environment has
    its activation script, the parameters could be split, and the file
    could be written. *)
Definition starts (E : env) (script : Pathlib.Path) (params : string)
    (venv wd : option Pathlib.Path) (out after : list event) : Prop :=
  exists tmp before content between rest,
    let file := batch_file_in E tmp script in
    let cwd := match wd with
               | Some d => Pathlib.to_str d
               | None => Pathlib.to_str (Pathlib.parent script)
               end in
    gettempdir E = inr tmp /\
    out = (before ++ [WriteFile file content] ++ between
             ++ [Popen (start_command file)] ++ after)%list /\
    forallb is_print before = true /\
    forallb is_print between = true /\
    write_text E file content = None /\
    content = String.concat (String Py.newline "")
                ("@echo off" :: "" :: ("cd /d " ++ AppLauncher.quoted cwd)
                   :: "" :: rest) /\
    (forall root, venv = Some root -> exists_ E (activate_script root) = true) /\
    (Py.truthy params = true ->
     exists words, shlex_split E params = inr words).

(** The three ways the body of a launch can end: before anything was
    written or started; with the exception that [Popen] raised; with
    success. *)
Definition body_outcome (E : env) (script : Pathlib.Path) (params : string)
    (venv wd : option Pathlib.Path) (res : (Py.exn + bool) * list event)
  : Prop :=
  (fst res <> inr true /\
   forallb (fun ev => negb (is_spawn ev) && negb (is_write ev)) (snd res)
   = true /\
   forallb is_print (snd res) = true) \/
  (exists e, fst res = inl e /\ starts E script params venv wd (snd res) []) \/
  (exists pid,
      fst res = inr true /\
      starts E script params venv wd (snd res)
             [Print ("Process started with PID: " ++ pid)]).

(** The configuration [c] was read from the file [f]: [f] is not the
    index, its content was parsed, the record was built from it, and
    the record is valid. *)
Definition loaded_from (E : env) (f : Pathlib.Path)
    (c : ConfigLoader.RawConfig) : Prop :=
  (Pathlib.name f =? "master.json")%string = false /\
  exists data,
    load_json E f = inr data /\
    ConfigLoader.AppConfig_init f data = inr c /\
    fst (ConfigLoader.validate E c) = true.

(** A process was started: [Popen] was called and nothing was reported
    with a traceback. *)
Definition is_traceback (ev : event) : bool :=
  match ev with Traceback _ => true | _ => false end.

Definition process_started (out : list event) : bool :=
  existsb is_spawn out && negb (existsb is_traceback out).

(** What resolving variables does: it prints, asks, and reads the
    clock and the clipboard. *)
Definition asks_or_tells (ev : event) : bool :=
  match ev with
  | Popen _ | WriteFile _ _ | Traceback _ => false
  | _ => true
  end.

(** A builder with the given callback, or with none. *)
Definition builder_with (callback : option (MenuBuilder.Config -> M unit))
  : MenuBuilder.builder :=
  {| MenuBuilder.on_launch_callback := callback |}.

(** After a launch that did [out]: the callback runs, on the
    configuration and after all of [out], exactly when a process was
    started. *)
Definition then_callback (callback : option (MenuBuilder.Config -> M unit))
    (app_config : MenuBuilder.Config) (h out : list event)
  : (Py.exn + unit) * list event :=
  match process_started out, callback with
  | true, Some run_callback =>
      let (r, after) := run_callback app_config (h ++ out)%list in
      (r, (out ++ after)%list)
  | _, _ => (inr tt, out)
  end.

(** A path as [Path(s)] builds it: no part is empty or a single dot,
    and no part holds a separator. *)
Definition no_sep (c : ascii) : bool := negb (Pathlib.is_sep c).

(** A text that does not begin with a drive: its second character is
    not a colon. *)
Definition no_drive (s : string) : bool :=
  match s with
  | String _ (String c _) => negb (c =? ":")%char
  | _ => true
  end.

Definition clean_part (part : string) : bool :=
  Pathlib.keep_part part && Py.all_chars no_sep part.

Definition clean_path (p : Pathlib.Path) : bool := forallb clean_part p.

Definition clean_option (p : option Pathlib.Path) : bool :=
  match p with Some q => clean_path q | None => true end.

(** What holds of the selections of the wizard whatever the user does:
    the script, the icon, the environment and the env directory are
    paths as [Path] builds them, and the environment has an
    interpreter. *)
Definition selections_ok (E : env) (self : AppWizard.wizard) : Prop :=
  clean_option (AppWizard.selected_script self) = true /\
  clean_option (AppWizard.selected_icon self) = true /\
  clean_option (AppWizard.selected_venv self) = true /\
  clean_option (AppWizard.selected_env_directory self) = true /\
  forall venv_path,
    AppWizard.selected_venv self = Some venv_path ->
    exists_ E (VenvDetector.python_exe venv_path) = true.

(** The configuration can be started: its script exists, and so does
    the interpreter of its virtual environment, when it names one. *)
Definition startable {V P} (E : env) (c : ConfigLoader.AppConfig V P)
  : Prop :=
  exists script,
    ConfigLoader.script c = Some script /\
    exists_ E script = true /\
    forall root,
      ConfigLoader.venv c = Some root ->
      exists_ E (Pathlib.join (Pathlib.join root "Scripts") "python.exe")
      = true.

(** The index gives no order: there is no index file, or what it holds
    is not an object, or the object has no "order". *)
Definition without_order (E : env) (config_dir : Pathlib.Path) : Prop :=
  let master := ConfigLoader.master_config_path config_dir in
  exists_ E master = false \/
  (forall d, load_json E master <> inr (Py.VDict d)) \/
  (exists d, load_json E master = inr (Py.VDict d) /\
             Dict.get "order" d = None).

End Vocabulary.

(* ================================================================= *)
(** ** More worlds and examples *)

Module Examples.

Import Sys.

(** A world in which the clock rejects every format and the clipboard
    cannot be read. *)
Definition failing_world : env :=
  {| exists_ := fun _ => false;
     is_file := fun _ => false;
     is_dir := fun _ => false;
     resolve := fun p => p;
     rglob_all := fun _ => [];
     glob_json := fun _ => [];
     read_lines := fun _ => ([], Some (Py.OSError "cannot open"));
     load_json := Scenario.no_json;
     write_text := fun _ _ => Some (Py.OSError "disk full");
     gettempdir := inr "C:\Temp";
     getpid := "4242";
     spawn := fun _ _ => inl (Py.OSError "cannot start");
     shlex_split := fun _ => inl (Py.ValueError "No closing quotation");
     askstring := fun _ _ _ _ => None;
     askopenfilename := fun _ _ _ _ => "";
     askdirectory := fun _ _ _ => "";
     set_iter := first_occurrences;
     strftime := fun _ _ => inl (Py.ValueError "Invalid format string");
     strftime_default := fun _ => "2024-01-01_00-00-00";
     timestamp := fun _ => "1704067200";
     paste := fun _ => inl (Py.OSError "no clipboard") |}.

Definition stamp_variables : Dict.t VariableResolver.VarConfig :=
  [("now", [("type", "timestamp")]);
   ("day", [("type", "datetime"); ("format", "%Q")]);
   ("clip", [("type", "clipboard")]);
   ("odd", [("type", "slider"); ("default", "7")])].

(** A world in which every file selection returns a file and every
    folder selection a folder; otherwise as when every prompt is
    cancelled. *)
Definition picking_world : env :=
  let W := Scenario.cancelling_world in
  {| exists_ := exists_ W;
     is_file := is_file W;
     is_dir := is_dir W;
     resolve := resolve W;
     rglob_all := rglob_all W;
     glob_json := glob_json W;
     read_lines := read_lines W;
     load_json := load_json W;
     write_text := write_text W;
     gettempdir := gettempdir W;
     getpid := getpid W;
     spawn := spawn W;
     shlex_split := shlex_split W;
     askstring := askstring W;
     askopenfilename := fun _ _ _ _ => "C:/picked/file.txt";
     askdirectory := fun _ _ _ => "C:/picked";
     set_iter := set_iter W;
     strftime := strftime W;
     strftime_default := strftime_default W;
     timestamp := timestamp W;
     paste := paste W |}.

(** A world whose env file binds PORT twice, among lines that bind
    nothing. *)
Definition env_text_world : env :=
  Scenario.world [Scenario.dot_env] [] [] [] Scenario.no_json
    (fun _ => ["# settings"; "PORT=80"; "oops"; "  PORT = '8080' "])
    (fun _ => None) (inr "1234").

Definition picker_variables : Dict.t VariableResolver.VarConfig :=
  [("src", [("type", "filepicker"); ("default", "C:\data\in.txt")]);
   ("dst", [("type", "folderpicker")])].

(** A configuration directory with two valid records, a record without
    a script, a file that is not JSON, and no index file. *)
Definition tool_json : Pathlib.Path :=
  Pathlib.join Scenario.config_dir "tool.json".
Definition broken_json : Pathlib.Path :=
  Pathlib.join Scenario.config_dir "broken.json".
Definition garbage_json : Pathlib.Path :=
  Pathlib.join Scenario.config_dir "garbage.json".

Definition library_json (p : Pathlib.Path) : Py.exn + Py.value :=
  if Pathlib.eqb p Scenario.app_json then
    inr (Py.VDict [("script", Py.VStr "C:\apps\demo\run.py");
                   ("name", Py.VStr "Zed")])
  else if Pathlib.eqb p tool_json then
    inr (Py.VDict [("script", Py.VStr "C:\apps\demo\run.py");
                   ("name", Py.VStr "alpha")])
  else if Pathlib.eqb p broken_json then
    inr (Py.VDict [("name", Py.VStr "Broken")])
  else if Pathlib.eqb p garbage_json then
    inl (Py.ValueError "Expecting value: line 1 column 1 (char 0)")
  else Scenario.no_json p.

(** A project with a virtual environment beside the directory of its
    script and another one inside it. *)
Definition project_py : Pathlib.Path := Pathlib.of_str "C:\work\proj\src\run.py".

Definition venv_world : env :=
  Scenario.world
    [project_py;
     Pathlib.of_str "C:\work\proj\.venv\Scripts\python.exe";
     Pathlib.of_str "C:\work\proj\src\venv\Scripts\python.exe"]
    [Pathlib.of_str "C:\work\proj\src"; Pathlib.of_str "C:\work\proj"]
    [] [] Scenario.no_json Scenario.no_text (fun _ => None) (inr "1234").

(** A user of the wizard who picks the script of that project, types
    a name, tries a directory that is no environment, and picks an
    icon, an env file and an env directory; every question is answered
    with yes and every write succeeds. *)
Definition wizard_ui : AppWizard.ui :=
  {| AppWizard.askyesno := fun _ _ => true;
     AppWizard.dump := fun _ _ => None |}.

Definition wizard_actions : list AppWizard.action :=
  [AppWizard.SelectScript "C:/work/proj/src/run.py";
   AppWizard.TypeName "  My Tool ";
   AppWizard.SelectVenv "C:/nowhere";
   AppWizard.SelectIcon "C:/icons/tool.png";
   AppWizard.AddFile "C:/work/proj/.env";
   AppWizard.SelectDir "C:/work/proj"].

Definition wizard_state : AppWizard.wizard :=
  AppWizard.run venv_world wizard_actions
                (AppWizard.init Scenario.config_dir None).

Definition library_files : list Pathlib.Path :=
  [Scenario.app_json; broken_json; garbage_json;
   ConfigLoader.master_config_path Scenario.config_dir; tool_json].

Definition library_world : env :=
  Scenario.world
    [Scenario.script_py; Scenario.app_json; tool_json; broken_json;
     garbage_json]
    [Scenario.config_dir] [] library_files library_json Scenario.no_text
    (fun _ => None) (inr "1234").

Definition library_result : list ConfigLoader.RawConfig :=
  Eval vm_compute in
    match fst (ConfigLoader.load_all_configs library_world
                                             Scenario.config_dir []) with
    | inr result => result
    | inl _ => []
    end.

End Examples.

(* ================================================================= *)
(** * Properties *)

(** ** Strings *)

Section StringFacts.

Lemma append_nil_r (s : string) : s ++ "" = s.
Proof. induction s as [|c s IH]; simpl; [reflexivity | now rewrite IH]. Qed.

Lemma append_assoc (a b c : string) : (a ++ b) ++ c = a ++ (b ++ c).
Proof. induction a as [|x a IH]; simpl; [reflexivity | now rewrite IH]. Qed.

Lemma rev_onto_spec (s acc : string) :
  Py.rev_onto s acc = Py.rev s ++ acc.
Proof.
  unfold Py.rev. revert acc.
  induction s as [|c s IH]; intros acc; simpl; [reflexivity|].
  rewrite (IH (String c acc)), (IH (String c "")), append_assoc.
  reflexivity.
Qed.

Lemma rev_cons (c : ascii) (s : string) :
  Py.rev (String c s) = Py.rev s ++ String c "".
Proof. unfold Py.rev at 1. simpl. apply rev_onto_spec. Qed.

Lemma rev_snoc (s : string) (c : ascii) :
  Py.rev (s ++ String c "") = String c (Py.rev s).
Proof.
  induction s as [|x s IH]; [reflexivity|].
  simpl. now rewrite !rev_cons, IH.
Qed.

Lemma rev_involutive (s : string) : Py.rev (Py.rev s) = s.
Proof.
  induction s as [|c s IH]; [reflexivity|].
  now rewrite rev_cons, rev_snoc, IH.
Qed.

Lemma snoc_inj (a b : string) (x y : ascii) :
  a ++ String x "" = b ++ String y "" -> a = b /\ x = y.
Proof.
  intros H. apply (f_equal Py.rev) in H. rewrite !rev_snoc in H.
  injection H as Hc Hr. split; [|assumption].
  rewrite <- (rev_involutive a), <- (rev_involutive b). now f_equal.
Qed.

Lemma prefix_refl_app (p s : string) : String.prefix p (p ++ s) = true.
Proof.
  induction p as [|c p IH]; simpl; [now destruct s|].
  destruct (ascii_dec c c) as [_|N]; [exact IH | now elim N].
Qed.

(** What [lstrip] leaves is empty or begins with a visible character. *)
Lemma lstrip_head (s : string) :
  Py.lstrip s = "" \/
  exists c r, Py.lstrip s = String c r /\ Py.isspace c = false.
Proof.
  induction s as [|c s IH]; simpl; [now left|].
  destruct (Py.isspace c) eqn:Hc; [exact IH|].
  right. now exists c, s.
Qed.

Lemma lstrip_spaces (ws rest : string) :
  Py.all_chars Py.isspace ws = true ->
  Py.lstrip (ws ++ rest) = Py.lstrip rest.
Proof.
  induction ws as [|c ws IH]; simpl; [reflexivity|].
  intros H. apply andb_true_iff in H as [Hc Hws]. rewrite Hc. now apply IH.
Qed.

Lemma lstrip_visible (c : ascii) (r : string) :
  Py.isspace c = false -> Py.lstrip (String c r) = String c r.
Proof. intros H. simpl. now rewrite H. Qed.

(** A suffix of white space is what [lstrip] removed. *)
Lemma lstrip_decompose (s : string) :
  exists ws, Py.all_chars Py.isspace ws = true /\ s = ws ++ Py.lstrip s.
Proof.
  induction s as [|c s [ws [Hws Hs]]]; [now exists ""|].
  simpl. destruct (Py.isspace c) eqn:Hc.
  - exists (String c ws). simpl. rewrite Hc, Hws. split; [reflexivity|].
    now rewrite <- Hs.
  - now exists "".
Qed.

(** What [rstrip] leaves is empty or ends with a visible character. *)
Lemma rstrip_last (s : string) :
  Py.rstrip s = "" \/
  exists r c, Py.rstrip s = r ++ String c "" /\ Py.isspace c = false.
Proof.
  unfold Py.rstrip.
  destruct (lstrip_head (Py.rev s)) as [H | (c & r & H & Hc)]; rewrite H.
  - now left.
  - right. exists (Py.rev r), c. now rewrite rev_cons.
Qed.

(** [rstrip] keeps a visible first character. *)
Lemma rstrip_head (c : ascii) (r : string) :
  Py.isspace c = false -> exists r', Py.rstrip (String c r) = String c r'.
Proof.
  intros Hc. unfold Py.rstrip. rewrite rev_cons.
  destruct (lstrip_decompose (Py.rev r ++ String c "")) as [ws [Hws Heq]].
  destruct (lstrip_head (Py.rev r ++ String c "")) as [H | (x & t & H & Hx)].
  - exfalso. rewrite H, append_nil_r in Heq.
    assert (Hall : Py.all_chars Py.isspace (Py.rev r ++ String c "") = true)
      by now rewrite Heq.
    clear -Hall Hc. induction (Py.rev r) as [|y t IH]; simpl in Hall.
    + now rewrite Hc in Hall.
    + apply andb_true_iff in Hall as [_ Hall]. now apply IH.
  - rewrite H.
    assert (Hlast : exists t', String x t = t' ++ String c "").
    { rewrite H in Heq. clear -Heq Hx Hws.
      revert ws Heq Hws. induction (Py.rev r) as [|y u IH]; intros ws Heq Hws.
      - destruct ws as [|w ws]; simpl in *.
        + exists "". now rewrite <- Heq.
        + injection Heq as -> Hrest. destruct ws; discriminate.
      - destruct ws as [|w ws]; simpl in *.
        + exists (String y u). now rewrite <- Heq.
        + injection Heq as -> Hrest. apply andb_true_iff in Hws as [_ Hws].
          exact (IH ws Hrest Hws). }
    destruct Hlast as [t' Ht]. rewrite Ht, rev_snoc. now exists (Py.rev t').
Qed.

Lemma rev_append (a b : string) : Py.rev (a ++ b) = Py.rev b ++ Py.rev a.
Proof.
  induction a as [|c a IH]; simpl.
  - now rewrite append_nil_r.
  - now rewrite !rev_cons, IH, append_assoc.
Qed.

Lemma all_chars_append (f : ascii -> bool) (a b : string) :
  Py.all_chars f (a ++ b) = Py.all_chars f a && Py.all_chars f b.
Proof.
  induction a as [|c a IH]; simpl; [reflexivity|].
  now rewrite IH, andb_assoc.
Qed.

Lemma all_chars_rev (f : ascii -> bool) (s : string) :
  Py.all_chars f (Py.rev s) = Py.all_chars f s.
Proof.
  induction s as [|c s IH]; [reflexivity|].
  rewrite rev_cons, all_chars_append, IH. simpl.
  rewrite andb_true_r. apply andb_comm.
Qed.

Lemma string_snoc_cases (s : string) :
  s = "" \/ exists r c, s = r ++ String c "".
Proof.
  induction s as [|x s IH]; [now left|]. right.
  destruct IH as [-> | (r & c & ->)].
  - now exists "", x.
  - now exists (String x r), c.
Qed.

Lemma last_char_snoc (r : string) (c : ascii) :
  EnvFormat.last_char (r ++ String c "") = Some c.
Proof.
  induction r as [|x r IH]; [reflexivity|].
  simpl. rewrite IH. now destruct r.
Qed.

Lemma last_char_append (a b : string) :
  b <> "" -> EnvFormat.last_char (a ++ b) = EnvFormat.last_char b.
Proof.
  intros Hb. destruct (string_snoc_cases b) as [-> | (r & c & ->)];
    [now elim Hb|].
  now rewrite <- append_assoc, !last_char_snoc.
Qed.

(** White space around a text that begins and ends with a visible
    character is what [strip] removes. *)
Lemma rstrip_spaces (body trail : string) :
  Py.all_chars Py.isspace trail = true ->
  Py.rstrip (body ++ trail) = Py.rstrip body.
Proof.
  intros Htrail. unfold Py.rstrip.
  rewrite rev_append, lstrip_spaces; [reflexivity|].
  now rewrite all_chars_rev.
Qed.

Lemma rstrip_visible (r : string) (c : ascii) :
  Py.isspace c = false ->
  Py.rstrip (r ++ String c "") = r ++ String c "".
Proof.
  intros Hc. unfold Py.rstrip. rewrite rev_snoc.
  rewrite (@lstrip_visible c (Py.rev r) Hc), <- rev_snoc.
  apply rev_involutive.
Qed.

Lemma strip_around (lead body trail : string) (c : ascii) :
  Py.all_chars Py.isspace lead = true ->
  Py.all_chars Py.isspace trail = true ->
  EnvFormat.visible (EnvFormat.first_char body) = true ->
  EnvFormat.last_char body = Some c -> Py.isspace c = false ->
  Py.strip (lead ++ body ++ trail) = body.
Proof.
  intros Hlead Htrail Hfirst Hlast Hc. unfold Py.strip.
  rewrite (@lstrip_spaces lead (body ++ trail) Hlead).
  destruct body as [|x body]; [discriminate|].
  simpl in Hfirst. apply negb_true_iff in Hfirst.
  change (String x body ++ trail) with (String x (body ++ trail)).
  rewrite (@lstrip_visible x (body ++ trail) Hfirst).
  change (String x (body ++ trail)) with (String x body ++ trail).
  rewrite (@rstrip_spaces (String x body) trail Htrail).
  destruct (string_snoc_cases (String x body)) as [H | (r & c' & H)];
    [discriminate|].
  rewrite H in Hlast |- *. rewrite last_char_snoc in Hlast.
  injection Hlast as ->. now apply rstrip_visible.
Qed.

Lemma rstrip_decompose (s : string) :
  exists ws, Py.all_chars Py.isspace ws = true /\ s = Py.rstrip s ++ ws.
Proof.
  destruct (lstrip_decompose (Py.rev s)) as (ws & Hws & Hs).
  exists (Py.rev ws). split; [now rewrite all_chars_rev|].
  unfold Py.rstrip. rewrite <- rev_append, <- Hs.
  symmetry. apply rev_involutive.
Qed.

Lemma strip_decompose (line : string) :
  exists lead trail,
    Py.all_chars Py.isspace lead = true /\
    Py.all_chars Py.isspace trail = true /\
    line = lead ++ Py.strip line ++ trail.
Proof.
  destruct (lstrip_decompose line) as (lead & Hlead & Hline).
  destruct (rstrip_decompose (Py.lstrip line)) as (trail & Htrail & Hrest).
  exists lead, trail. unfold Py.strip. repeat split; try assumption.
  now rewrite <- Hrest.
Qed.

End StringFacts.

(** ** Dictionaries *)

Section DictFacts.

Variable V : Type.
Implicit Types (d : Dict.t V) (k : string) (v : V).

Lemma get_set_same d k v : Dict.get k (Dict.set k v d) = Some v.
Proof.
  induction d as [|[k' v'] d IH]; simpl.
  - now rewrite String.eqb_refl.
  - destruct (String.eqb k' k) eqn:E; simpl.
    + now rewrite String.eqb_refl.
    + now rewrite E.
Qed.

Lemma get_set_other d k k' v :
  k' <> k -> Dict.get k (Dict.set k' v d) = Dict.get k d.
Proof.
  intros Hne. apply String.eqb_neq in Hne.
  induction d as [|[k0 v0] d IH]; simpl.
  - now rewrite Hne.
  - destruct (String.eqb k0 k') eqn:E; simpl.
    + apply String.eqb_eq in E. subst k0. now rewrite Hne.
    + now rewrite IH.
Qed.

End DictFacts.

(** ** Key/value environment files *)

Section EnvFile.

Import AppLauncher.

Lemma span_spec (p : ascii -> bool) (s : string) :
  s = fst (Py.span p s) ++ snd (Py.span p s) /\
  Py.all_chars p (fst (Py.span p s)) = true.
Proof.
  induction s as [|c s [IH1 IH2]]; simpl; [now split|].
  destruct (p c) eqn:Hc; [|now split].
  destruct (Py.span p s) as [a b]; simpl in *.
  rewrite Hc, IH2. split; [now rewrite <- IH1 | reflexivity].
Qed.

(** The value group is what follows, when it holds no line feed; a
    single line feed at the very end is left out. *)
Lemma match_rest_spec (v value : string) :
  match_rest v = Some value ->
  v = value \/ v = value ++ String Py.newline "".
Proof.
  revert value. induction v as [|c v IH]; simpl; intros value H.
  - injection H as <-. now left.
  - destruct (Ascii.eqb c Py.newline) eqn:Hc.
    + apply Ascii.eqb_eq in Hc. subst c.
      destruct v; [|discriminate]. injection H as <-. now right.
    + destruct (match_rest v) as [w|]; [|discriminate].
      injection H as <-. destruct (IH w eq_refl) as [-> | ->]; auto.
Qed.

Lemma match_assignment_spec (line key value : string) :
  match_assignment line = Some (key, value) ->
  exists ws1 ws2 rest,
    line = key ++ ws1 ++ "=" ++ ws2 ++ rest /\
    is_identifier key = true /\
    Py.all_chars Py.isspace ws1 = true /\
    Py.all_chars Py.isspace ws2 = true /\
    match_rest rest = Some value /\
    EnvFormat.visible (EnvFormat.first_char rest) = true.
Proof.
  destruct line as [|c rest]; simpl; [discriminate|].
  destruct (Py.is_ident_start c) eqn:Hc; [|discriminate].
  destruct (span_spec Py.is_word rest) as [Hsplit Hword].
  destruct (Py.span Py.is_word rest) as [ident after]; simpl in *.
  destruct (lstrip_decompose after) as [ws1 [Hws1 Hafter]].
  destruct (Py.lstrip after) as [|e after_eq]; [discriminate|].
  destruct (Ascii.eqb e "=") eqn:He; [|discriminate].
  apply Ascii.eqb_eq in He. subst e.
  destruct (lstrip_decompose after_eq) as [ws2 [Hws2 Hafter_eq]].
  destruct (match_rest (Py.lstrip after_eq)) as [w|] eqn:Hrest;
    [|discriminate].
  simpl. intros H. injection H as <- <-.
  exists ws1, ws2, (Py.lstrip after_eq). simpl.
  rewrite Hc, Hword. repeat split; try assumption.
  - f_equal. rewrite Hsplit at 1. f_equal. rewrite Hafter at 1. f_equal.
    simpl. f_equal. exact Hafter_eq.
  - destruct (lstrip_head after_eq) as [-> | (c' & r' & -> & Hvis)];
      [reflexivity|]. simpl. now rewrite Hvis.
Qed.

Lemma strip_not_newline_end (line s : string) :
  Py.strip line <> s ++ String Py.newline "".
Proof.
  unfold Py.strip. intros H.
  destruct (rstrip_last (Py.lstrip line)) as [E | (r & c & E & Hc)];
    rewrite E in H.
  - destruct s; discriminate.
  - apply snoc_inj in H as [_ ->]. discriminate.
Qed.

Lemma unquote_quoted (q : ascii) (body : string) :
  q = Py.dquote \/ q = Py.squote ->
  unquote (String q (body ++ String q "")) = body.
Proof.
  assert (Hlast : forall s c, Py.drop_last (s ++ String c "") = s).
  { induction s as [|x s IH]; intros c; [reflexivity|].
    simpl. rewrite IH. destruct s; reflexivity. }
  assert (Hend : forall c s, Py.endswith (String c "") (String c (s ++ String c "")) = true).
  { intros c s. unfold Py.endswith.
    change (String c (s ++ String c "")) with ((String c s) ++ String c "").
    rewrite rev_snoc. apply (prefix_refl_app (String c "")). }
  assert (Hnil : forall s, String.prefix "" s = true) by now destruct s.
  intros [-> | ->]; unfold unquote, Py.startswith.
  - rewrite Hend. simpl. rewrite Hnil. unfold Py.slice_1_m1. simpl.
    apply Hlast.
  - rewrite Hend. simpl. rewrite Hnil. unfold Py.slice_1_m1. simpl.
    apply Hlast.
Qed.

Lemma parse_lines_from (key : string) (lines : list string)
      (d : Dict.t string) :
  Dict.get key (fold_left parse_line lines d) =
  match last_binding key lines with
  | Some v => Some v
  | None => Dict.get key d
  end.
Proof.
  unfold last_binding.
  induction lines as [|line lines IH] using rev_ind; [reflexivity|].
  rewrite fold_left_app, flat_map_app, rev_app_distr. simpl.
  unfold parse_line at 1.
  destruct (line_binding line) as [[k v]|]; simpl.
  - destruct (String.eqb k key) eqn:E; simpl.
    + apply String.eqb_eq in E. subst k. apply get_set_same.
    + apply String.eqb_neq in E. rewrite get_set_other by exact E.
      exact IH.
  - exact IH.
Qed.

Lemma space_not_word (c : ascii) :
  Py.isspace c = true -> Py.is_word c = false.
Proof.
  destruct c as [[|] [|] [|] [|] [|] [|] [|] [|]];
    vm_compute; intros H; first [reflexivity | discriminate].
Qed.

Lemma span_app (p : ascii -> bool) (a b : string) :
  Py.all_chars p a = true ->
  match EnvFormat.first_char b with
  | Some c => p c = false
  | None => True
  end ->
  Py.span p (a ++ b) = (a, b).
Proof.
  intros Ha Hb. induction a as [|x a IH]; simpl.
  - destruct b as [|c b]; [reflexivity|]. simpl in *. now rewrite Hb.
  - simpl in Ha. apply andb_prop in Ha as [Hx Ha].
    now rewrite Hx, (IH Ha).
Qed.

Lemma match_rest_whole (raw : string) :
  EnvFormat.no_line_feed raw = true -> match_rest raw = Some raw.
Proof.
  unfold EnvFormat.no_line_feed.
  induction raw as [|c raw IH]; simpl; intros H; [reflexivity|].
  apply andb_prop in H as [Hc Hr]. apply negb_true_iff in Hc.
  now rewrite Hc, (IH Hr).
Qed.

Lemma match_rest_whole_inv (v : string) :
  match_rest v = Some v -> EnvFormat.no_line_feed v = true.
Proof.
  unfold EnvFormat.no_line_feed.
  induction v as [|c v IH]; simpl; [reflexivity|].
  destruct (Ascii.eqb c Py.newline) eqn:Hc.
  - destruct v; discriminate.
  - destruct (match_rest v) as [w|] eqn:Hw; [|discriminate].
    simpl. intros H. injection H as ->. now apply IH.
Qed.

(** A text of the form IDENTIFIER = VALUE is matched, with these two
    groups. *)
Lemma match_assignment_complete (key ws1 ws2 raw : string) :
  is_identifier key = true ->
  EnvFormat.blank ws1 = true -> EnvFormat.blank ws2 = true ->
  EnvFormat.visible (EnvFormat.first_char raw) = true ->
  EnvFormat.no_line_feed raw = true ->
  match_assignment (key ++ ws1 ++ "=" ++ ws2 ++ raw) = Some (key, raw).
Proof.
  intros Hid H1 H2 Hvis Hnl.
  destruct key as [|k0 krest]; [discriminate|].
  simpl in Hid. apply andb_prop in Hid as [Hk0 Hk].
  cbn [append match_assignment]. rewrite Hk0.
  rewrite (@span_app Py.is_word krest (ws1 ++ String "=" (ws2 ++ raw)) Hk).
  - rewrite (@lstrip_spaces ws1 (String "=" (ws2 ++ raw)) H1).
    rewrite (@lstrip_visible "=" (ws2 ++ raw) eq_refl).
    cbn [Ascii.eqb Bool.eqb].
    rewrite (@lstrip_spaces ws2 raw H2).
    assert (Hraw : Py.lstrip raw = raw).
    { destruct raw as [|c raw]; [reflexivity|]. simpl in Hvis.
      apply negb_true_iff in Hvis. simpl. now rewrite Hvis. }
    rewrite Hraw, (match_rest_whole _ Hnl). reflexivity.
  - destruct ws1 as [|c ws1]; [reflexivity|]. simpl in H1 |- *.
    apply andb_prop in H1 as [Hc _]. now apply space_not_word.
Qed.

Lemma startswith_char (q : ascii) (raw : string) :
  Py.startswith (String q "") raw = true <->
  EnvFormat.first_char raw = Some q.
Proof.
  unfold Py.startswith. destruct raw as [|c raw]; simpl.
  - split; discriminate.
  - destruct (ascii_dec q c) as [->|Hne].
    + split; intros _; [reflexivity | now destruct raw].
    + split; intros H; [discriminate|]. injection H as ->. now elim Hne.
Qed.

Lemma endswith_char (q : ascii) (raw : string) :
  Py.endswith (String q "") raw = true <->
  EnvFormat.last_char raw = Some q.
Proof.
  unfold Py.endswith. change (Py.rev (String q "")) with (String q "").
  destruct (string_snoc_cases raw) as [-> | (r & c & ->)].
  - split; discriminate.
  - rewrite rev_snoc, last_char_snoc. simpl.
    destruct (ascii_dec q c) as [->|Hne].
    + split; intros _; [reflexivity | now destruct (Py.rev r)].
    + split; intros H; [discriminate|]. injection H as ->. now elim Hne.
Qed.

Lemma drop_last_snoc (s : string) (c : ascii) :
  Py.drop_last (s ++ String c "") = s.
Proof.
  induction s as [|x s IH]; [reflexivity|].
  simpl. rewrite IH. destruct s; reflexivity.
Qed.

Lemma is_quote_cases (q : ascii) :
  EnvFormat.is_quote q = true -> q = Py.dquote \/ q = Py.squote.
Proof.
  unfold EnvFormat.is_quote. intros H. apply orb_prop in H as [H|H];
    apply Ascii.eqb_eq in H; auto.
Qed.

(** What [unquote] does, by the first and the last character. *)
Lemma unquote_cases (raw : string) :
  (exists q, EnvFormat.is_quote q = true /\
             EnvFormat.first_char raw = Some q /\
             EnvFormat.last_char raw = Some q /\
             unquote raw = Py.slice_1_m1 raw) \/
  ((forall q, EnvFormat.is_quote q = true ->
              ~ (EnvFormat.first_char raw = Some q /\
                 EnvFormat.last_char raw = Some q)) /\
   unquote raw = raw).
Proof.
  unfold unquote.
  destruct (Py.startswith (String Py.dquote "") raw) eqn:Hsd;
    destruct (Py.endswith (String Py.dquote "") raw) eqn:Hed;
    destruct (Py.startswith (String Py.squote "") raw) eqn:Hss;
    destruct (Py.endswith (String Py.squote "") raw) eqn:Hes;
    cbn [andb];
    try (left; exists Py.dquote;
         apply startswith_char in Hsd; apply endswith_char in Hed;
         now repeat split);
    try (left; exists Py.squote;
         apply startswith_char in Hss; apply endswith_char in Hes;
         now repeat split).
  all: right; split; [|reflexivity].
  all: intros q Hq [Hf Hl]; apply is_quote_cases in Hq as [-> | ->];
    apply startswith_char in Hf; apply endswith_char in Hl; congruence.
Qed.

Lemma unquote_stands_for (raw value : string) :
  EnvFormat.stands_for raw value <-> value = unquote raw.
Proof.
  split.
  - intros H. destruct H as [q body Hq | q Hq | raw Hbare].
    + symmetry. apply unquote_quoted. now apply is_quote_cases.
    + apply is_quote_cases in Hq as [-> | ->]; reflexivity.
    + destruct (unquote_cases raw) as [(q & Hq & Hf & Hl & _) | [_ ->]];
        [|reflexivity].
      now elim (Hbare q Hq).
  - intros ->.
    destruct (unquote_cases raw) as [(q & Hq & Hf & Hl & ->) | [Hbare ->]];
      [|now constructor].
    destruct raw as [|c r]; [discriminate|]. simpl in Hf.
    injection Hf as ->.
    destruct (string_snoc_cases r) as [-> | (body & c & ->)].
    + now apply EnvFormat.lone_quote.
    + change (String q (body ++ String c ""))
        with (String q body ++ String c "") in Hl.
      rewrite last_char_snoc in Hl. injection Hl as ->.
      unfold Py.slice_1_m1. simpl Py.drop_first. rewrite drop_last_snoc.
      now apply EnvFormat.in_quotes.
Qed.

Lemma ident_start_visible (c : ascii) :
  Py.is_ident_start c = true -> Py.isspace c = false /\ c <> "#"%char.
Proof.
  destruct c as [[|] [|] [|] [|] [|] [|] [|] [|]];
    vm_compute; intros H; first [discriminate | split; [reflexivity|]];
    discriminate.
Qed.

(** The parser finds a binding on a line exactly when the line reads
    IDENTIFIER = VALUE, and the binding is the one the line states. *)
Lemma line_binding_assigns (line key value : string) :
  line_binding line = Some (key, value) <->
  EnvFormat.assigns line key value.
Proof.
  split.
  - intros H. unfold line_binding in H.
    destruct (negb (Py.truthy (Py.strip line))
              || Py.startswith "#" (Py.strip line)); [discriminate|].
    destruct (match_assignment (Py.strip line)) as [[k v]|] eqn:Hm;
      [|discriminate].
    injection H as <- <-.
    destruct (match_assignment_spec _ Hm)
      as (ws1 & ws2 & rest & Hline & Hid & Hws1 & Hws2 & Hrest & Hvis).
    assert (rest = v) as ->.
    { destruct (match_rest_spec _ Hrest) as [-> | ->]; [reflexivity|].
      exfalso.
      apply (@strip_not_newline_end line (k ++ ws1 ++ "=" ++ ws2 ++ v)).
      rewrite Hline. repeat (rewrite append_assoc; simpl). reflexivity. }
    destruct (strip_decompose line) as (lead & trail & Hlead & Htrail & Hsplit).
    exists lead, ws1, ws2, v, trail.
    split.
    { rewrite Hsplit at 1. rewrite Hline.
      repeat (rewrite append_assoc; simpl). reflexivity. }
    repeat split; try assumption.
    + destruct (string_snoc_cases v) as [-> | (r & c & Hv)]; [reflexivity|].
      rewrite Hv, last_char_snoc. simpl.
      destruct (rstrip_last (Py.lstrip line)) as [Hempty | (r' & c' & Hr & Hc')];
        fold (Py.strip line) in *.
      * rewrite Hempty in Hline. destruct k; discriminate.
      * rewrite Hr, Hv in Hline.
        assert (Heq : r' ++ String c' ""
                      = (k ++ ws1 ++ "=" ++ ws2 ++ r) ++ String c "").
        { rewrite Hline. repeat (rewrite append_assoc; simpl). reflexivity. }
        apply snoc_inj in Heq as [_ <-]. now rewrite Hc'.
    + now apply match_rest_whole_inv.
    + now apply unquote_stands_for.
  - intros (lead & ws1 & ws2 & raw & trail & -> & Hlead & Hws1 & Hws2
            & Htrail & Hid & Hfirst & Hlast & Hnl & Hvalue).
    apply unquote_stands_for in Hvalue. subst value.
    assert (Hstrip : exists ws,
               EnvFormat.blank ws = true /\
               Py.strip (lead ++ key ++ ws1 ++ "=" ++ ws2 ++ raw ++ trail)
               = key ++ ws1 ++ "=" ++ ws ++ raw).
    { destruct key as [|k0 krest] eqn:Hkey; [discriminate|].
      assert (Hk0 : Py.isspace k0 = false).
      { simpl in Hid. apply andb_prop in Hid as [Hk0 _].
        now apply ident_start_visible. }
      destruct (string_snoc_cases raw) as [-> | (r & c & ->)].
      - exists "". split; [reflexivity|].
        replace (lead ++ String k0 krest ++ ws1 ++ "=" ++ ws2 ++ "" ++ trail)
          with (lead ++ (String k0 krest ++ ws1 ++ "=") ++ (ws2 ++ trail))
          by (repeat (rewrite append_assoc; simpl); reflexivity).
        apply (@strip_around lead (String k0 krest ++ ws1 ++ "=")
                 (ws2 ++ trail) "=").
        + exact Hlead.
        + unfold EnvFormat.blank in *.
          now rewrite all_chars_append, Hws2, Htrail.
        + simpl. now rewrite Hk0.
        + change (String k0 krest ++ ws1 ++ "=")
            with (String k0 krest ++ ws1 ++ String "=" "").
          rewrite <- append_assoc. apply last_char_snoc.
        + reflexivity.
      - exists ws2. split; [exact Hws2|].
        rewrite last_char_snoc in Hlast. simpl in Hlast.
        apply negb_true_iff in Hlast.
        replace (lead ++ String k0 krest ++ ws1 ++ "=" ++ ws2
                   ++ (r ++ String c "") ++ trail)
          with (lead ++ (String k0 krest ++ ws1 ++ "=" ++ ws2
                           ++ r ++ String c "") ++ trail)
          by (repeat (rewrite append_assoc; simpl); reflexivity).
        apply (@strip_around lead
                 (String k0 krest ++ ws1 ++ "=" ++ ws2 ++ r ++ String c "")
                 trail c).
        + exact Hlead.
        + exact Htrail.
        + simpl. now rewrite Hk0.
        + replace (String k0 krest ++ ws1 ++ "=" ++ ws2 ++ r ++ String c "")
            with ((String k0 krest ++ ws1 ++ "=" ++ ws2 ++ r) ++ String c "")
            by (repeat (rewrite append_assoc; simpl); reflexivity).
          apply last_char_snoc.
        + exact Hlast. }
    destruct Hstrip as (ws & Hws & Hstrip).
    unfold line_binding. rewrite Hstrip.
    destruct key as [|k0 krest] eqn:Hkey; [discriminate|].
    assert (Hhash : k0 <> "#"%char).
    { simpl in Hid. apply andb_prop in Hid as [Hk0 _].
      now apply ident_start_visible. }
    assert (Hopen : negb (Py.truthy (String k0 krest ++ ws1 ++ "=" ++ ws ++ raw))
                    || Py.startswith "#"
                         (String k0 krest ++ ws1 ++ "=" ++ ws ++ raw)
                    = false).
    { cbn [append Py.truthy negb orb].
      match goal with
      | |- ?started = false => destruct started eqn:Hs; [|reflexivity]
      end.
      apply (startswith_char "#") in Hs. simpl in Hs.
      injection Hs as Hs. now elim Hhash. }
    rewrite Hopen.
    now rewrite (@match_assignment_complete (String k0 krest) ws1 ws raw
                   Hid Hws1 Hws Hfirst Hnl).
Qed.

(** The value of a key is that of the last line that binds it. *)
Lemma last_binding_spec (lines : list string) (key value : string) :
  last_binding key lines = Some value <->
  exists before line after,
    lines = (before ++ line :: after)%list /\
    line_binding line = Some (key, value) /\
    forall later other, In later after ->
                        line_binding later <> Some (key, other).
Proof.
  unfold last_binding.
  induction lines as [|l ls IH] using rev_ind.
  - split; [discriminate|]. intros (b & x & a & H & _).
    destruct b; discriminate.
  - rewrite flat_map_app, rev_app_distr. cbn [flat_map].
    rewrite app_nil_r.
    assert (Hsplit : forall b x a,
               (ls ++ [l] = b ++ x :: a)%list ->
               (a = [] /\ b = ls /\ x = l) \/
               (exists a', a = (a' ++ [l])%list /\
                           ls = (b ++ x :: a')%list)).
    { intros b x a H.
      destruct (@exists_last _ (x :: a) ltac:(discriminate)) as (m & y & Hm).
      destruct a as [|a0 a].
      - left. apply app_inj_tail in H as [-> ->]. auto.
      - right. destruct (@exists_last _ (a0 :: a) ltac:(discriminate))
          as (a' & y' & Ha).
        rewrite Ha in H |- *.
        change (b ++ x :: a' ++ [y'])%list
          with (b ++ (x :: a') ++ [y'])%list in H.
        rewrite app_assoc in H. apply app_inj_tail in H as [-> ->].
        exists a'. auto. }
    destruct (line_binding l) as [[k v]|] eqn:Hl.
    + cbn [rev app find fst].
      destruct (String.eqb k key) eqn:Hk.
      * apply String.eqb_eq in Hk. subst k. cbn [option_map snd].
        split.
        -- intros H. injection H as <-.
           exists ls, l, []. split; [reflexivity|]. split; [exact Hl|].
           intros later other [].
        -- intros (b & x & a & H & Hx & Hafter).
           destruct (Hsplit b x a H) as [(-> & -> & ->) | (a' & -> & _)].
           ++ congruence.
           ++ elim (Hafter l v); [|exact Hl].
              apply in_or_app. right. now left.
      * rewrite IH. split.
        -- intros (b & x & a & -> & Hx & Hafter).
           exists b, x, (a ++ [l])%list. split; [|split; [exact Hx|]].
           ++ now rewrite <- app_assoc.
           ++ intros later other Hin. apply in_app_or in Hin as [Hin|[<-|[]]].
              ** now apply Hafter.
              ** rewrite Hl. intros Heq. injection Heq as -> _.
                 now rewrite String.eqb_refl in Hk.
        -- intros (b & x & a & H & Hx & Hafter).
           destruct (Hsplit b x a H) as [(-> & -> & ->) | (a' & -> & ->)].
           ++ rewrite Hl in Hx. injection Hx as -> _.
              now rewrite String.eqb_refl in Hk.
           ++ exists b, x, a'. repeat split; auto.
              intros later other Hin. apply Hafter.
              apply in_or_app. now left.
    + cbn [rev app]. rewrite IH. split.
      * intros (b & x & a & -> & Hx & Hafter).
        exists b, x, (a ++ [l])%list. split; [|split; [exact Hx|]].
        -- now rewrite <- app_assoc.
        -- intros later other Hin. apply in_app_or in Hin as [Hin|[<-|[]]].
           ++ now apply Hafter.
           ++ now rewrite Hl.
      * intros (b & x & a & H & Hx & Hafter).
        destruct (Hsplit b x a H) as [(-> & -> & ->) | (a' & -> & ->)].
        -- congruence.
        -- exists b, x, a'. repeat split; auto.
           intros later other Hin. apply Hafter.
           apply in_or_app. now left.
Qed.

(** C6. Parsing a key/value environment file.  [parse_env_file]
    returns a dictionary and never raises; a read that fails costs one
    warning.  In the dictionary a key has a value exactly when some
    line of the file reads IDENTIFIER = VALUE for it (the identifier
    being a letter or underscore followed by letters, digits and
    underscores), and the value is that of the last such line,
    without its surrounding pair of double or single quotes.  A blank
    line and a line whose first visible character is [#] assign
    nothing, and a line that assigns nothing leaves the result as it
    is.  On each line, the parser finds a binding exactly when the
    line has that form. *)
Theorem parse_env_file_lines :
  (forall line, Py.all_chars Py.isspace line = true ->
                line_binding line = None) /\
  (forall ws rest, Py.all_chars Py.isspace ws = true ->
                   line_binding (ws ++ String "#" rest) = None) /\
  (forall line key value,
      line_binding line = Some (key, value) ->
      exists ws1 ws2 raw,
        Py.strip line = key ++ ws1 ++ "=" ++ ws2 ++ raw /\
        is_identifier key = true /\
        Py.all_chars Py.isspace ws1 = true /\
        Py.all_chars Py.isspace ws2 = true /\
        value = unquote raw) /\
  (forall body,
      unquote (String Py.dquote (body ++ String Py.dquote "")) = body /\
      unquote (String Py.squote (body ++ String Py.squote "")) = body) /\
  (forall env_vars line,
      line_binding line = None -> parse_line env_vars line = env_vars) /\
  (forall lines key,
      Dict.get key (parse_lines lines) = last_binding key lines) /\
  (forall line key value,
      line_binding line = Some (key, value) <->
      EnvFormat.assigns line key value) /\
  (forall line key value,
      EnvFormat.blank line = true \/ EnvFormat.comment line ->
      ~ EnvFormat.assigns line key value) /\
  (forall (E : Sys.env) (env_file_path : Pathlib.Path) (h : list Sys.event),
      exists env_vars warnings,
        parse_env_file E env_file_path h = (inr env_vars, warnings) /\
        forallb Sys.is_print warnings = true /\
        (snd (Sys.read_lines E env_file_path) = None -> warnings = []) /\
        forall key value,
          Dict.get key env_vars = Some value <->
          EnvFormat.last_assigned (fst (Sys.read_lines E env_file_path))
                                  key value).
Proof.
  assert (Hblank : forall line, Py.all_chars Py.isspace line = true ->
                                line_binding line = None).
  { intros line Hblank. unfold line_binding, Py.strip.
    replace (Py.lstrip line) with "".
    + reflexivity.
    + rewrite <- (append_nil_r line), lstrip_spaces by exact Hblank.
      reflexivity. }
  assert (Hcomment : forall ws rest,
             Py.all_chars Py.isspace ws = true ->
             line_binding (ws ++ String "#" rest) = None).
  { intros ws rest Hws. unfold line_binding, Py.strip.
    rewrite lstrip_spaces by exact Hws.
    rewrite lstrip_visible by reflexivity.
    destruct (rstrip_head "#" rest eq_refl) as [r' ->].
    unfold Py.startswith. simpl. now destruct r'. }
  repeat apply conj.
  - exact Hblank.
  - exact Hcomment.
  - intros line key value H. unfold line_binding in H.
    destruct (negb (Py.truthy (Py.strip line))
              || Py.startswith "#" (Py.strip line)); [discriminate|].
    destruct (match_assignment (Py.strip line)) as [[k v]|] eqn:Hm;
      [|discriminate].
    injection H as <- <-.
    destruct (match_assignment_spec _ Hm)
      as (ws1 & ws2 & rest & Hline & Hid & Hws1 & Hws2 & Hrest & _).
    destruct (match_rest_spec _ Hrest) as [-> | ->].
    + now exists ws1, ws2, v.
    + exfalso.
      apply (@strip_not_newline_end line (k ++ ws1 ++ "=" ++ ws2 ++ v)).
      rewrite Hline. repeat (rewrite append_assoc; simpl). reflexivity.
  - intros body. split; apply unquote_quoted; auto.
  - intros env_vars line H. unfold parse_line. now rewrite H.
  - intros lines key. unfold parse_lines.
    rewrite parse_lines_from. now destruct (last_binding key lines).
  - apply line_binding_assigns.
  - intros line key value Hskip Hassigns.
    apply line_binding_assigns in Hassigns.
    destruct Hskip as [Hb | (lead & rest & Hlead & ->)].
    + rewrite (Hblank line Hb) in Hassigns. discriminate.
    + rewrite (Hcomment lead rest Hlead) in Hassigns. discriminate.
  - intros E env_file_path h. unfold parse_env_file.
    destruct (Sys.read_lines E env_file_path) as [lines failure].
    assert (Hget : forall key value,
               Dict.get key (parse_lines lines) = Some value <->
               EnvFormat.last_assigned lines key value).
    { intros key value. unfold parse_lines. rewrite parse_lines_from.
      cbn [Dict.get Dict.empty].
      assert (Hsame : match last_binding key lines with
                      | Some v => Some v
                      | None => None
                      end = last_binding key lines)
        by now destruct (last_binding key lines).
      rewrite Hsame, last_binding_spec. unfold EnvFormat.last_assigned.
      split; intros (before & line & after & Hlines & Hline & Hafter);
        exists before, line, after; (split; [exact Hlines|]); split.
      - now apply line_binding_assigns.
      - intros later other Hin Hl. apply (Hafter later other Hin).
        now apply line_binding_assigns.
      - now apply line_binding_assigns.
      - intros later other Hin Hl. apply (Hafter later other Hin).
        now apply line_binding_assigns. }
    destruct failure as [e|]; eexists _, _;
      (split; [reflexivity|]); cbn [snd fst];
      (split; [reflexivity|]); (split; [|exact Hget]).
    + discriminate.
    + reflexivity.
Qed.

(** C5. Escaping a value for the batch file doubles each percent
    sign; reading each doubled percent sign back as one gives the
    value again. *)
Theorem escape_round_trip (value : string) :
  shell_unescape (escape_value value) = value.
Proof.
  unfold escape_value.
  induction value as [|c value IH]; [reflexivity|].
  simpl. destruct (Ascii.eqb c Py.percent) eqn:Hc.
  - apply Ascii.eqb_eq in Hc. subst c. simpl. now rewrite IH.
  - remember (Py.replace_char Py.percent "%%" value) as escaped eqn:Hesc.
    destruct escaped as [|b rest].
    + simpl in *. now rewrite <- IH.
    + change (shell_unescape (String c (String b rest)))
        with (if (Ascii.eqb c Py.percent && Ascii.eqb b Py.percent)%bool
              then String Py.percent (shell_unescape rest)
              else String c (shell_unescape (String b rest))).
      rewrite Hc. simpl andb. cbv iota. now rewrite IH.
Qed.

End EnvFile.

(** ** The parameter-set menu *)

Section ParamMenu.

Import MenuBuilder.

(** C10. The parameter-set menu of a configuration is never empty:
    without declared parameter sets it holds the single item "Run"
    with an empty parameter string. *)
Theorem param_menu_nonempty (app_config : Config) :
  build_param_menu_items app_config <> [] /\
  (ConfigLoader.parameter_sets app_config = [] ->
   build_param_menu_items app_config
   = [("Run", [("name", "Run"); ("params", "")])]).
Proof.
  unfold build_param_menu_items.
  destruct (ConfigLoader.parameter_sets app_config) as [|ps rest]; simpl.
  - split; [discriminate | reflexivity].
  - split; [discriminate | intros H; discriminate H].
Qed.

Lemma param_menu_nonempty_witness :
  build_param_menu_items (Scenario.config_of [] []) <> [] /\
  build_param_menu_items (Scenario.config_of [] [])
  = [("Run", [("name", "Run"); ("params", "")])].
Proof.
  split.
  - apply (param_menu_nonempty (Scenario.config_of [] [])).
  - apply (param_menu_nonempty (Scenario.config_of [] [])). reflexivity.
Defined.

End ParamMenu.

(** ** Launching *)

Section Launch.

Import Sys AppLauncher.

Variable E : env.

Lemma prints_no_spawn (out : list event) :
  forallb is_print out = true -> existsb is_spawn out = false.
Proof.
  induction out as [|ev out IH]; [reflexivity|].
  simpl. intros H. apply andb_true_iff in H as [Hev Hout].
  rewrite (IH Hout). now destruct ev.
Qed.

Lemma prints_no_write (out : list event) :
  forallb is_print out = true -> existsb is_write out = false.
Proof.
  induction out as [|ev out IH]; [reflexivity|].
  simpl. intros H. apply andb_true_iff in H as [Hev Hout].
  rewrite (IH Hout). now destruct ev.
Qed.

Lemma bind_returns {A B} (m : M A) (k : A -> M B) h a o1 r o2 :
  m h = (inr a, o1) -> k a (h ++ o1)%list = (r, o2) ->
  bind m k h = (r, (o1 ++ o2)%list).
Proof. intros Hm Hk. unfold bind. now rewrite Hm, Hk. Qed.

Lemma bind_raises {A B} (m : M A) (k : A -> M B) h e o1 :
  m h = (inl e, o1) -> bind m k h = (inl e, o1).
Proof. intros Hm. unfold bind. now rewrite Hm. Qed.

Lemma parse_env_file_prints (f : Pathlib.Path) (h : list event) :
  exists d out,
    parse_env_file E f h = (inr d, out) /\ forallb is_print out = true.
Proof.
  unfold parse_env_file. destruct (read_lines E f) as [lines [e|]].
  - eexists _, _. split; reflexivity.
  - eexists _, _. split; reflexivity.
Qed.

Lemma env_file_lines_prints (f : Pathlib.Path) (h : list event) :
  exists ls out,
    env_file_lines E f h = (inr ls, out) /\ forallb is_print out = true.
Proof.
  unfold env_file_lines. destruct (exists_ E f).
  - unfold bind.
    destruct (parse_env_file_prints f h) as (d & out & -> & Hout).
    destruct d; simpl; rewrite app_nil_r; eauto.
  - eexists _, _. split; reflexivity.
Qed.

Lemma env_files_lines_prints (fs : list Pathlib.Path) (h : list event) :
  exists ls out,
    env_files_lines E fs h = (inr ls, out) /\ forallb is_print out = true.
Proof.
  revert h. induction fs as [|f fs IH]; intros h; simpl.
  - eexists _, _. split; reflexivity.
  - unfold bind.
    destruct (env_file_lines_prints f h) as (l1 & o1 & -> & H1).
    destruct (IH (h ++ o1)%list) as (l2 & o2 & -> & H2).
    simpl. eexists _, _. split; [reflexivity|].
    now rewrite app_nil_r, forallb_app, H1, H2.
Qed.

Lemma launch_missing_activation script params root files wd h :
  exists_ E (Pathlib.join (Pathlib.join root "Scripts") "activate.bat") = false ->
  exists out,
    launch_app E script params (Some root) files wd h = (inr false, out) /\
    existsb is_spawn out = false /\ existsb is_write out = false.
Proof.
  intros Hmissing. unfold launch_app, try_except.
  destruct (gettempdir E) as [e|tmp] eqn:Htmp.
  - assert (Hbody : launch_app_body E script params (Some root) files wd h
                    = (inl e, [])).
    { unfold launch_app_body. apply bind_raises. unfold lift. now rewrite Htmp. }
    rewrite Hbody. eexists. split; [reflexivity|]. split; reflexivity.
  - destruct (env_files_lines_prints files (h ++ [])%list)
      as (ls & o & Hls & Ho).
    assert (Hbody : exists msg,
               launch_app_body E script params (Some root) files wd h
               = (inr false, ([] ++ o ++ ([Print msg] ++ []) ++ [])%list)).
    { eexists. unfold launch_app_body.
      eapply bind_returns; [unfold lift; now rewrite Htmp|].
      eapply bind_returns; [exact Hls|].
      eapply bind_returns.
      - rewrite Hmissing. eapply bind_returns; reflexivity.
      - reflexivity. }
    destruct Hbody as [msg ->]. eexists. split; [reflexivity|].
    simpl. rewrite !existsb_app. simpl.
    rewrite (prints_no_spawn _ Ho), (prints_no_write _ Ho). split; reflexivity.
Qed.

Lemma bind_quiet {A B} (e : Py.exn) (ok : B) (m : M A) (k : A -> M B) h :
  existsb is_spawn (snd (m h)) = false ->
  (forall a o1, m h = (inr a, o1) ->
                stopped_or_raised e ok (k a (h ++ o1)%list)) ->
  stopped_or_raised e ok (bind m k h).
Proof.
  unfold stopped_or_raised, bind.
  destruct (m h) as [[e'|a] o1]; cbn [fst snd]; intros Hq Hk.
  - left. split; [assumption | discriminate].
  - specialize (Hk a o1 eq_refl).
    destruct (k a (h ++ o1)%list) as [r2 o2]; cbn [fst snd] in *.
    destruct Hk as [[Hq2 Hr] | Hr]; [left | right]; try assumption.
    split; [|assumption]. now rewrite existsb_app, Hq, Hq2.
Qed.

Lemma launch_body_spawn_failure e script params venv files wd h :
  (forall h' cmd, spawn E h' cmd = inl e) ->
  stopped_or_raised e true
    (launch_app_body E script params venv files wd h).
Proof.
  intros Hspawn. unfold launch_app_body.
  apply bind_quiet; [reflexivity|]. intros tmp o1 _.
  apply bind_quiet.
  { destruct (env_files_lines_prints files (h ++ o1)%list)
      as (ls & o & -> & Ho). now apply prints_no_spawn. }
  intros env_lines o2 _.
  apply bind_quiet.
  { destruct venv as [root|]; [|reflexivity].
    destruct (exists_ E _); reflexivity. }
  intros [venv_lines|] o3 _.
  2: { left. split; [reflexivity | discriminate]. }
  apply bind_quiet.
  { destruct (Py.truthy params); [|reflexivity].
    unfold bind, lift. destruct (shlex_split E params); reflexivity. }
  intros run_line o4 _.
  destruct (write_text E _ _) as [e'|].
  { left. split; [reflexivity | discriminate]. }
  right. unfold bind, emit, print, ask, lift, ret.
  destruct venv; destruct (Py.truthy params); simpl; rewrite Hspawn;
    reflexivity.
Qed.

Lemma launch_spawn_failure e script params venv files wd h :
  (forall h' cmd, spawn E h' cmd = inl e) ->
  exists out,
    launch_app E script params venv files wd h = (inr false, out) /\
    (existsb is_spawn out = true ->
     In (Print ("Error launching app: " ++ Py.exn_str e)) out /\
     In (Traceback e) out).
Proof.
  intros Hspawn. unfold launch_app, try_except.
  pose proof (launch_body_spawn_failure script params venv files wd h Hspawn)
    as Hbody.
  destruct (launch_app_body E script params venv files wd h) as [[e'|b] out].
  - unfold bind, print, emit, ret. simpl. eexists. split; [reflexivity|].
    destruct Hbody as [[Hq _] | He]; simpl in *.
    + rewrite existsb_app, Hq. simpl. discriminate.
    + injection He as ->. intros _. split; apply in_or_app; right; simpl; auto.
  - destruct Hbody as [[Hq Hr] | He]; simpl in *; [|discriminate].
    destruct b; [now elim Hr|].
    eexists. split; [reflexivity|]. rewrite Hq. discriminate.
Qed.

(** The orchestrator returns a verdict whatever happens inside. *)
Lemma launch_app_returns script params venv files wd h :
  exists verdict : bool,
    fst (launch_app E script params venv files wd h) = inr verdict.
Proof.
  unfold launch_app, try_except.
  destruct (launch_app_body E script params venv files wd h) as [[e|b] out].
  - exists false. reflexivity.
  - exists b. reflexivity.
Qed.

(** C8. Launching with a declared interpreter environment whose
    activation script is missing returns failure, and no process has
    been started (nor a batch file written) by then; the orchestrator
    returns a verdict and never an exception; and when starting the
    process fails, the verdict is failure and the error is reported. *)
Theorem launch_app_failure_modes script params venv files wd h :
  (forall root,
      venv = Some root ->
      exists_ E (Pathlib.join (Pathlib.join root "Scripts") "activate.bat")
      = false ->
      exists out,
        launch_app E script params venv files wd h = (inr false, out) /\
        existsb is_spawn out = false /\ existsb is_write out = false) /\
  (exists verdict : bool,
      fst (launch_app E script params venv files wd h) = inr verdict) /\
  (forall e,
      (forall h' cmd, spawn E h' cmd = inl e) ->
      exists out,
        launch_app E script params venv files wd h = (inr false, out) /\
        (existsb is_spawn out = true ->
         In (Print ("Error launching app: " ++ Py.exn_str e)) out /\
         In (Traceback e) out)).
Proof.
  split; [|split].
  - intros root -> Hmissing. now apply launch_missing_activation.
  - apply launch_app_returns.
  - intros e Hspawn. now apply launch_spawn_failure.
Qed.

End Launch.

(** ** Resolving variables *)

Section Resolution.

Import Sys VariableResolver.

Variable E : env.

Lemma dialogs_app (a b : list event) :
  dialogs (a ++ b)%list = dialogs a + dialogs b.
Proof. unfold dialogs. now rewrite filter_app, length_app. Qed.

Ltac run_monad :=
  cbv [bind emit ask ret lift print try_except
       _prompt_file_picker _prompt_folder_picker _prompt_input].

(** Resolving one variable returns (a value, or the cancellation), starts
    no process and shows at most one dialog. *)
Lemma resolve_variable_returns self var_name h :
  exists value out,
    _resolve_variable E self var_name h = (inr value, out) /\
    existsb is_spawn out = false /\ dialogs out <= 1.
Proof.
  unfold _resolve_variable.
  destruct (Dict.get var_name (variables_config self)) as [var_config|].
  2: { run_monad. eexists _, _. split; [reflexivity|].
       split; [reflexivity | cbv; lia]. }
  repeat match goal with
         | |- context [if String.eqb ?a ?b then _ else _] =>
             destruct (String.eqb a b)
         end; run_monad.
  all: repeat match goal with
         | |- context [strftime E ?x ?y] => destruct (strftime E x y)
         | |- context [paste E ?x] => destruct (paste E x)
         end.
  all: eexists _, _; split; [reflexivity|]; split; [reflexivity | cbv; lia].
Qed.

Lemma resolve_input self var_name var_config h :
  Dict.get var_name (variables_config self) = Some var_config ->
  Dict.get_default "type" "input" var_config = "input" ->
  let prompt := Dict.get_default "prompt" "Enter value" var_config in
  let default := Dict.get_default "default" "" var_config in
  let shown := AskString "Input Required" prompt default in
  _resolve_variable E self var_name h
  = (inr match askstring E (h ++ [shown]) "Input Required" prompt default with
         | Some text => Some text
         | None => default_or_none default
         end,
     [shown]).
Proof.
  intros Hget Htype. unfold _resolve_variable. rewrite Hget, Htype.
  reflexivity.
Qed.

Lemma mem_set_other (d : Dict.t string) (k k' v : string) :
  k' <> k -> Dict.mem k (Dict.set k' v d) = Dict.mem k d.
Proof. intros H. unfold Dict.mem. now rewrite get_set_other. Qed.

Lemma mem_set_same (d : Dict.t string) (k v : string) :
  Dict.mem k (Dict.set k v d) = true.
Proof. unfold Dict.mem. now rewrite get_set_same. Qed.

(** The loop over the distinct variables returns, starts no process,
    shows at most one dialog per variable and leaves the declarations
    alone. *)
Lemma resolve_each_returns names : forall self h,
  exists completed self' out,
    resolve_each E names self h = (inr (completed, self'), out) /\
    existsb is_spawn out = false /\
    dialogs out <= List.length names /\
    variables_config self' = variables_config self.
Proof.
  induction names as [|x names IH]; intros self h; simpl.
  - exists true, self, []. repeat split; auto.
  - destruct (Dict.mem x (resolved_values self)).
    + destruct (IH self h) as (c & s' & out & -> & Hs & Hd & Hv).
      exists c, s', out. repeat split; auto.
    + destruct (resolve_variable_returns self x h)
        as (value & o1 & Hx & Hs1 & Hd1).
      destruct value as [v|].
      * destruct (IH (with_value self x v) (h ++ o1)%list)
          as (c & s' & o2 & Hrest & Hs2 & Hd2 & Hv).
        exists c, s', (o1 ++ o2)%list. split; [|split; [|split]].
        -- eapply bind_returns; [exact Hx | exact Hrest].
        -- now rewrite existsb_app, Hs1, Hs2.
        -- rewrite dialogs_app. lia.
        -- exact Hv.
      * exists false, self, (o1 ++ [])%list. split; [|split; [|split]].
        -- eapply bind_returns; [exact Hx | reflexivity].
        -- now rewrite app_nil_r.
        -- rewrite app_nil_r. lia.
        -- reflexivity.
Qed.

Lemma resolve_parameters_returns self params h :
  exists result self' out,
    resolve_parameters E self params h = (inr (result, self'), out) /\
    existsb is_spawn out = false /\
    dialogs out <= List.length (set_iter E (findall (pieces params))).
Proof.
  unfold resolve_parameters.
  destruct (resolve_each_returns (set_iter E (findall (pieces params))) self h)
    as (c & s' & out & Heach & Hs & Hd & _).
  destruct c.
  - eexists _, s', (out ++ [])%list. split; [|split].
    + eapply bind_returns; [exact Heach | reflexivity].
    + now rewrite app_nil_r.
    + now rewrite app_nil_r.
  - eexists _, s', (out ++ [])%list. split; [|split].
    + eapply bind_returns; [exact Heach | reflexivity].
    + now rewrite app_nil_r.
    + now rewrite app_nil_r.
Qed.

(** A cancelled text prompt of a variable without default stops the
    loop, wherever the variable stands among the names. *)
Lemma resolve_each_cancelled var_name var_config names : forall self h,
  In var_name names ->
  Dict.mem var_name (resolved_values self) = false ->
  Dict.get var_name (variables_config self) = Some var_config ->
  Dict.get_default "type" "input" var_config = "input" ->
  Dict.get_default "default" "" var_config = "" ->
  (forall h', askstring E h' "Input Required"
                (Dict.get_default "prompt" "Enter value" var_config) "" = None) ->
  exists self' out, resolve_each E names self h = (inr (false, self'), out).
Proof.
  induction names as [|x names IH]; intros self h Hin Hmem Hget Htype Hdef Hno;
    [destruct Hin|].
  simpl. destruct (Dict.mem x (resolved_values self)) eqn:Hx.
  - destruct Hin as [-> | Hin]; [congruence|]. now apply IH.
  - destruct (string_dec x var_name) as [-> | Hne].
    + pose proof (@resolve_input self var_name var_config h Hget Htype) as Hres.
      simpl in Hres. rewrite Hdef, Hno in Hres.
      eexists _, _. eapply bind_returns; [exact Hres | reflexivity].
    + destruct Hin as [-> | Hin]; [now elim Hne|].
      destruct (resolve_variable_returns self x h) as ([v|] & o1 & Hr & _).
      * destruct (IH (with_value self x v) (h ++ o1)%list Hin)
          as (s' & o2 & Hrest); auto.
        { simpl. now rewrite mem_set_other. }
        eexists _, _. eapply bind_returns; [exact Hr | exact Hrest].
      * eexists _, _. eapply bind_returns; [exact Hr | reflexivity].
Qed.

(** A loop that runs to its end has shown the text prompt of each
    input variable it did not find in the cache. *)
Lemma resolve_each_asks var_name var_config names : forall self h self' out,
  resolve_each E names self h = (inr (true, self'), out) ->
  In var_name names ->
  Dict.mem var_name (resolved_values self) = false ->
  Dict.get var_name (variables_config self) = Some var_config ->
  Dict.get_default "type" "input" var_config = "input" ->
  In (AskString "Input Required"
        (Dict.get_default "prompt" "Enter value" var_config)
        (Dict.get_default "default" "" var_config)) out.
Proof.
  induction names as [|x names IH];
    intros self h self' out Hrun Hin Hmem Hget Htype; [destruct Hin|].
  simpl in Hrun. destruct (Dict.mem x (resolved_values self)) eqn:Hx.
  - destruct Hin as [-> | Hin]; [congruence|]. eapply IH; eauto.
  - destruct (resolve_variable_returns self x h) as ([v|] & o1 & Hr & _).
    2: { erewrite bind_returns in Hrun; [|exact Hr | reflexivity].
         discriminate. }
    destruct (resolve_each_returns names (with_value self x v) (h ++ o1)%list)
      as (c & s2 & o2 & Hrest & _).
    erewrite bind_returns in Hrun; [|exact Hr | exact Hrest].
    injection Hrun as -> -> <-.
    apply in_or_app.
    destruct (string_dec x var_name) as [-> | Hne].
    + left. pose proof (@resolve_input self var_name var_config h Hget Htype) as Hres.
      simpl in Hres. rewrite Hres in Hr. injection Hr as _ <-. now left.
    + right. destruct Hin as [-> | Hin]; [now elim Hne|].
      eapply IH; eauto. simpl. now rewrite mem_set_other.
Qed.

(** Names found in the cache are passed over in silence. *)
Lemma resolve_each_cached names self h :
  (forall x, In x names -> Dict.mem x (resolved_values self) = true) ->
  resolve_each E names self h = (inr (true, self), []).
Proof.
  induction names as [|x names IH]; intros Hall; [reflexivity|].
  simpl. rewrite (Hall x (or_introl eq_refl)).
  apply IH. intros y Hy. apply Hall. now right.
Qed.

(** *** The pattern for variable references *)

Lemma scan_word (name rest acc : string) :
  Py.all_chars Py.is_word name = true ->
  scan (name ++ rest) (Some acc) = scan rest (Some (acc ++ name)).
Proof.
  revert acc. induction name as [|c name IH]; intros acc Hword; simpl.
  - now rewrite append_nil_r.
  - simpl in Hword. apply andb_true_iff in Hword as [Hc Hname].
    rewrite Hc, IH by exact Hname. now rewrite append_assoc.
Qed.

Lemma pieces_twice (name : string) :
  Py.all_chars Py.is_word name = true -> name <> "" ->
  pieces ("$" ++ name ++ " $" ++ name) = [Ref name; Lit " "; Ref name].
Proof.
  intros Hword Hne. unfold pieces. simpl.
  rewrite scan_word by exact Hword. simpl.
  rewrite <- (append_nil_r name) at 2.
  rewrite scan_word by exact Hword. simpl.
  destruct name; [now elim Hne | reflexivity].
Qed.

Lemma contains_dollar (c : ascii) (r : string) :
  Py.contains "$" (String c r) = (c =? Py.dollar)%char || Py.contains "$" r.
Proof.
  change (Py.contains "$" (String c r))
    with (String.prefix "$" (String c r) || Py.contains "$" r).
  change (String.prefix "$" (String c r))
    with (if ascii_dec "$" c then String.prefix "" r else false).
  destruct (ascii_dec "$" c) as [<- | Hne].
  - now destruct r.
  - assert (Hc : (c =? Py.dollar)%char = false).
    { apply Ascii.eqb_neq. intros ->. now apply Hne. }
    now rewrite Hc.
Qed.

(** A text with a variable reference holds a dollar sign. *)
Lemma reference_needs_dollar (v s : string) :
  In v (findall (scan s None)) -> Py.contains "$" s = true.
Proof.
  induction s as [|c s IH]; [intros []|].
  rewrite contains_dollar. simpl.
  destruct (c =? Py.dollar)%char; [reflexivity|].
  simpl. exact IH.
Qed.

Lemma set_of_one (a : string) (l : list string) :
  NoDup l -> (forall x, In x l <-> In x [a; a]) -> l = [a].
Proof.
  intros Hnd Hin.
  assert (Hall : forall x, In x l -> x = a).
  { intros x Hx. apply Hin in Hx. destruct Hx as [<- | [<- | []]]; reflexivity. }
  destruct l as [|x [|y l]].
  - exfalso. apply (proj2 (Hin a)). now left.
  - f_equal. apply Hall. now left.
  - exfalso. inversion Hnd as [|? ? Hnotin _]; subst. apply Hnotin.
    rewrite (Hall x), (Hall y); simpl; auto.
Qed.

Lemma mem_set_keeps (d : Dict.t string) (k k' v : string) :
  Dict.mem k d = true -> Dict.mem k (Dict.set k' v d) = true.
Proof.
  intros H. destruct (string_dec k' k) as [-> | Hne].
  - apply mem_set_same.
  - now rewrite mem_set_other.
Qed.

(** The cache only grows during the loop, and a loop that runs to its
    end leaves every name in it. *)
Lemma resolve_each_grows names : forall self h completed self' out,
  resolve_each E names self h = (inr (completed, self'), out) ->
  forall x, Dict.mem x (resolved_values self) = true ->
            Dict.mem x (resolved_values self') = true.
Proof.
  induction names as [|n names IH]; intros self h completed self' out Hrun x Hx;
    simpl in Hrun.
  - injection Hrun as _ <- _. exact Hx.
  - destruct (Dict.mem n (resolved_values self)); [eapply IH; eauto|].
    destruct (resolve_variable_returns self n h) as ([v|] & o1 & Hr & _).
    + destruct (resolve_each_returns names (with_value self n v) (h ++ o1)%list)
        as (c & s2 & o2 & Hrest & _).
      erewrite bind_returns in Hrun; [|exact Hr | exact Hrest].
      injection Hrun as _ <- _.
      eapply IH; [exact Hrest|]. simpl. now apply mem_set_keeps.
    + erewrite bind_returns in Hrun; [|exact Hr | reflexivity].
      injection Hrun as _ <- _. exact Hx.
Qed.

Lemma resolve_each_caches names : forall self h self' out,
  resolve_each E names self h = (inr (true, self'), out) ->
  forall x, In x names -> Dict.mem x (resolved_values self') = true.
Proof.
  induction names as [|n names IH]; intros self h self' out Hrun x Hin;
    [destruct Hin|].
  simpl in Hrun. destruct (Dict.mem n (resolved_values self)) eqn:Hn.
  - destruct Hin as [<- | Hin]; [|eapply IH; eauto].
    eapply resolve_each_grows; eauto.
  - destruct (resolve_variable_returns self n h) as ([v|] & o1 & Hr & _).
    + destruct (resolve_each_returns names (with_value self n v) (h ++ o1)%list)
        as (c & s2 & o2 & Hrest & _).
      erewrite bind_returns in Hrun; [|exact Hr | exact Hrest].
      injection Hrun as -> <- _.
      destruct Hin as [<- | Hin]; [|eapply IH; eauto].
      eapply resolve_each_grows; [exact Hrest|]. simpl. apply mem_set_same.
    + erewrite bind_returns in Hrun; [|exact Hr | reflexivity].
      discriminate.
Qed.

(** What the loop does is what one resolution does for each name it
    takes up, and it takes up no name twice. *)
Lemma resolve_each_runs names : forall self h completed self' out,
  resolve_each E names self h = (inr (completed, self'), out) ->
  exists runs : list (string * list event),
    out = concat (map snd runs) /\
    Forall (fun run => resolution_of E (fst run) (snd run)) runs /\
    incl (map fst runs) names /\
    (NoDup names -> NoDup (map fst runs)).
Proof.
  induction names as [|n names IH]; intros self h completed self' out Hrun;
    simpl in Hrun.
  - injection Hrun as _ _ <-. exists [].
    split; [reflexivity|]. split; [constructor|].
    split; [intros x [] | intros _; constructor].
  - destruct (Dict.mem n (resolved_values self)).
    + destruct (IH _ _ _ _ _ Hrun) as (runs & Hout & Hall & Hincl & Hnd).
      exists runs. split; [exact Hout|]. split; [exact Hall|]. split.
      * intros x Hx. right. now apply Hincl.
      * intros H. inversion H; subst. now apply Hnd.
    + destruct (resolve_variable_returns self n h) as (value & o1 & Hr & _).
      assert (Hone : resolution_of E n o1).
      { exists self, h. now rewrite Hr. }
      destruct value as [v|].
      * destruct (resolve_each_returns names (with_value self n v)
                                       (h ++ o1)%list)
          as (c & s2 & o2 & Hrest & _).
        erewrite bind_returns in Hrun; [|exact Hr | exact Hrest].
        injection Hrun as _ _ <-.
        destruct (IH _ _ _ _ _ Hrest) as (runs & Hout & Hall & Hincl & Hnd).
        exists ((n, o1) :: runs). simpl. split; [|split; [|split]].
        -- now rewrite Hout.
        -- now constructor.
        -- intros x [<- | Hx]; [now left | right; now apply Hincl].
        -- intros H. inversion H as [|? ? Hnotin Hnames]; subst.
           constructor; [|now apply Hnd].
           intros Hin. apply Hnotin. now apply Hincl.
      * erewrite bind_returns in Hrun; [|exact Hr | reflexivity].
        injection Hrun as _ _ <-.
        exists [(n, o1)]. simpl. split; [|split; [|split]].
        -- now rewrite !app_nil_r.
        -- now constructor.
        -- intros x [<- | []]. now left.
        -- intros _. constructor; [intros [] | constructor].
Qed.

(** C7. One call of [resolve_parameters] collects the variable
    references first and goes once over their set: that set lists each
    distinct reference exactly once, no more dialogs are shown than it
    has members, and all the call does is one resolution for each name
    of a list of referenced names without repetition.  When the call returns a string, every referenced
    name has one value in the cache and the string is the parameter
    string with each reference replaced by the value of its name.  For
    a parameter string that names the same input variable twice, the
    prompt is shown once and what the user typed is put in both
    places. *)
Theorem resolve_parameters_once :
  set_iter_ok E ->
  (forall self params h,
      let names := set_iter E (findall (pieces params)) in
      let out := snd (resolve_parameters E self params h) in
      NoDup names /\
      (forall x, In x names <-> In x (findall (pieces params))) /\
      dialogs out <= List.length names /\
      exists runs : list (string * list event),
        out = concat (map snd runs) /\
        Forall (fun run => resolution_of E (fst run) (snd run)) runs /\
        NoDup (map fst runs) /\
        incl (map fst runs) (findall (pieces params))) /\
  (forall self params h result self' out,
      resolve_parameters E self params h = (inr (Some result, self'), out) ->
      (forall x, In x (findall (pieces params)) ->
                 exists value,
                   Dict.get x (resolved_values self') = Some value /\
                   replace_var self' x = value) /\
      result = sub (replace_var self') (pieces params)) /\
  (forall self var_name var_config text h,
      let prompt := Dict.get_default "prompt" "Enter value" var_config in
      let default := Dict.get_default "default" "" var_config in
      let shown := AskString "Input Required" prompt default in
      Py.all_chars Py.is_word var_name = true ->
      var_name <> "" ->
      Dict.get var_name (variables_config self) = Some var_config ->
      Dict.get_default "type" "input" var_config = "input" ->
      Dict.mem var_name (resolved_values self) = false ->
      askstring E (h ++ [shown]) "Input Required" prompt default = Some text ->
      resolve_parameters E self ("$" ++ var_name ++ " $" ++ var_name) h
      = (inr (Some (text ++ " " ++ text), with_value self var_name text),
         [shown])).
Proof.
  intros Hset. split; [|split].
  - intros self params h names out.
    destruct (Hset (findall (pieces params))) as [Hnd Hin].
    split; [exact Hnd|]. split; [exact Hin|]. split.
    + subst out. destruct (resolve_parameters_returns self params h)
        as (r & s' & o & -> & _ & Hd). exact Hd.
    + destruct (resolve_each_returns names self h)
        as (c & s' & o & Heach & _).
      destruct (resolve_each_runs _ _ _ Heach)
        as (runs & Hout & Hall & Hincl & Hnodup).
      exists runs.
      assert (Hsame : out = o).
      { subst out. unfold resolve_parameters. fold names.
        destruct c; (erewrite bind_returns; [|exact Heach | reflexivity]);
          simpl; apply app_nil_r. }
      rewrite Hsame. repeat split; auto.
      intros x Hx. apply Hin. now apply Hincl.
  - intros self params h result self' out Hrun.
    unfold resolve_parameters in Hrun.
    destruct (Hset (findall (pieces params))) as [_ Hnames].
    destruct (resolve_each_returns (set_iter E (findall (pieces params))) self h)
      as (c & s2 & o2 & Heach & _).
    destruct c.
    + erewrite bind_returns in Hrun; [|exact Heach | reflexivity].
      injection Hrun as <- <- _. split; [|reflexivity].
      intros x Hx.
      pose proof (resolve_each_caches _ _ _ Heach x (proj2 (Hnames x) Hx))
        as Hmem.
      unfold replace_var, Dict.get_default. unfold Dict.mem in Hmem.
      destruct (Dict.get x (resolved_values s2)) as [v|]; [|discriminate].
      now exists v.
    + erewrite bind_returns in Hrun; [|exact Heach | reflexivity].
      discriminate.
  - intros self var_name var_config text h prompt default shown
           Hword Hne Hget Htype Hmem Hask.
    unfold resolve_parameters. rewrite (pieces_twice Hword Hne).
    cbn [findall].
    destruct (Hset [var_name; var_name]) as [Hnd Hin].
    rewrite (set_of_one Hnd Hin).
    assert (Heach : resolve_each E [var_name] self h
                    = (inr (true, with_value self var_name text),
                       ([shown] ++ [])%list)).
    { cbn [resolve_each]. rewrite Hmem.
      eapply bind_returns.
      - rewrite (@resolve_input self var_name var_config h Hget Htype).
        fold prompt default shown. rewrite Hask. reflexivity.
      - reflexivity. }
    erewrite bind_returns; [|exact Heach | reflexivity].
    cbn [sub]. unfold replace_var, with_value, Dict.get_default. simpl.
    rewrite get_set_same, append_nil_r. reflexivity.
Qed.

End Resolution.

Lemma first_occurrences_ok (l : list string) :
  NoDup (first_occurrences l) /\
  (forall x, In x (first_occurrences l) <-> In x l).
Proof.
  induction l as [|a l [IHnd IHin]]; simpl.
  - split; [constructor | tauto].
  - split.
    + constructor.
      * intros H. apply filter_In in H as [_ H].
        now rewrite String.eqb_refl in H.
      * now apply NoDup_filter.
    + intros x. rewrite filter_In, IHin. split.
      * intros [-> | [H _]]; auto.
      * intros [-> | H]; [now left|].
        destruct (String.eqb x a) eqn:Hx.
        -- apply String.eqb_eq in Hx. now left.
        -- right. now split.
Qed.

Lemma world_set_iter_ok files dirs scan configs json text typed started :
  Sys.set_iter_ok
    (Scenario.world files dirs scan configs json text typed started).
Proof. intros l. apply first_occurrences_ok. Qed.

Lemma resolve_parameters_once_witness :
  VariableResolver.resolve_parameters (Scenario.typing_world "Ada")
    (VariableResolver.init Scenario.bare_variables) "$mode $mode" []
  = (inr (Some "Ada Ada",
          VariableResolver.with_value
            (VariableResolver.init Scenario.bare_variables) "mode" "Ada"),
     [Sys.AskString "Input Required" "Enter value" ""]).
Proof.
  apply (proj2 (proj2 (resolve_parameters_once
                         (world_set_iter_ok _ _ _ _ _ _ _ _)))
               (VariableResolver.init Scenario.bare_variables)
               "mode" [("type", "input")] "Ada" []);
    solve [reflexivity | discriminate].
Defined.

(** ** From the menu to the launch *)

Section Orchestration.

Import Sys VariableResolver MenuBuilder.

Variable E : env.

(** A launch whose resolution is cancelled does nothing more. *)
Lemma launch_cancelled self' out b cfg ef ps h :
  ps <> [] ->
  Py.contains "$" (Dict.get_default "params" "" ps) = true ->
  resolve_parameters E (init (ConfigLoader.variables cfg))
    (Dict.get_default "params" "" ps) h = (inr (None, self'), out) ->
  launch_app_with_config E b cfg ef (Some ps) h = (inr tt, (out ++ [])%list).
Proof.
  intros Hps Hdollar Hres. unfold launch_app_with_config.
  destruct ps as [|kv ps]; [now elim Hps|]. cbn [chosen].
  rewrite Hdollar. eapply bind_returns; [exact Hres | reflexivity].
Qed.

(** C1. A cancelled text prompt of an input variable yields the
    variable's default when it has a non-empty one, and the cancellation
    otherwise.  When the variable has no default, or an empty one, the
    whole resolution of a parameter string that names it is cancelled,
    and the launch returns without starting a process. *)
Theorem cancelled_input_prompt b cfg ef ps var_name var_config h :
  let params := Dict.get_default "params" "" ps in
  let prompt := Dict.get_default "prompt" "Enter value" var_config in
  let default := Dict.get_default "default" "" var_config in
  set_iter_ok E ->
  ps <> [] ->
  In var_name (findall (pieces params)) ->
  Dict.get var_name (ConfigLoader.variables cfg) = Some var_config ->
  Dict.get_default "type" "input" var_config = "input" ->
  (forall h', askstring E h' "Input Required" prompt default = None) ->
  (forall self h',
      variables_config self = ConfigLoader.variables cfg ->
      _resolve_variable E self var_name h'
      = (inr (if Py.truthy default then Some default else None),
         [AskString "Input Required" prompt default])) /\
  (default = "" ->
   (exists self' out,
       resolve_parameters E (init (ConfigLoader.variables cfg)) params h
       = (inr (None, self'), out)) /\
   (exists out,
       launch_app_with_config E b cfg ef (Some ps) h = (inr tt, out) /\
       existsb is_spawn out = false)).
Proof.
  intros params prompt default Hset Hps Hin Hget Htype Hcancel. split.
  - intros self h' Hvars. rewrite <- Hvars in Hget.
    rewrite (@resolve_input E self var_name var_config h' Hget Htype).
    fold prompt default. now rewrite Hcancel.
  - intros Hdefault.
    assert (Hres : exists self' out,
               resolve_parameters E (init (ConfigLoader.variables cfg)) params h
               = (inr (None, self'), out) /\ existsb is_spawn out = false).
    { unfold resolve_parameters.
      destruct (Hset (findall (pieces params))) as [_ Hnames].
      destruct (@resolve_each_cancelled E var_name var_config
                  (set_iter E (findall (pieces params)))
                  (init (ConfigLoader.variables cfg)) h)
        as (self' & out & Heach); auto.
      - now apply Hnames.
      - intros h'. pose proof (Hcancel h') as Hc.
        rewrite Hdefault in Hc. exact Hc.
      - destruct (resolve_each_returns E
                    (set_iter E (findall (pieces params)))
                    (init (ConfigLoader.variables cfg)) h)
          as (c & s2 & o2 & Heach2 & Hquiet & _).
        rewrite Heach in Heach2. injection Heach2 as <- <- <-.
        exists self', (out ++ [])%list. split.
        + eapply bind_returns; [exact Heach | reflexivity].
        + now rewrite app_nil_r. }
    destruct Hres as (self' & out & Hres & Hquiet). split.
    + now exists self', out.
    + exists (out ++ [])%list. split.
      * apply (@launch_cancelled self' out b cfg ef ps h Hps); [|exact Hres].
        now apply (@reference_needs_dollar var_name).
      * now rewrite app_nil_r.
Qed.

(** C3. The cache of resolved values starts empty with each resolver
    and is emptied by [reset].  A resolver that finds every variable of
    a parameter string in its cache resolves it without a dialog or any
    other event.  A launch builds its own resolver: whenever a launch
    reaches the start of a process, whatever happened before it, it has
    itself shown the text prompt of each input variable its parameters
    name. *)
Theorem cache_lives_one_launch :
  set_iter_ok E ->
  (forall vars self,
      resolved_values (init vars) = Dict.empty /\
      resolved_values (reset self) = Dict.empty) /\
  (forall self params h,
      (forall x, In x (findall (pieces params)) ->
                 Dict.mem x (resolved_values self) = true) ->
      resolve_parameters E self params h
      = (inr (Some (sub (replace_var self) (pieces params)), self), [])) /\
  (forall b cfg ef ps var_name var_config h,
      In var_name (findall (pieces (Dict.get_default "params" "" ps))) ->
      Dict.get var_name (ConfigLoader.variables cfg) = Some var_config ->
      Dict.get_default "type" "input" var_config = "input" ->
      existsb is_spawn (snd (launch_app_with_config E b cfg ef (Some ps) h))
      = true ->
      In (AskString "Input Required"
            (Dict.get_default "prompt" "Enter value" var_config)
            (Dict.get_default "default" "" var_config))
         (snd (launch_app_with_config E b cfg ef (Some ps) h))).
Proof.
  intros Hset. split; [|split].
  - intros vars self. split; reflexivity.
  - intros self params h Hcached. unfold resolve_parameters.
    destruct (Hset (findall (pieces params))) as [_ Hnames].
    unfold bind. rewrite resolve_each_cached; [reflexivity|].
    intros x Hx. apply Hcached. now apply Hnames.
  - intros b cfg ef ps var_name var_config h Hin Hget Htype.
    unfold launch_app_with_config.
    destruct ps as [|kv ps]; [destruct Hin|]. cbn [chosen].
    set (params := Dict.get_default "params" "" (kv :: ps)) in *.
    rewrite (@reference_needs_dollar var_name params Hin).
    destruct (Hset (findall (pieces params))) as [_ Hnames].
    destruct (resolve_each_returns E (set_iter E (findall (pieces params)))
                (init (ConfigLoader.variables cfg)) h)
      as (c & s' & out & Heach & Hquiet & _).
    destruct c.
    + pose proof (@resolve_each_asks E var_name var_config _ _ _ _ _ Heach
                    (proj2 (Hnames var_name) Hin) eq_refl Hget Htype) as Hasked.
      assert (Hres : resolve_parameters E (init (ConfigLoader.variables cfg))
                       params h
                     = (inr (Some (sub (replace_var s') (pieces params)), s'),
                        (out ++ [])%list)).
      { unfold resolve_parameters.
        eapply bind_returns; [exact Heach | reflexivity]. }
      destruct (launch_resolved E b cfg ef
                  (sub (replace_var s') (pieces params))
                  (h ++ (out ++ []))%list) as [r o] eqn:Hlaunch.
      rewrite (bind_returns _ _ _ Hres Hlaunch). cbn [snd].
      intros _. apply in_or_app. left. apply in_or_app. now left.
    + cbv zeta. unfold bind.
      match goal with
      | |- context [resolve_parameters ?e ?r ?p ?t] =>
          assert (Hres : resolve_parameters e r p t
                         = (inr (None, s'), (out ++ [])%list))
      end.
      { unfold resolve_parameters.
        eapply bind_returns; [exact Heach | reflexivity]. }
      rewrite Hres. cbn [fst snd ret].
      rewrite !app_nil_r, Hquiet. discriminate.
Qed.

End Orchestration.

Lemma cancelled_input_prompt_witness :
  (exists self' out,
      VariableResolver.resolve_parameters Scenario.cancelling_world
        (VariableResolver.init Scenario.bare_variables) "--mode=$mode" []
      = (inr (None, self'), out)) /\
  (exists out,
      MenuBuilder.launch_app_with_config Scenario.cancelling_world
        Scenario.plain_builder Scenario.bare_config None
        (Some Scenario.debug_set) []
      = (inr tt, out) /\
      existsb Sys.is_spawn out = false).
Proof.
  apply (proj2 (@cancelled_input_prompt Scenario.cancelling_world
                  Scenario.plain_builder Scenario.bare_config None
                  Scenario.debug_set "mode" [("type", "input")] []
                  (world_set_iter_ok _ _ _ _ _ _ _ _)
                  ltac:(discriminate)
                  ltac:(simpl; auto)
                  eq_refl eq_refl
                  (fun _ => eq_refl))
               eq_refl).
Defined.

(** The worked example: the variable "mode" has the default "dev" and
    the user cancels the prompt.  The resolution is not cancelled: it
    yields "--mode=dev", and the launch goes on to start the process. *)
Lemma cancelled_input_with_default_launches :
  (forall h title prompt initial,
      Sys.askstring Scenario.cancelling_world h title prompt initial = None) /\
  fst (VariableResolver.resolve_parameters Scenario.cancelling_world
         (VariableResolver.init Scenario.mode_variables) "--mode=$mode" [])
  = inr (Some "--mode=dev",
         VariableResolver.with_value
           (VariableResolver.init Scenario.mode_variables) "mode" "dev") /\
  existsb Sys.is_spawn
    (snd (MenuBuilder.launch_app_with_config Scenario.cancelling_world
            Scenario.plain_builder Scenario.debug_config None
            (Some Scenario.debug_set) []))
  = true.
Proof.
  split; [reflexivity|]. split; vm_compute; reflexivity.
Qed.

Lemma cache_lives_one_launch_witness :
  let launch :=
    MenuBuilder.launch_app_with_config (Scenario.typing_world "dev")
      Scenario.plain_builder Scenario.debug_config None
      (Some Scenario.debug_set) in
  In (Sys.AskString "Input Required" "Enter value" "dev")
     (snd (launch (snd (launch [])))).
Proof.
  apply (proj2 (proj2 (@cache_lives_one_launch (Scenario.typing_world "dev")
                         (world_set_iter_ok _ _ _ _ _ _ _ _)))
               Scenario.plain_builder Scenario.debug_config None
               Scenario.debug_set "mode"
               [("type", "input"); ("default", "dev")]).
  - simpl. auto.
  - reflexivity.
  - reflexivity.
  - vm_compute. reflexivity.
Defined.

(** Two launches of the worked example, one after the other, with a user
    who types "dev": the first starts the process, and the second shows
    the prompt for "mode" again. *)
Lemma second_launch_prompts_again :
  let launch :=
    MenuBuilder.launch_app_with_config (Scenario.typing_world "dev")
      Scenario.plain_builder Scenario.debug_config None
      (Some Scenario.debug_set) in
  let first := snd (launch []) in
  let second := snd (launch first) in
  existsb Sys.is_spawn first = true /\
  Sys.dialogs first = 1 /\
  Sys.dialogs second = 1 /\
  hd_error second = Some (Sys.AskString "Input Required" "Enter value" "dev").
Proof.
  repeat split; vm_compute; reflexivity.
Qed.

Lemma launch_app_failure_modes_witness :
  let venv := Pathlib.of_str "C:\venvs\demo" in
  let failing :=
    Scenario.world [Scenario.script_py] [] [] [] Scenario.no_json
      Scenario.no_text (fun _ => None) (inl (Py.OSError "cannot start")) in
  (exists out,
      AppLauncher.launch_app Scenario.cancelling_world Scenario.script_py ""
        (Some venv) [] None []
      = (inr false, out) /\
      existsb Sys.is_spawn out = false /\ existsb Sys.is_write out = false) /\
  (exists out,
      AppLauncher.launch_app failing Scenario.script_py "" None [] None []
      = (inr false, out) /\
      (existsb Sys.is_spawn out = true ->
       In (Sys.Print "Error launching app: cannot start") out /\
       In (Sys.Traceback (Py.OSError "cannot start")) out)).
Proof.
  intros venv failing. split.
  - apply (proj1 (launch_app_failure_modes Scenario.cancelling_world
                    Scenario.script_py "" (Some venv) [] None [])
                 venv eq_refl eq_refl).
  - apply (proj2 (proj2 (launch_app_failure_modes failing
                           Scenario.script_py "" None [] None []))
                 (Py.OSError "cannot start") (fun _ _ => eq_refl)).
Defined.

(** ** Sorting *)

Section SortFacts.

Variable A : Type.
Variable leb : A -> A -> bool.

Lemma insert_sorted_perm (x : A) (l : list A) :
  Permutation (insert_sorted leb x l) (x :: l).
Proof.
  induction l as [|y l IH]; simpl; [reflexivity|].
  destruct (leb x y); [reflexivity|].
  rewrite IH. apply perm_swap.
Qed.

Lemma sorted_perm (l : list A) : Permutation (sorted leb l) l.
Proof.
  induction l as [|x l IH]; simpl; [reflexivity|].
  rewrite insert_sorted_perm. now constructor.
Qed.

Hypothesis leb_total : forall x y, leb x y = true \/ leb y x = true.

Lemma insert_sorted_sorted (x : A) (l : list A) :
  Sorted (fun a b => leb a b = true) l ->
  Sorted (fun a b => leb a b = true) (insert_sorted leb x l).
Proof.
  induction l as [|y l IH]; intros Hl; simpl.
  - repeat constructor.
  - destruct (leb x y) eqn:Hxy.
    + constructor; [assumption | now constructor].
    + inversion Hl as [|? ? Hl' Hhd]; subst.
      constructor; [now apply IH|].
      destruct l as [|z l]; simpl.
      * constructor. destruct (leb_total x y); congruence.
      * destruct (leb x z).
        -- constructor. destruct (leb_total x y); congruence.
        -- inversion Hhd; subst. now constructor.
Qed.

Lemma sorted_sorted (l : list A) :
  Sorted (fun a b => leb a b = true) (sorted leb l).
Proof.
  induction l as [|x l IH]; simpl; [constructor|].
  now apply insert_sorted_sorted.
Qed.

End SortFacts.

(** A strict order sorts a list of pairwise different elements into a
    strictly increasing one. *)
Section StrictSort.

Variable A : Type.
Variable cmp : A -> A -> comparison.

Hypothesis cmp_antisym : forall x y, cmp y x = CompOpp (cmp x y).
Hypothesis cmp_trans :
  forall x y z, cmp x y = Lt -> cmp y z = Lt -> cmp x z = Lt.

Let leb (x y : A) : bool := match cmp x y with Gt => false | _ => true end.
Let lt (x y : A) : Prop := cmp x y = Lt.
Let differ (x y : A) : Prop := cmp x y <> Eq.

Lemma insert_strict (x : A) (l : list A) :
  StronglySorted lt l -> Forall (differ x) l ->
  StronglySorted lt (insert_sorted leb x l).
Proof.
  induction l as [|y l IH]; intros Hl Hx; simpl.
  - repeat constructor.
  - inversion Hl as [|? ? Hl' Hy]; subst.
    inversion Hx as [|? ? Hxy Hxl]; subst.
    unfold leb at 1. unfold differ in Hxy.
    destruct (cmp x y) eqn:Hc; [now elim Hxy | |].
    + constructor; [assumption|]. constructor; [exact Hc|].
      eapply Forall_impl; [|exact Hy]. intros z Hz.
      exact (cmp_trans Hc Hz).
    + constructor; [now apply IH|].
      eapply Permutation_Forall.
      * symmetry. apply insert_sorted_perm.
      * constructor; [|assumption]. unfold lt.
        now rewrite cmp_antisym, Hc.
Qed.

Lemma sorted_strict (l : list A) :
  StronglySorted differ l -> StronglySorted lt (sorted leb l).
Proof.
  induction l as [|x l IH]; intros Hl; simpl; [constructor|].
  inversion Hl as [|? ? Hl' Hx]; subst.
  apply insert_strict; [now apply IH|].
  eapply Permutation_Forall; [|exact Hx].
  symmetry. apply sorted_perm.
Qed.

End StrictSort.

(** ** The order of paths *)

Section PathOrder.

Lemma string_compare_eq (x y : string) : String.compare x y = Eq <-> x = y.
Proof. apply String_as_OT.cmp_eq. Qed.

Lemma string_compare_opp (x y : string) :
  String.compare y x = CompOpp (String.compare x y).
Proof. apply String.compare_antisym. Qed.

Lemma string_compare_trans (x y z : string) (c : comparison) :
  String.compare x y = c -> String.compare y z = c -> String.compare x z = c.
Proof.
  destruct c; intros Hxy Hyz.
  - apply string_compare_eq in Hxy, Hyz. subst. now apply string_compare_eq.
  - apply String_as_OT.cmp_lt in Hxy, Hyz. apply String_as_OT.cmp_lt.
    eapply String_as_OT.lt_trans; eassumption.
  - rewrite string_compare_opp in Hxy, Hyz.
    rewrite string_compare_opp.
    destruct (String.compare y x) eqn:H1; try discriminate.
    destruct (String.compare z y) eqn:H2; try discriminate.
    apply String_as_OT.cmp_lt in H1, H2.
    assert (H3 : String.compare z x = Lt).
    { apply String_as_OT.cmp_lt. eapply String_as_OT.lt_trans; eassumption. }
    now rewrite H3.
Qed.

Lemma path_compare_opp (p q : Pathlib.Path) :
  Pathlib.compare q p = CompOpp (Pathlib.compare p q).
Proof.
  unfold Pathlib.compare.
  apply list_compare_antisym; [apply string_compare_eq|].
  apply string_compare_opp.
Qed.

Lemma path_compare_trans (p q r : Pathlib.Path) :
  Pathlib.compare p q = Lt -> Pathlib.compare q r = Lt ->
  Pathlib.compare p r = Lt.
Proof.
  unfold Pathlib.compare.
  apply list_compare_trans.
  - apply string_compare_eq.
  - intros x y z c. apply string_compare_trans.
  - apply string_compare_opp.
Qed.

Lemma path_eqb_sym (p q : Pathlib.Path) : Pathlib.eqb p q = Pathlib.eqb q p.
Proof.
  unfold Pathlib.eqb. rewrite (path_compare_opp p q).
  now destruct (Pathlib.compare p q).
Qed.

Lemma path_eqb_refl (p : Pathlib.Path) : Pathlib.eqb p p = true.
Proof.
  unfold Pathlib.eqb, Pathlib.compare.
  now rewrite (proj2 (@list_compare_refl _ _ string_compare_eq _ _) eq_refl).
Qed.

End PathOrder.

(** ** Discovering environment files *)

Section Discovery.

Import Sys ConfigLoader.

Variable E : env.

Let differ := Pathlib.differ.

Lemma existsb_eqb_false (p : Pathlib.Path) (s : list Pathlib.Path) :
  existsb (Pathlib.eqb p) s = false -> Forall (fun q => differ q p) s.
Proof.
  induction s as [|q s IH]; simpl; [constructor|].
  intros H. apply orb_false_iff in H as [Hq Hs].
  constructor; [|now apply IH].
  unfold differ, Pathlib.differ. rewrite path_eqb_sym in Hq.
  unfold Pathlib.eqb in Hq.
  intros Heq. now rewrite Heq in Hq.
Qed.

Lemma strongly_sorted_snoc (R : Pathlib.Path -> Pathlib.Path -> Prop) s p :
  StronglySorted R s -> Forall (fun q => R q p) s ->
  StronglySorted R (s ++ [p]).
Proof.
  induction s as [|q s IH]; intros Hs Hp; simpl.
  - repeat constructor.
  - inversion Hs; subst. inversion Hp; subst.
    constructor; [now apply IH|].
    apply Forall_app. split; [assumption | now constructor].
Qed.

Lemma set_add_distinct p s :
  StronglySorted differ s -> StronglySorted differ (set_add p s).
Proof.
  intros Hs. unfold set_add.
  destruct (existsb (Pathlib.eqb p) s) eqn:Hp; [assumption|].
  apply strongly_sorted_snoc; [assumption | now apply existsb_eqb_false].
Qed.

Lemma set_add_in p s x :
  In x (set_add p s) -> In x s \/ x = p.
Proof.
  unfold set_add. destruct (existsb (Pathlib.eqb p) s); [now left|].
  intros H. apply in_app_or in H as [H | [<- | []]]; auto.
Qed.

Lemma set_add_keeps p s x : In x s -> In x (set_add p s).
Proof.
  unfold set_add. destruct (existsb (Pathlib.eqb p) s); [auto|].
  intros H. apply in_or_app. now left.
Qed.

Lemma set_add_has p s : exists q, In q (set_add p s) /\ Pathlib.eqb q p = true.
Proof.
  unfold set_add. destruct (existsb (Pathlib.eqb p) s) eqn:Hp.
  - apply existsb_exists in Hp as (q & Hq & Heq).
    exists q. split; [assumption | now rewrite path_eqb_sym].
  - exists p. split; [apply in_or_app; right; now left | apply path_eqb_refl].
Qed.

Lemma add_all_spec l : forall s,
  StronglySorted differ s ->
  StronglySorted differ (add_all l s) /\
  (forall x, In x (add_all l s) -> In x s \/ In x l) /\
  (forall x, In x s -> In x (add_all l s)) /\
  (forall x, In x l -> exists q, In q (add_all l s) /\ Pathlib.eqb q x = true).
Proof.
  unfold add_all.
  induction l as [|p l IH]; intros s Hs; simpl.
  - repeat split; auto. intros x [].
  - destruct (IH (set_add p s) (set_add_distinct p Hs))
      as (Hd & Hin & Hkeep & Hhas).
    repeat split.
    + exact Hd.
    + intros x Hx. apply Hin in Hx as [Hx | Hx]; [|auto].
      apply set_add_in in Hx as [Hx | ->]; auto.
    + intros x Hx. apply Hkeep. now apply set_add_keeps.
    + intros x [<- | Hx]; [|now apply Hhas].
      destruct (set_add_has p s) as (q & Hq & Heq).
      exists q. split; [now apply Hkeep | assumption].
Qed.

Lemma fold_explicit fs : forall s,
  fold_left (add_explicit E) fs s
  = add_all (map (resolve E) (filter (exists_ E) fs)) s.
Proof.
  unfold add_all.
  induction fs as [|f fs IH]; intros s; simpl; [reflexivity|].
  unfold add_explicit at 2. destruct (exists_ E f); simpl; apply IH.
Qed.

Lemma fold_scanned fs : forall s,
  fold_left (add_scanned E) fs s
  = add_all (map (resolve E)
               (filter (fun f => is_file E f
                                 && env_name_matches (Pathlib.name f)) fs)) s.
Proof.
  unfold add_all.
  induction fs as [|f fs IH]; intros s; simpl; [reflexivity|].
  unfold add_scanned at 2.
  destruct (is_file E f); simpl; [|apply IH].
  destruct (env_name_matches (Pathlib.name f)); simpl; apply IH.
Qed.

Lemma add_all_app (a b s : list Pathlib.Path) :
  add_all (a ++ b) s = add_all b (add_all a s).
Proof. unfold add_all. apply fold_left_app. Qed.

Lemma get_all_env_files_sources {V P} (self : AppConfig V P) :
  get_all_env_files E self
  = sorted Pathlib.leb
      (add_all (explicit_sources E self ++ scanned_sources E self) []).
Proof.
  unfold get_all_env_files. f_equal.
  rewrite fold_explicit, add_all_app. fold (explicit_sources E self).
  unfold scanned_sources.
  destruct (env_directory self) as [dir|]; [|reflexivity].
  destruct (exists_ E dir); [|reflexivity].
  now rewrite fold_scanned.
Qed.

(** C2. Discovery returns resolved paths of two kinds, and no others:
    those of the explicit files that exist, whatever their names, and
    those of the regular files found by the scan whose name is [.env],
    ends with [.env] or contains [.env.]; each such path is in the
    result, once (paths that compare equal are the same source); and
    the result is strictly increasing in the order of paths. *)
Theorem get_all_env_files_spec {V P} (self : AppConfig V P) :
  let found := get_all_env_files E self in
  let sources := (explicit_sources E self ++ scanned_sources E self)%list in
  (forall p, In p found -> In p sources) /\
  (forall p, In p sources ->
             exists q, In q found /\ Pathlib.eqb q p = true) /\
  StronglySorted (fun p q => Pathlib.compare p q = Lt) found.
Proof.
  intros found sources. subst found. rewrite get_all_env_files_sources.
  fold sources.
  destruct (add_all_spec sources (SSorted_nil differ))
    as (Hd & Hin & _ & Hhas).
  repeat split.
  - intros p Hp.
    apply (Permutation_in _ (sorted_perm Pathlib.leb _)) in Hp.
    apply Hin in Hp as [[] | Hp]. exact Hp.
  - intros p Hp. destruct (Hhas p Hp) as (q & Hq & Heq).
    exists q. split; [|exact Heq].
    apply (Permutation_in _ (Permutation_sym (sorted_perm Pathlib.leb _))).
    exact Hq.
  - apply (sorted_strict Pathlib.compare path_compare_opp path_compare_trans).
    exact Hd.
Qed.

End Discovery.

(** The worked example of discovery: the explicit note is returned
    although its name matches no pattern, and [z.env] comes before
    [a.env] because its directory comes first. *)
Lemma discovery_follows_paths :
  ConfigLoader.get_all_env_files Scenario.discovery_world
    Scenario.discovery_config
  = [Scenario.z_env; Scenario.a_env; Scenario.notes_txt] /\
  ConfigLoader.env_name_matches (Pathlib.name Scenario.notes_txt) = false /\
  String.leb (Py.lower (Pathlib.name Scenario.z_env))
             (Py.lower (Pathlib.name Scenario.a_env)) = false.
Proof. repeat split; vm_compute; reflexivity. Qed.

(** The scan of [env_parser.py] goes by the suffix of the name, and a
    file named [.env] has none. *)
Remark find_env_files_skips_dot_env :
  EnvParser.matches Scenario.dot_env = false /\
  ConfigLoader.env_name_matches (Pathlib.name Scenario.dot_env) = true.
Proof. split; vm_compute; reflexivity. Qed.

(** ** Ordering the configurations *)

Section Ordering.

Import Sys ConfigLoader.

Variables V P : Type.

Lemma filter_all {A} (p : A -> bool) (l : list A) :
  (forall x, In x l -> p x = true) -> filter p l = l.
Proof.
  induction l as [|x l IH]; intros H; simpl; [reflexivity|].
  rewrite (H x (or_introl eq_refl)). f_equal. apply IH.
  intros y Hy. apply H. now right.
Qed.

Lemma filter_twice {A} (p q : A -> bool) (l : list A) :
  filter p (filter q l) = filter (fun x => q x && p x) l.
Proof.
  induction l as [|x l IH]; simpl; [reflexivity|].
  destruct (q x); simpl; [|exact IH].
  destruct (p x); [now f_equal | exact IH].
Qed.

Lemma first_occurrences_filter (p : string -> bool) (l : list string) :
  first_occurrences (filter p l) = filter p (first_occurrences l).
Proof.
  induction l as [|x l IH]; simpl; [reflexivity|].
  destruct (p x) eqn:Hx; simpl.
  - rewrite IH, !filter_twice. f_equal.
    apply filter_ext. intros y. apply andb_comm.
  - rewrite IH, filter_twice. apply filter_ext_in. intros y _.
    destruct (String.eqb y x) eqn:Hy; simpl; [|reflexivity].
    apply String.eqb_eq in Hy. subst y. now rewrite Hx.
Qed.

Lemma get_filter_key {A} (q : string -> bool) (k : string) (d : Dict.t A) :
  Dict.get k (filter (fun kv => q (fst kv)) d)
  = if q k then Dict.get k d else None.
Proof.
  induction d as [|[k' v] d IH]; simpl; [now destruct (q k)|].
  destruct (String.eqb k' k) eqn:Hk.
  - apply String.eqb_eq in Hk. subst k'.
    destruct (q k) eqn:Hq; simpl.
    + now rewrite String.eqb_refl.
    + exact IH.
  - destruct (q k'); simpl; [now rewrite Hk|]; exact IH.
Qed.

Lemma get_none_keys {A} (k : string) (d : Dict.t A) :
  Dict.get k d = None -> forall kv, In kv d -> (fst kv =? k)%string = false.
Proof.
  induction d as [|[k' v] d IH]; simpl; intros H kv Hin; [destruct Hin|].
  destruct (String.eqb k' k) eqn:Hk; [discriminate|].
  destruct Hin as [<- | Hin]; [exact Hk | now apply IH].
Qed.

Lemma del_as_filter {A} (k : string) (d : Dict.t A) :
  Dict.wf d ->
  Dict.del k d = filter (fun kv => negb (fst kv =? k)%string) d.
Proof.
  unfold Dict.wf, Dict.keys.
  induction d as [|[k' v] d IH]; simpl; intros Hwf; [reflexivity|].
  inversion Hwf as [|? ? Hnotin Hwf']; subst.
  destruct (String.eqb k' k) eqn:Hk; simpl.
  - apply String.eqb_eq in Hk. subst k'. symmetry. apply filter_all.
    intros [k2 v2] Hin. simpl. apply negb_true_iff, String.eqb_neq.
    intros ->. apply Hnotin. now apply (in_map fst) in Hin.
  - f_equal. now apply IH.
Qed.

Lemma wf_filter {A} (p : string * A -> bool) (d : Dict.t A) :
  Dict.wf d -> Dict.wf (filter p d).
Proof.
  unfold Dict.wf, Dict.keys.
  induction d as [|kv d IH]; simpl; intros Hwf; [constructor|].
  inversion Hwf as [|? ? Hnotin Hwf']; subst.
  destruct (p kv); simpl; [|now apply IH].
  constructor; [|now apply IH].
  intros Hin. apply Hnotin. apply in_map_iff in Hin as (x & Hx & Hin).
  apply filter_In in Hin as [Hin _]. rewrite <- Hx. now apply in_map.
Qed.

(** Taking the listed configurations out, in the order of the list. *)
Lemma take_ordered_spec (order : list string) :
  forall (configs : Dict.t (AppConfig V P)) (acc : list (AppConfig V P)),
    Dict.wf configs ->
    exists prefix,
      take_ordered (map Py.VStr order) configs acc
      = inr ((acc ++ prefix)%list, unlisted order configs) /\
      Forall2 (fun id c => Dict.get id configs = Some c)
              (listed order configs) prefix.
Proof.
  induction order as [|k order IH]; intros configs acc Hwf.
  - exists []. simpl. rewrite app_nil_r. split; [|constructor].
    unfold unlisted. simpl. now rewrite filter_all.
  - cbn [map take_ordered key_in fail_bind].
    destruct (Dict.get k configs) as [c|] eqn:Hk.
    + assert (Hwf' : Dict.wf (Dict.del k configs)).
      { rewrite del_as_filter by exact Hwf. now apply wf_filter. }
      destruct (IH (Dict.del k configs) (acc ++ [c])%list Hwf')
        as (prefix & Htake & Hall).
      exists (c :: prefix). rewrite Htake. split.
      * f_equal. f_equal.
        -- now rewrite <- app_assoc.
        -- unfold unlisted. rewrite del_as_filter by exact Hwf.
           rewrite filter_twice. apply filter_ext. intros kv. simpl.
           now rewrite negb_orb.
      * unfold listed in *. simpl. unfold Dict.mem at 1. rewrite Hk.
        cbn [first_occurrences].
        assert (Hsame :
                  filter (fun id => Dict.mem id (Dict.del k configs)) order
                  = filter (fun y => negb (y =? k)%string)
                           (filter (fun id => Dict.mem id configs) order)).
        { rewrite filter_twice. apply filter_ext. intros id.
          unfold Dict.mem. rewrite del_as_filter by exact Hwf.
          rewrite (get_filter_key (fun key => negb (key =? k)%string)).
          destruct (String.eqb id k); simpl;
            [now rewrite andb_false_r | now rewrite andb_true_r]. }
        rewrite Hsame, first_occurrences_filter in Hall.
        constructor; [exact Hk|].
        eapply Forall2_impl; [|exact Hall].
        intros id c'. simpl. rewrite del_as_filter by exact Hwf.
        rewrite (get_filter_key (fun key => negb (key =? k)%string)).
        now destruct (negb (id =? k)%string).
    + destruct (IH configs acc Hwf) as (prefix & Htake & Hall).
      exists prefix. rewrite Htake. split.
      * f_equal. f_equal. unfold unlisted. apply filter_ext_in.
        intros kv Hin. simpl.
        now rewrite (get_none_keys _ _ Hk kv Hin).
      * unfold listed in *. simpl. unfold Dict.mem at 1. now rewrite Hk.
Qed.

Lemma sorted_map {A B} (R : A -> A -> Prop) (R' : B -> B -> Prop)
      (f : A -> B) (l : list A) :
  (forall a b, In a l -> In b l -> R a b -> R' (f a) (f b)) ->
  Sorted R l -> Sorted R' (map f l).
Proof.
  induction l as [|a l IH]; intros Hf Hl; simpl; [constructor|].
  inversion Hl as [|? ? Hl' Hhd]; subst.
  constructor.
  - apply IH; [|assumption]. intros x y Hx Hy. apply Hf; now right.
  - destruct l as [|b l]; simpl; constructor.
    inversion Hhd; subst. apply Hf; simpl; auto.
Qed.

(** Sorting what is left by lower-cased display name. *)
Lemma sort_remaining_spec (configs : Dict.t (AppConfig V P)) :
  (forall c, In c (Dict.values configs) -> exists s, name c = Py.VStr s) ->
  exists rest,
    sort_remaining configs = inr rest /\
    Permutation rest (Dict.values configs) /\
    Sorted (fun c1 c2 => String.leb (lower_name c1) (lower_name c2) = true)
           rest.
Proof.
  intros Hnames. unfold sort_remaining.
  set (keyed := map (fun c : (AppConfig V P) => (lower_name c, c)) (Dict.values configs)).
  assert (Hkeys :
            map_fail (fun c : (AppConfig V P) => fail_bind (attr_lower (name c))
                                               (fun k => inr (k, c)))
                     (Dict.values configs) = inr keyed).
  { subst keyed. induction (Dict.values configs) as [|c l IH];
      [reflexivity|].
    simpl. destruct (Hnames c (or_introl eq_refl)) as [s Hs].
    unfold lower_name at 1. rewrite Hs. simpl.
    rewrite IH; [reflexivity|]. intros x Hx. apply Hnames. now right. }
  rewrite Hkeys. simpl. eexists. split; [reflexivity|]. split.
  - unfold sorted_by_key.
    rewrite (Permutation_map snd (sorted_perm _ keyed)).
    subst keyed. rewrite map_map. simpl. now rewrite map_id.
  - eapply sorted_map;
      [|apply sorted_sorted; intros x y; apply String.leb_total].
    intros a b Ha Hb Hab.
    assert (Hform : forall x, In x (sorted_by_key fst keyed) ->
                              fst x = lower_name (snd x)).
    { intros x Hx.
      apply (Permutation_in _ (sorted_perm _ keyed)) in Hx.
      subst keyed. apply in_map_iff in Hx as (c & <- & _). reflexivity. }
    now rewrite <- (Hform a Ha), <- (Hform b Hb).
Qed.

Variable E : env.

(** C4. With an index whose order list is [order]: the sequence
    returned begins with the configurations of the listed identities
    that are loaded, in the order of the list (an identity counts at its
    first occurrence, one without a configuration is passed over, and
    nothing is reported); the configurations not listed follow, sorted
    by lower-cased display name. *)
Theorem sort_configs_order config_dir (configs : Dict.t (AppConfig V P))
        (order : list string) (index : Dict.t Py.value) (h : list event) :
  Dict.wf configs ->
  (forall c, In c (Dict.values configs) -> exists s, name c = Py.VStr s) ->
  exists_ E (master_config_path config_dir) = true ->
  load_json E (master_config_path config_dir) = inr (Py.VDict index) ->
  Dict.get "order" index = Some (Py.VList (map Py.VStr order)) ->
  exists prefix rest,
    _sort_configs E config_dir configs h = (inr (prefix ++ rest)%list, []) /\
    Forall2 (fun id c => Dict.get id configs = Some c)
            (listed order configs) prefix /\
    Permutation rest (Dict.values (unlisted order configs)) /\
    Sorted (fun c1 c2 => String.leb (lower_name c1) (lower_name c2) = true)
           rest.
Proof.
  intros Hwf Hnames Hexists Hload Horder.
  destruct (take_ordered_spec order [] Hwf) as (prefix & Htake & Hlisted).
  destruct (@sort_remaining_spec (unlisted order configs))
    as (rest & Hsort & Hperm & Hsorted).
  { intros c Hc. apply Hnames. unfold Dict.values, unlisted in *.
    apply in_map_iff in Hc as (kv & <- & Hkv).
    apply filter_In in Hkv as [Hkv _]. now apply in_map. }
  exists prefix, rest. split; [|auto].
  unfold _sort_configs, load_custom_order. rewrite Hexists.
  unfold try_except, bind, lift, ret. rewrite Hload. simpl.
  unfold Dict.get_default. rewrite Horder. simpl.
  rewrite Htake. simpl. rewrite Hsort. reflexivity.
Qed.

End Ordering.

Lemma sort_configs_order_witness :
  exists prefix rest,
    ConfigLoader._sort_configs Scenario.indexed_world Scenario.config_dir
      Scenario.four_configs []
    = (inr (prefix ++ rest)%list, []) /\
    Forall2 (fun id c => Dict.get id Scenario.four_configs = Some c)
            ["b"; "a"] prefix /\
    Permutation rest [Scenario.named "c" "Zed"; Scenario.named "d" "alpha"] /\
    Sorted (fun c1 c2 =>
              String.leb (ConfigLoader.lower_name c1)
                         (ConfigLoader.lower_name c2) = true) rest.
Proof.
  apply (@sort_configs_order _ _ Scenario.indexed_world Scenario.config_dir
           Scenario.four_configs ["b"; "ghost"; "a"]
           [("order", Py.VList [Py.VStr "b"; Py.VStr "ghost"; Py.VStr "a"])]
           []).
  - unfold Dict.wf. simpl.
    repeat constructor; simpl; intuition discriminate.
  - intros c [<- | [<- | [<- | [<- | []]]]]; eexists; reflexivity.
  - vm_compute. reflexivity.
  - vm_compute. reflexivity.
  - reflexivity.
Defined.

Example sort_configs_order_example :
  option_map (map (@ConfigLoader.config_name _ _))
    (match fst (ConfigLoader._sort_configs Scenario.indexed_world
                  Scenario.config_dir Scenario.four_configs []) with
     | inr l => Some l
     | inl _ => None
     end)
  = Some ["b"; "a"; "d"; "c"].
Proof. vm_compute. reflexivity. Qed.

(** ** Loading the configurations *)

Section Loading.

Import Sys ConfigLoader.

Variable E : env.

(** A record that cannot be read, cannot be built or is not valid is
    left out, and one warning is printed for it. *)
Lemma load_one_skips configs config_file h :
  (Pathlib.name config_file =? "master.json")%string = false ->
  (exists e, load_json E config_file = inl e) \/
  (exists data e, load_json E config_file = inr data /\
                  AppConfig_init config_file data = inl e) \/
  (exists data config, load_json E config_file = inr data /\
                       AppConfig_init config_file data = inr config /\
                       fst (validate E config) = false) ->
  exists warning,
    load_one E configs config_file h = (inr configs, [Print warning]).
Proof.
  intros Hname Hbad. unfold load_one. rewrite Hname.
  unfold try_except, bind, lift, print, emit, ret.
  destruct Hbad as [[e ->] | [(data & e & -> & Hinit) | (data & c & -> & Hinit & Hv)]].
  - eexists. reflexivity.
  - rewrite Hinit. eexists. reflexivity.
  - rewrite Hinit. destruct (validate E c) as [valid err]. simpl in Hv.
    subst valid. eexists. reflexivity.
Qed.

(** The loop over the files never raises and only prints. *)
Lemma load_each_returns files : forall configs h,
  exists configs' out,
    load_each E files configs h = (inr configs', out) /\
    forallb is_print out = true.
Proof.
  induction files as [|f files IH]; intros configs h; simpl.
  - exists configs, []. split; reflexivity.
  - assert (Hone : exists c1 o1, load_one E configs f h = (inr c1, o1) /\
                                 forallb is_print o1 = true).
    { unfold load_one.
      destruct (Pathlib.name f =? "master.json")%string;
        [exists configs, []; split; reflexivity|].
      unfold try_except, bind, lift, print, emit, ret.
      destruct (load_json E f) as [e|data];
        [eexists _, _; split; reflexivity|].
      destruct (AppConfig_init f data) as [e|config];
        [eexists _, _; split; reflexivity|].
      destruct (validate E config) as [[|] err];
        eexists _, _; split; reflexivity. }
    destruct Hone as (c1 & o1 & Hone & Ho1).
    destruct (IH c1 (h ++ o1)%list) as (c2 & o2 & Hrest & Ho2).
    exists c2, (o1 ++ o2)%list. split.
    + eapply bind_returns; [exact Hone | exact Hrest].
    + now rewrite forallb_app, Ho1, Ho2.
Qed.

End Loading.

(** C9. A directory whose single record passes validation but carries a
    number as its display name: sorting asks that name for its lower
    case, and the exception leaves [load_all_configs]; no sequence is
    returned. *)
Theorem load_all_configs_raises_on_numeric_name :
  (exists data config,
      Sys.load_json Scenario.numbered_world Scenario.app_json = inr data /\
      ConfigLoader.AppConfig_init Scenario.app_json data = inr config /\
      ConfigLoader.name config = Py.VNum 5 /\
      ConfigLoader.validate Scenario.numbered_world config = (true, None)) /\
  ConfigLoader.load_all_configs Scenario.numbered_world Scenario.config_dir []
  = (inl (Py.AttributeError "object has no attribute 'lower'"), []).
Proof.
  split.
  - eexists _, _. repeat split; vm_compute; reflexivity.
  - vm_compute. reflexivity.
Qed.

Lemma parse_env_file_lines_witness :
  AppLauncher.line_binding "   " = None /\
  AppLauncher.line_binding "  # PORT=1" = None /\
  Dict.get "PORT" (AppLauncher.parse_lines ["PORT=80"; "oops"; "PORT = '8080'"])
  = Some "8080" /\
  exists env_vars,
    AppLauncher.parse_env_file Examples.env_text_world Scenario.dot_env []
    = (inr env_vars, []) /\
    Dict.get "PORT" env_vars = Some "8080".
Proof.
  destruct parse_env_file_lines
    as (Hblank & Hcomment & _ & _ & _ & Hlast & _ & _ & Hfile).
  split; [|split; [|split]].
  - apply Hblank. reflexivity.
  - apply (Hcomment "  " " PORT=1"). reflexivity.
  - rewrite Hlast. vm_compute. reflexivity.
  - destruct (Hfile Examples.env_text_world Scenario.dot_env [])
      as (env_vars & warnings & Hrun & _ & Hquiet & Hget).
    exists env_vars. rewrite Hrun, (Hquiet eq_refl).
    split; [reflexivity|]. apply Hget.
    exists ["# settings"; "PORT=80"; "oops"], "  PORT = '8080' ", [].
    split; [reflexivity|]. split; [|intros later other []].
    exists "  ", " ", " ", "'8080'", " ".
    repeat split. apply (EnvFormat.in_quotes Py.squote "8080"). reflexivity.
Defined.

Lemma get_all_env_files_spec_witness :
  In Scenario.notes_txt
     (ConfigLoader.explicit_sources Scenario.discovery_world
        Scenario.discovery_config ++
      ConfigLoader.scanned_sources Scenario.discovery_world
        Scenario.discovery_config).
Proof.
  apply (proj1 (get_all_env_files_spec Scenario.discovery_world
                  Scenario.discovery_config)).
  vm_compute. auto.
Defined.

(** ** More on resolving variables *)

Section ResolutionMore.

Import Sys VariableResolver Vocabulary.

Variable E : env.

Lemma sub_app (f : string -> string) (a b : list piece) :
  sub f (a ++ b) = sub f a ++ sub f b.
Proof.
  induction a as [|[c|v] a IH]; simpl; [reflexivity | now rewrite IH |].
  now rewrite IH, append_assoc.
Qed.

Lemma sub_ext (f g : string -> string) (ps : list piece) :
  (forall v, In v (findall ps) -> f v = g v) -> sub f ps = sub g ps.
Proof.
  induction ps as [|[c|v] ps IH]; intros H; simpl; [reflexivity | |].
  - f_equal. now apply IH.
  - rewrite (H v (or_introl eq_refl)). f_equal. apply IH.
    intros x Hx. apply H. now right.
Qed.

Lemma sub_flush (acc : string) : sub as_written (flush acc) = "$" ++ acc.
Proof. destruct acc; simpl; [reflexivity | now rewrite append_nil_r]. Qed.

(** Putting every reference back as it was written gives the text
    again. *)
Lemma sub_scan_as_written (s : string) :
  sub as_written (scan s None) = s /\
  forall acc, sub as_written (scan s (Some acc)) = "$" ++ acc ++ s.
Proof.
  induction s as [|c s [IHnone IHsome]].
  - split; [reflexivity|]. intros acc. simpl.
    now rewrite sub_flush, append_nil_r.
  - split.
    + simpl. destruct (Ascii.eqb c Py.dollar) eqn:Hc.
      * apply Ascii.eqb_eq in Hc. subst c. apply (IHsome "").
      * simpl. now rewrite IHnone.
    + intros acc. simpl. destruct (Py.is_word c).
      * rewrite IHsome. simpl. now rewrite append_assoc.
      * rewrite sub_app, sub_flush.
        destruct (Ascii.eqb c Py.dollar) eqn:Hc.
        -- apply Ascii.eqb_eq in Hc. subst c. rewrite (IHsome "").
           simpl. reflexivity.
        -- simpl. now rewrite IHnone.
Qed.

(** The loop never touches a value that is in the cache. *)
Lemma resolve_each_keeps names : forall self h completed self' out,
  resolve_each E names self h = (inr (completed, self'), out) ->
  forall x v, Dict.get x (resolved_values self) = Some v ->
              Dict.get x (resolved_values self') = Some v.
Proof.
  induction names as [|n names IH];
    intros self h completed self' out Hrun x v Hx; simpl in Hrun.
  - injection Hrun as _ <- _. exact Hx.
  - destruct (Dict.mem n (resolved_values self)) eqn:Hn; [eapply IH; eauto|].
    destruct (resolve_variable_returns E self n h) as ([w|] & o1 & Hr & _).
    + destruct (resolve_each_returns E names (with_value self n w)
                                     (h ++ o1)%list)
        as (c & s2 & o2 & Hrest & _).
      erewrite bind_returns in Hrun; [|exact Hr | exact Hrest].
      injection Hrun as _ <- _.
      eapply IH; [exact Hrest|]. simpl. rewrite get_set_other; [exact Hx|].
      intros ->. unfold Dict.mem in Hn. now rewrite Hx in Hn.
    + erewrite bind_returns in Hrun; [|exact Hr | reflexivity].
      injection Hrun as _ <- _. exact Hx.
Qed.

(** The loop over names that are neither declared nor cached. *)
Lemma resolve_each_unknown names : forall self h,
  NoDup names ->
  (forall x, In x names ->
             Dict.get x (variables_config self) = None /\
             Dict.mem x (resolved_values self) = false) ->
  exists self',
    resolve_each E names self h
    = (inr (true, self'), map unknown_warning names) /\
    (forall x, In x names ->
               Dict.get x (resolved_values self') = Some (as_written x)).
Proof.
  induction names as [|n names IH]; intros self h Hnd Hall.
  - exists self. split; [reflexivity | intros x []].
  - inversion Hnd as [|? ? Hnotin Hnd']; subst.
    destruct (Hall n (or_introl eq_refl)) as [Hget Hmem].
    destruct (IH (with_value self n (as_written n))
                 (h ++ [unknown_warning n])%list Hnd')
      as (self' & Hrest & Hcached).
    { intros x Hx. destruct (Hall x (or_intror Hx)) as [Hgx Hmx].
      split; [exact Hgx|]. simpl. rewrite mem_set_other; [exact Hmx|].
      intros ->. now apply Hnotin. }
    exists self'. split.
    + cbn [resolve_each map]. rewrite Hmem.
      change (unknown_warning n :: map unknown_warning names)
        with ([unknown_warning n] ++ map unknown_warning names)%list.
      eapply bind_returns;
        [unfold _resolve_variable; rewrite Hget; reflexivity | exact Hrest].
    + intros x [<- | Hx]; [|now apply Hcached].
      eapply resolve_each_keeps; [exact Hrest|]. apply get_set_same.
Qed.

Lemma warnings_are_no_dialogs (names : list string) :
  dialogs (map unknown_warning names) = 0.
Proof. induction names as [|n names IH]; [reflexivity | exact IH]. Qed.

(** Undeclared variables are left as they were written: the parameter
    string comes back unchanged, no dialog is shown, and one warning is
    printed for each distinct reference. *)
Theorem unknown_variables_left_as_written self params h :
  set_iter_ok E ->
  (forall x, In x (findall (pieces params)) ->
             Dict.get x (variables_config self) = None /\
             Dict.mem x (resolved_values self) = false) ->
  exists self',
    resolve_parameters E self params h
    = (inr (Some params, self'),
       map unknown_warning (set_iter E (findall (pieces params)))) /\
    dialogs (map unknown_warning (set_iter E (findall (pieces params)))) = 0.
Proof.
  intros Hset Hunknown.
  destruct (Hset (findall (pieces params))) as [Hnd Hnames].
  destruct (@resolve_each_unknown (set_iter E (findall (pieces params)))
                                  self h Hnd)
    as (self' & Heach & Hcached).
  { intros x Hx. apply Hunknown. now apply Hnames. }
  assert (Hsub : sub (replace_var self') (pieces params) = params).
  { rewrite (@sub_ext (replace_var self') as_written).
    - apply (proj1 (sub_scan_as_written params)).
    - intros v Hv. unfold replace_var, Dict.get_default.
      now rewrite (Hcached v (proj2 (Hnames v) Hv)). }
  exists self'. split.
  - unfold resolve_parameters.
    rewrite <- (app_nil_r (map unknown_warning _)).
    eapply bind_returns; [exact Heach|]. cbv beta iota.
    rewrite Hsub. reflexivity.
  - apply warnings_are_no_dialogs.
Qed.

(** Resolving the same parameter string a second time with the same
    resolver gives the same string and does nothing else. *)
Theorem second_resolution_is_free self params h result self' out :
  set_iter_ok E ->
  resolve_parameters E self params h = (inr (Some result, self'), out) ->
  forall h', resolve_parameters E self' params h'
             = (inr (Some result, self'), []).
Proof.
  intros Hset Hrun h'. unfold resolve_parameters in *.
  destruct (Hset (findall (pieces params))) as [_ Hnames].
  destruct (resolve_each_returns E (set_iter E (findall (pieces params))) self h)
    as (c & s2 & o2 & Heach & _).
  destruct c;
    (erewrite bind_returns in Hrun; [|exact Heach | reflexivity]);
    [|discriminate].
  injection Hrun as <- <- _.
  unfold bind. rewrite resolve_each_cached; [reflexivity|].
  intros x Hx. eapply resolve_each_caches; eauto.
Qed.

(** Whatever a call of [resolve_parameters] comes to, cancelled or not,
    it returns (it raises nothing), it starts no process, the
    declarations are as before, and every value that was in the cache
    is still there. *)
Theorem resolution_keeps_cache self params h :
  exists result self' out,
    resolve_parameters E self params h = (inr (result, self'), out) /\
    existsb is_spawn out = false /\
    variables_config self' = variables_config self /\
    (forall x v, Dict.get x (resolved_values self) = Some v ->
                 Dict.get x (resolved_values self') = Some v).
Proof.
  unfold resolve_parameters.
  destruct (resolve_each_returns E (set_iter E (findall (pieces params))) self h)
    as (c & s2 & o2 & Heach & Hquiet & _ & Hvars).
  exists (if c then Some (sub (replace_var s2) (pieces params)) else None),
    s2, (o2 ++ [])%list.
  split; [|split; [|split]].
  - eapply bind_returns; [exact Heach | destruct c; reflexivity].
  - now rewrite app_nil_r.
  - exact Hvars.
  - intros x v Hx. eapply resolve_each_keeps; eauto.
Qed.

Ltac run_resolver :=
  cbv [bind emit ask ret lift print try_except
       _prompt_file_picker _prompt_folder_picker _prompt_input
       default_or_none].

(** One resolution of a variable with a fallback gives a value. *)
Lemma resolve_variable_falls_back self x h :
  has_fallback (variables_config self) x ->
  exists value out, _resolve_variable E self x h = (inr (Some value), out).
Proof.
  unfold has_fallback, _resolve_variable, interactive, var_type_of, default_of.
  destruct (Dict.get x (variables_config self)) as [var_config|];
    [|intros _; eexists _, _; reflexivity].
  destruct (String.eqb _ "filepicker"); simpl orb.
  { intros [H|H]; [discriminate|]. run_resolver. rewrite H.
    destruct (Py.truthy (askopenfilename E _ _ _ _));
      eexists _, _; reflexivity. }
  destruct (String.eqb _ "folderpicker"); simpl orb.
  { intros [H|H]; [discriminate|]. run_resolver. rewrite H.
    destruct (Py.truthy (askdirectory E _ _ _));
      eexists _, _; reflexivity. }
  destruct (String.eqb _ "input"); simpl orb.
  { intros [H|H]; [discriminate|]. run_resolver. rewrite H.
    destruct (askstring E _ _ _ _); eexists _, _; reflexivity. }
  intros _.
  repeat match goal with
         | |- context [if String.eqb ?a ?b then _ else _] =>
             destruct (String.eqb a b)
         end; run_resolver.
  all: repeat match goal with
         | |- context [strftime E ?a ?b] => destruct (strftime E a b)
         | |- context [paste E ?a] => destruct (paste E a)
         end.
  all: eexists _, _; reflexivity.
Qed.

(** One resolution of a variable that opens no dialog shows none. *)
Lemma resolve_variable_no_dialog self x h :
  never_asks (variables_config self) x ->
  dialogs (snd (_resolve_variable E self x h)) = 0.
Proof.
  unfold never_asks, _resolve_variable, interactive, var_type_of.
  destruct (Dict.get x (variables_config self)) as [var_config|];
    [|intros _; reflexivity].
  destruct (String.eqb _ "filepicker"); simpl orb; [discriminate|].
  destruct (String.eqb _ "folderpicker"); simpl orb; [discriminate|].
  destruct (String.eqb _ "input"); simpl orb; [discriminate|].
  intros _.
  repeat match goal with
         | |- context [if String.eqb ?a ?b then _ else _] =>
             destruct (String.eqb a b)
         end; run_resolver.
  all: repeat match goal with
         | |- context [strftime E ?a ?b] => destruct (strftime E a b)
         | |- context [paste E ?a] => destruct (paste E a)
         end.
  all: reflexivity.
Qed.

Lemma never_asks_has_fallback vars x : never_asks vars x -> has_fallback vars x.
Proof.
  unfold never_asks, has_fallback. destruct (Dict.get x vars); auto.
Qed.

(** The loop runs to its end when every name it meets has a fallback,
    and in silence when none opens a dialog. *)
Lemma resolve_each_completes names : forall self h,
  (forall x, In x names -> has_fallback (variables_config self) x) ->
  exists self' out,
    resolve_each E names self h = (inr (true, self'), out) /\
    ((forall x, In x names -> never_asks (variables_config self) x) ->
     dialogs out = 0).
Proof.
  induction names as [|n names IH]; intros self h Hall.
  - exists self, []. split; [reflexivity | intros _; reflexivity].
  - cbn [resolve_each].
    destruct (Dict.mem n (resolved_values self)).
    + destruct (IH self h) as (self' & out & Hrest & Hquiet).
      { intros x Hx. apply Hall. now right. }
      exists self', out. split; [exact Hrest|].
      intros Hq. apply Hquiet. intros x Hx. apply Hq. now right.
    + destruct (@resolve_variable_falls_back self n h
                  (Hall n (or_introl eq_refl))) as (v & o1 & Hr).
      destruct (IH (with_value self n v) (h ++ o1)%list)
        as (self' & o2 & Hrest & Hquiet).
      { intros x Hx. apply Hall. now right. }
      exists self', (o1 ++ o2)%list. split.
      * eapply bind_returns; [exact Hr | exact Hrest].
      * intros Hq. rewrite dialogs_app, Hquiet.
        -- pose proof (@resolve_variable_no_dialog self n h
                         (Hq n (or_introl eq_refl))) as H0.
           rewrite Hr in H0. simpl in H0. now rewrite H0.
        -- intros x Hx. apply (Hq x). now right.
Qed.

(** A parameter string whose declared variables all have a non-empty
    default, or a type that opens no dialog, is never cancelled,
    whatever the user does. *)
Theorem defaults_prevent_cancellation self params h :
  set_iter_ok E ->
  (forall x, In x (findall (pieces params)) ->
             has_fallback (variables_config self) x) ->
  exists result self' out,
    resolve_parameters E self params h = (inr (Some result, self'), out).
Proof.
  intros Hset Hall.
  destruct (Hset (findall (pieces params))) as [_ Hnames].
  destruct (@resolve_each_completes (set_iter E (findall (pieces params)))
                                    self h)
    as (self' & out & Heach & _).
  { intros x Hx. apply Hall. now apply Hnames. }
  eexists _, self', (out ++ [])%list. unfold resolve_parameters.
  eapply bind_returns; [exact Heach | reflexivity].
Qed.

(** A parameter string that names no variable of an interactive type
    (input, filepicker, folderpicker) is resolved without any dialog. *)
Theorem computed_variables_need_no_dialog self params h :
  set_iter_ok E ->
  (forall x, In x (findall (pieces params)) ->
             never_asks (variables_config self) x) ->
  exists result self' out,
    resolve_parameters E self params h = (inr (Some result, self'), out) /\
    dialogs out = 0.
Proof.
  intros Hset Hall.
  destruct (Hset (findall (pieces params))) as [_ Hnames].
  destruct (@resolve_each_completes (set_iter E (findall (pieces params)))
                                    self h)
    as (self' & out & Heach & Hquiet).
  { intros x Hx. apply never_asks_has_fallback, Hall. now apply Hnames. }
  eexists _, self', (out ++ [])%list. split.
  - unfold resolve_parameters.
    eapply bind_returns; [exact Heach | reflexivity].
  - rewrite app_nil_r. apply Hquiet.
    intros x Hx. apply Hall. now apply Hnames.
Qed.

(** A file or folder selection: one dialog is shown, and the value is
    what that dialog returned; when it returned nothing, the default;
    when there is none, the cancellation.  The dialog is offered the
    default's place only if the default exists. *)
Theorem picker_resolution self x var_config h :
  Dict.get x (variables_config self) = Some var_config ->
  let default := default_of var_config in
  let there := Py.truthy default && exists_ E (Pathlib.of_str default) in
  let fallback := if Py.truthy default then Some default else None in
  (var_type_of var_config = "filepicker" ->
   let title := Dict.get_default "prompt" "Select a file" var_config in
   let initial_dir :=
     if there then Some (Pathlib.parent (Pathlib.of_str default))
     else None in
   let initial_file :=
     if Py.truthy default then Pathlib.name (Pathlib.of_str default)
     else "" in
   let shown := AskOpenFilename title initial_dir initial_file in
   let selected :=
     askopenfilename E (h ++ [shown]) title initial_dir initial_file in
   _resolve_variable E self x h
   = (inr (if Py.truthy selected then Some selected else fallback),
      [shown])) /\
  (var_type_of var_config = "folderpicker" ->
   let title := Dict.get_default "prompt" "Select a folder" var_config in
   let initial_dir := if there then Some (Pathlib.of_str default) else None in
   let shown := AskDirectory title initial_dir in
   let selected := askdirectory E (h ++ [shown]) title initial_dir in
   _resolve_variable E self x h
   = (inr (if Py.truthy selected then Some selected else fallback),
      [shown])).
Proof.
  intros Hget default there fallback.
  unfold _resolve_variable. rewrite Hget. unfold var_type_of. split.
  - intros ->. simpl. run_resolver. reflexivity.
  - intros ->. simpl. run_resolver. reflexivity.
Qed.

(** Failures that do not cancel: a format the clock rejects gives the
    time in the built-in pattern, a clipboard that cannot be read gives
    the empty string, each with one warning; a type that is not known
    gives the default, empty or not, with one warning. *)
Theorem resolution_degrades self x var_config h :
  Dict.get x (variables_config self) = Some var_config ->
  (var_type_of var_config = "datetime" ->
   forall e,
     strftime E (h ++ [Now])
       (Dict.get_default "format" default_format var_config) = inl e ->
     exists warning,
       _resolve_variable E self x h
       = (inr (Some (strftime_default E (h ++ [Now; Print warning; Now]))),
          [Now; Print warning; Now])) /\
  (var_type_of var_config = "clipboard" ->
   forall e,
     paste E (h ++ [Paste]) = inl e ->
     exists warning,
       _resolve_variable E self x h
       = (inr (Some ""), [Paste; Print warning])) /\
  (interactive (var_type_of var_config) = false ->
   var_type_of var_config <> "datetime" ->
   var_type_of var_config <> "timestamp" ->
   var_type_of var_config <> "clipboard" ->
   exists warning,
     _resolve_variable E self x h
     = (inr (Some (default_of var_config)), [Print warning])).
Proof.
  intros Hget. unfold _resolve_variable. rewrite Hget.
  unfold var_type_of, interactive. split; [|split].
  - intros -> e He. simpl. run_resolver. rewrite He. simpl.
    eexists. rewrite <- !app_assoc. reflexivity.
  - intros -> e He. simpl. run_resolver. rewrite He. simpl.
    eexists. reflexivity.
  - intros Hi Hd Ht Hc.
    apply orb_false_iff in Hi as [Hi Hin].
    apply orb_false_iff in Hi as [Hf Hfo].
    rewrite Hf, Hfo, Hin.
    apply String.eqb_neq in Hd, Ht, Hc. rewrite Hd, Ht, Hc.
    run_resolver. eexists. reflexivity.
Qed.

End ResolutionMore.

Lemma unknown_variables_left_as_written_witness :
  exists self',
    VariableResolver.resolve_parameters Scenario.cancelling_world
      (VariableResolver.init []) "run $who --as=$who $ $x" []
    = (inr (Some "run $who --as=$who $ $x", self'),
       [Vocabulary.unknown_warning "who"; Vocabulary.unknown_warning "x"]).
Proof.
  destruct (@unknown_variables_left_as_written Scenario.cancelling_world
              (VariableResolver.init []) "run $who --as=$who $ $x" []
              (world_set_iter_ok _ _ _ _ _ _ _ _)
              (fun x _ => conj eq_refl eq_refl))
    as (self' & Hrun & _).
  exists self'. exact Hrun.
Defined.

Lemma second_resolution_is_free_witness :
  VariableResolver.resolve_parameters (Scenario.typing_world "Ada")
    (VariableResolver.with_value
       (VariableResolver.init Scenario.bare_variables) "mode" "Ada")
    "$mode $mode" [Sys.Print "later"]
  = (inr (Some "Ada Ada",
          VariableResolver.with_value
            (VariableResolver.init Scenario.bare_variables) "mode" "Ada"),
     []).
Proof.
  apply (@second_resolution_is_free (Scenario.typing_world "Ada")
           (VariableResolver.init Scenario.bare_variables) "$mode $mode" []
           "Ada Ada" _ [Sys.AskString "Input Required" "Enter value" ""]
           (world_set_iter_ok _ _ _ _ _ _ _ _)).
  vm_compute. reflexivity.
Defined.

Lemma defaults_prevent_cancellation_witness :
  exists result self' out,
    VariableResolver.resolve_parameters Scenario.cancelling_world
      (VariableResolver.init Scenario.mode_variables) "--mode=$mode" []
    = (inr (Some result, self'), out).
Proof.
  apply (@defaults_prevent_cancellation Scenario.cancelling_world
           (VariableResolver.init Scenario.mode_variables) "--mode=$mode" []
           (world_set_iter_ok _ _ _ _ _ _ _ _)).
  intros x [<- | []]. right. reflexivity.
Defined.

Lemma computed_variables_need_no_dialog_witness :
  exists result self' out,
    VariableResolver.resolve_parameters Scenario.cancelling_world
      (VariableResolver.init Examples.stamp_variables)
      "--at=$now --day=$day --odd=$odd" []
    = (inr (Some result, self'), out) /\
    Sys.dialogs out = 0.
Proof.
  apply (@computed_variables_need_no_dialog Scenario.cancelling_world
           (VariableResolver.init Examples.stamp_variables)
           "--at=$now --day=$day --odd=$odd" []
           (world_set_iter_ok _ _ _ _ _ _ _ _)).
  intros x [<- | [<- | [<- | []]]]; reflexivity.
Defined.

Lemma picker_resolution_witness :
  VariableResolver._resolve_variable Examples.picking_world
    (VariableResolver.init Examples.picker_variables) "src" []
  = (inr (Some "C:/picked/file.txt"),
     [Sys.AskOpenFilename "Select a file" None "in.txt"]) /\
  VariableResolver._resolve_variable Scenario.cancelling_world
    (VariableResolver.init Examples.picker_variables) "src" []
  = (inr (Some "C:\data\in.txt"),
     [Sys.AskOpenFilename "Select a file" None "in.txt"]) /\
  VariableResolver._resolve_variable Scenario.cancelling_world
    (VariableResolver.init Examples.picker_variables) "dst" []
  = (inr None, [Sys.AskDirectory "Select a folder" None]).
Proof.
  split; [|split].
  - apply (proj1 (@picker_resolution Examples.picking_world
                    (VariableResolver.init Examples.picker_variables) "src"
                    [("type", "filepicker"); ("default", "C:\data\in.txt")]
                    [] eq_refl)).
    reflexivity.
  - apply (proj1 (@picker_resolution Scenario.cancelling_world
                    (VariableResolver.init Examples.picker_variables) "src"
                    [("type", "filepicker"); ("default", "C:\data\in.txt")]
                    [] eq_refl)).
    reflexivity.
  - apply (proj2 (@picker_resolution Scenario.cancelling_world
                    (VariableResolver.init Examples.picker_variables) "dst"
                    [("type", "folderpicker")] [] eq_refl)).
    reflexivity.
Defined.

Lemma resolution_degrades_witness :
  (exists warning,
      VariableResolver._resolve_variable Examples.failing_world
        (VariableResolver.init Examples.stamp_variables) "day" []
      = (inr (Some "2024-01-01_00-00-00"),
         [Sys.Now; Sys.Print warning; Sys.Now])) /\
  (exists warning,
      VariableResolver._resolve_variable Examples.failing_world
        (VariableResolver.init Examples.stamp_variables) "odd" []
      = (inr (Some "7"), [Sys.Print warning])).
Proof.
  split.
  - apply (proj1 (@resolution_degrades Examples.failing_world
                    (VariableResolver.init Examples.stamp_variables) "day"
                    [("type", "datetime"); ("format", "%Q")] [] eq_refl)
                 eq_refl (Py.ValueError "Invalid format string") eq_refl).
  - apply (proj2 (proj2 (@resolution_degrades Examples.failing_world
                           (VariableResolver.init Examples.stamp_variables)
                           "odd" [("type", "slider"); ("default", "7")] []
                           eq_refl)));
      solve [reflexivity | discriminate].
Defined.

(** ** More on launching *)

Section LaunchMore.

Import Sys AppLauncher Vocabulary.

Variable E : env.

Lemma prints_are_harmless (out : list event) :
  forallb is_print out = true ->
  forallb (fun ev => negb (is_spawn ev) && negb (is_write ev)) out = true.
Proof.
  induction out as [|ev out IH]; [reflexivity|].
  simpl. intros H. apply andb_true_iff in H as [Hev Hout].
  rewrite (IH Hout). now destruct ev.
Qed.

Lemma harmless_split (out : list event) :
  forallb (fun ev => negb (is_spawn ev) && negb (is_write ev)) out = true ->
  existsb is_spawn out = false /\ existsb is_write out = false.
Proof.
  induction out as [|ev out IH]; [now split|].
  simpl. intros H. apply andb_true_iff in H as [Hev Hout].
  destruct (IH Hout) as [-> ->]. now destruct ev.
Qed.

Lemma starts_after_prints script params venv wd o1 out after :
  forallb is_print o1 = true ->
  starts E script params venv wd out after ->
  starts E script params venv wd (o1 ++ out) after.
Proof.
  intros Ho1 (tmp & before & content & between & rest & H).
  cbv zeta in H. destruct H as (Htmp & Hout & Hb & Hbt & Hw & Hc & Hv & Hs).
  exists tmp, (o1 ++ before)%list, content, between, rest. cbv zeta.
  repeat split; try assumption.
  - now rewrite Hout, <- app_assoc.
  - now rewrite forallb_app, Ho1, Hb.
Qed.

Lemma starts_then script params venv wd out more :
  starts E script params venv wd out [] ->
  starts E script params venv wd (out ++ more) more.
Proof.
  intros (tmp & before & content & between & rest & H).
  cbv zeta in H. destruct H as (Htmp & Hout & Hb & Hbt & Hw & Hc & Hv & Hs).
  exists tmp, before, content, between, rest. cbv zeta.
  repeat split; try assumption.
  rewrite Hout, app_nil_r. now rewrite <- !app_assoc.
Qed.

Lemma outcome_after_prints script params venv wd r o1 o2 :
  forallb is_print o1 = true ->
  body_outcome E script params venv wd (r, o2) ->
  body_outcome E script params venv wd (r, (o1 ++ o2)%list).
Proof.
  intros Ho1 [(Hr & Hh & Hp) | [(e & Hr & Hs) | (pid & Hr & Hs)]];
    cbn [fst snd] in *.
  - left. cbn [fst snd]. repeat split; [exact Hr | |].
    + now rewrite forallb_app, (prints_are_harmless _ Ho1), Hh.
    + now rewrite forallb_app, Ho1, Hp.
  - right. left. exists e. split; [exact Hr|]. now apply starts_after_prints.
  - right. right. exists pid. split; [exact Hr|].
    now apply starts_after_prints.
Qed.

Lemma bind_outcome {A} script params venv wd (m : M A) (k : A -> M bool) h :
  forallb is_print (snd (m h)) = true ->
  (forall a o1, m h = (inr a, o1) ->
                body_outcome E script params venv wd (k a (h ++ o1)%list)) ->
  body_outcome E script params venv wd (bind m k h).
Proof.
  unfold bind. destruct (m h) as [[e|a] o1]; cbn [fst snd]; intros Hp Hk.
  - left. cbn [fst snd]. repeat split;
      [discriminate | now apply prints_are_harmless | exact Hp].
  - specialize (Hk a o1 eq_refl).
    destruct (k a (h ++ o1)%list) as [r2 o2].
    now apply outcome_after_prints.
Qed.

(** How the body of a launch can end. *)
Lemma launch_body_outcome script params venv files wd h :
  body_outcome E script params venv wd
    (launch_app_body E script params venv files wd h).
Proof.
  unfold launch_app_body.
  apply bind_outcome; [reflexivity|]. intros tmp o1 Htmp.
  assert (Htmp' : gettempdir E = inr tmp).
  { unfold lift in Htmp. now injection Htmp as ->. }
  apply bind_outcome.
  { destruct (env_files_lines_prints E files (h ++ o1)%list)
      as (ls & o & -> & Ho). exact Ho. }
  intros env_lines o2 _.
  apply bind_outcome.
  { destruct venv as [root|]; [|reflexivity].
    destruct (exists_ E _); reflexivity. }
  intros [venv_lines|] o3 Hvenv.
  2: { left. cbn. repeat split. discriminate. }
  assert (Hactivate : forall root, venv = Some root ->
                                   exists_ E (activate_script root) = true).
  { intros root ->. unfold activate_script.
    destruct (exists_ E (Pathlib.join (Pathlib.join root "Scripts")
                                      "activate.bat")); [reflexivity|].
    cbv [bind print emit ret] in Hvenv. discriminate. }
  apply bind_outcome.
  { destruct (Py.truthy params); [|reflexivity].
    unfold bind, lift. destruct (shlex_split E params); reflexivity. }
  intros run_line o4 Hrun.
  assert (Hsplit : Py.truthy params = true ->
                   exists words, shlex_split E params = inr words).
  { intros Ht. rewrite Ht in Hrun. unfold bind, lift, ret in Hrun.
    destruct (shlex_split E params) as [e|words]; [discriminate|].
    now exists words. }
  match goal with
  | |- context [write_text E ?f ?c] =>
      destruct (write_text E f c) as [e|] eqn:Hwrite
  end.
  { left. cbn. repeat split. discriminate. }
  clear Hvenv Hrun.
  destruct venv as [root|]; destruct (Py.truthy params) eqn:Htruthy;
    cbv [bind emit print ask lift ret];
    match goal with
    | |- context [spawn E ?hh ?cmd] => destruct (spawn E hh cmd) as [e|pid]
    end.
  all: first
         [ right; left; exists e; split; [reflexivity|]
         | right; right; exists pid; split; [reflexivity|] ].
  all: cbn [fst snd app].
  all: match goal with
       | |- starts _ _ _ _ _ (_ :: ?a :: ?b :: ?c :: ?d :: ?e :: Popen _ :: _) _ =>
           eexists tmp, [], _, [a; b; c; d; e], _
       | |- starts _ _ _ _ _ (_ :: ?a :: ?b :: ?c :: ?d :: Popen _ :: _) _ =>
           eexists tmp, [], _, [a; b; c; d], _
       | |- starts _ _ _ _ _ (_ :: ?a :: ?b :: ?c :: Popen _ :: _) _ =>
           eexists tmp, [], _, [a; b; c], _
       end; cbv zeta.
  all: split; [exact Htmp'|].
  all: split; [reflexivity|].
  all: split; [reflexivity|].
  all: split; [reflexivity|].
  all: split; [exact Hwrite|].
  all: split; [reflexivity|].
  all: split; [exact Hactivate|].
  all: intros Hc; rewrite Htruthy in Hc;
    first [discriminate | apply Hsplit; reflexivity].
Qed.

Lemma launch_app_cases script params venv files wd h :
  let res := launch_app E script params venv files wd h in
  (fst res = inr false /\
   existsb is_spawn (snd res) = false /\ existsb is_write (snd res) = false) \/
  (exists e,
      fst res = inr false /\
      starts E script params venv wd (snd res)
             [Print ("Error launching app: " ++ Py.exn_str e); Traceback e]) \/
  (exists pid,
      fst res = inr true /\
      starts E script params venv wd (snd res)
             [Print ("Process started with PID: " ++ pid)]).
Proof.
  intros res. subst res. unfold launch_app, try_except.
  pose proof (launch_body_outcome script params venv files wd h) as Hbody.
  destruct (launch_app_body E script params venv files wd h) as [r out].
  destruct Hbody as [(Hr & Hh & _) | [(e & Hr & Hs) | (pid & Hr & Hs)]];
    cbn [fst snd] in *.
  - left. destruct (harmless_split _ Hh) as [Hspawn Hwrite].
    destruct r as [e|[|]]; [| now elim Hr |].
    + cbv [bind print emit ret]. cbn [fst snd].
      rewrite !existsb_app, Hspawn, Hwrite. repeat split.
    + cbn [fst snd]. repeat split; assumption.
  - right. left. exists e. subst r. cbv [bind print emit ret]. cbn [fst snd].
    split; [reflexivity|]. exact (@starts_then script params venv wd out [_; _] Hs).
  - right. right. exists pid. subst r. cbn [fst snd]. now split.
Qed.

(** A launch ends in one of three ways.  It fails before anything is
    written or started.  Or it writes the batch file, calls [Popen] on
    it, and [Popen] raises: the launch fails and reports the error.  Or
    it writes the batch file, calls [Popen] on it and succeeds.  In the
    last two cases the batch file is written once, before the one call
    of [Popen], everything else is printing, and none of the steps
    before had failed. *)
Theorem launch_app_outcomes script params venv files wd h :
  let res := launch_app E script params venv files wd h in
  (fst res = inr false /\
   existsb is_spawn (snd res) = false /\ existsb is_write (snd res) = false) \/
  (exists e,
      fst res = inr false /\
      starts E script params venv wd (snd res)
             [Print ("Error launching app: " ++ Py.exn_str e); Traceback e]) \/
  (exists pid,
      fst res = inr true /\
      starts E script params venv wd (snd res)
             [Print ("Process started with PID: " ++ pid)]).
Proof. apply launch_app_cases. Qed.

(** A launch that finds no directory for temporary files, whose
    parameters cannot be split into words, or whose batch file cannot
    be written, fails without writing a file and without calling
    [Popen]. *)
Theorem launch_app_stops_early script params venv files wd h :
  (exists e, gettempdir E = inl e) \/
  (Py.truthy params = true /\ exists e, shlex_split E params = inl e) \/
  (forall file content, write_text E file content <> None) ->
  let res := launch_app E script params venv files wd h in
  fst res = inr false /\
  existsb is_spawn (snd res) = false /\ existsb is_write (snd res) = false.
Proof.
  intros Hfail res.
  assert (Hnever : forall out after,
             ~ starts E script params venv wd out after).
  { intros out after (tmp & before & content & between & rest & H).
    cbv zeta in H. destruct H as (Htmp & _ & _ & _ & Hw & _ & _ & Hs).
    destruct Hfail as [[e He] | [[Ht [e He]] | Hnowrite]].
    - congruence.
    - destruct (Hs Ht) as [words Hwords]. congruence.
    - exact (Hnowrite _ _ Hw). }
  destruct (launch_app_cases script params venv files wd h)
    as [H | [(e & _ & Hs) | (pid & _ & Hs)]].
  - exact H.
  - now elim (Hnever _ _ Hs).
  - now elim (Hnever _ _ Hs).
Qed.

End LaunchMore.

Lemma launch_app_stops_early_witness :
  let res :=
    AppLauncher.launch_app Examples.failing_world Scenario.script_py
      "--name 'open" None [] None [] in
  fst res = inr false /\
  existsb Sys.is_spawn (snd res) = false /\
  existsb Sys.is_write (snd res) = false.
Proof.
  apply (@launch_app_stops_early Examples.failing_world Scenario.script_py
           "--name 'open" None [] None []).
  right. left. split; [reflexivity|]. eexists. reflexivity.
Defined.

(** ** More on key/value files *)

Section EnvFileMore.

Import AppLauncher Vocabulary.

Lemma first_occurrences_snoc (l : list string) (k : string) :
  first_occurrences (l ++ [k])
  = if existsb (String.eqb k) l then first_occurrences l
    else (first_occurrences l ++ [k])%list.
Proof.
  induction l as [|x l IH]; [reflexivity|].
  cbn [app first_occurrences existsb]. rewrite IH.
  destruct (String.eqb k x) eqn:Hkx; cbn [orb].
  - destruct (existsb (String.eqb k) l); [reflexivity|].
    rewrite filter_app. cbn [filter]. rewrite Hkx. cbn [negb].
    now rewrite app_nil_r.
  - destruct (existsb (String.eqb k) l); [reflexivity|].
    rewrite filter_app. cbn [filter]. rewrite Hkx. reflexivity.
Qed.

Lemma keys_set {V} (k : string) (v : V) (d : Dict.t V) :
  Dict.keys (Dict.set k v d)
  = if existsb (String.eqb k) (Dict.keys d) then Dict.keys d
    else (Dict.keys d ++ [k])%list.
Proof.
  unfold Dict.keys.
  induction d as [|[k' v'] d IH]; [reflexivity|].
  cbn [Dict.set map fst existsb]. rewrite (String.eqb_sym k k').
  destruct (String.eqb k' k) eqn:Hk; cbn [orb map fst].
  - apply String.eqb_eq in Hk. now subst k'.
  - rewrite IH. now destruct (existsb (String.eqb k) (map fst d)).
Qed.

Lemma line_binding_key (line key value : string) :
  line_binding line = Some (key, value) -> is_identifier key = true.
Proof.
  unfold line_binding.
  destruct (negb (Py.truthy (Py.strip line))
            || Py.startswith "#" (Py.strip line)); [discriminate|].
  destruct (match_assignment (Py.strip line)) as [[k v]|] eqn:Hm;
    [|discriminate].
  intros H. injection H as <- _.
  destruct (match_assignment_spec _ Hm) as (_ & _ & _ & _ & Hid & _).
  exact Hid.
Qed.

Lemma parse_lines_keys_eq (lines : list string) :
  Dict.keys (parse_lines lines) = first_occurrences (map fst (bindings lines)).
Proof.
  unfold parse_lines, bindings.
  induction lines as [|line lines IH] using rev_ind; [reflexivity|].
  rewrite fold_left_app, flat_map_app, map_app. cbn [fold_left flat_map].
  unfold parse_line at 1.
  destruct (line_binding line) as [[k v]|]; cbn [app map fst].
  - rewrite keys_set, first_occurrences_snoc, IH.
    enough (Hsame : existsb (String.eqb k)
                      (first_occurrences
                         (map fst
                            (flat_map
                               (fun line0 =>
                                  match line_binding line0 with
                                  | Some kv => [kv]
                                  | None => []
                                  end) lines)))
                    = existsb (String.eqb k)
                        (map fst
                           (flat_map
                              (fun line0 =>
                                 match line_binding line0 with
                                 | Some kv => [kv]
                                 | None => []
                                 end) lines))) by now rewrite Hsame.
    generalize (map fst
                  (flat_map
                     (fun line0 =>
                        match line_binding line0 with
                        | Some kv => [kv]
                        | None => []
                        end) lines)).
    intros l. apply eq_true_iff_eq. rewrite !existsb_exists.
    split; intros (x & Hx & Hkx); exists x;
      (split; [now apply (proj2 (first_occurrences_ok l) x) | exact Hkx]).
  - now rewrite app_nil_r.
Qed.

(** The keys of the parsed dictionary are the keys the lines bind, each
    once, in the order in which they first appear; each is an
    identifier. *)
Theorem parse_lines_keys (lines : list string) :
  Dict.keys (parse_lines lines) = first_occurrences (map fst (bindings lines)) /\
  NoDup (Dict.keys (parse_lines lines)) /\
  (forall key, In key (Dict.keys (parse_lines lines)) ->
               is_identifier key = true).
Proof.
  assert (Hkeys := parse_lines_keys_eq lines).
  split; [exact Hkeys|]. rewrite Hkeys. split.
  - apply first_occurrences_ok.
  - intros key Hin.
    apply (proj1 (proj2 (first_occurrences_ok _) key)) in Hin.
    apply in_map_iff in Hin as ([k v] & Hk & Hin). simpl in Hk. subst k.
    unfold bindings in Hin. apply in_flat_map in Hin as (line & _ & Hin).
    destruct (line_binding line) as [[k' v']|] eqn:Hb; [|destruct Hin].
    destruct Hin as [Heq | []]. injection Heq as -> ->.
    exact (line_binding_key _ Hb).
Qed.

End EnvFileMore.

(** ** More on loading and ordering *)

Section LoadingMore.

Import Sys ConfigLoader Vocabulary.

Variable E : env.

(** Reading the index never raises and prints at most a warning. *)
Lemma load_custom_order_returns config_dir h :
  exists order out,
    load_custom_order E config_dir h = (inr order, out) /\
    forallb is_print out = true.
Proof.
  unfold load_custom_order.
  destruct (exists_ E (master_config_path config_dir));
    [|eexists _, _; split; reflexivity].
  cbv [try_except bind lift print emit ret].
  destruct (load_json E (master_config_path config_dir)) as [e|data];
    [eexists _, _; split; reflexivity|].
  destruct (attr_get data); eexists _, _; split; reflexivity.
Qed.

Lemma values_del {V} (k : string) (c : V) (d : Dict.t V) :
  Dict.get k d = Some c ->
  Permutation (Dict.values d) (c :: Dict.values (Dict.del k d)).
Proof.
  unfold Dict.values.
  induction d as [|[k' v] d IH]; simpl; [discriminate|].
  destruct (String.eqb k' k).
  - intros H. injection H as ->. reflexivity.
  - intros H. simpl. rewrite (IH H). apply perm_swap.
Qed.

(** Taking configurations out in the order of any list of keys moves
    them, and loses or repeats none. *)
Lemma take_ordered_perm {V} (order : list Py.value) :
  forall (configs : Dict.t V) (acc taken : list V) (rest : Dict.t V),
    take_ordered order configs acc = inr (taken, rest) ->
    Permutation (taken ++ Dict.values rest) (acc ++ Dict.values configs).
Proof.
  induction order as [|k order IH]; intros configs acc taken rest Htake.
  - simpl in Htake. injection Htake as <- <-. reflexivity.
  - cbn [take_ordered] in Htake.
    destruct (key_in k configs) as [e|[[s c]|]] eqn:Hkey;
      cbn [fail_bind] in Htake; [discriminate | |].
    + rewrite (IH _ _ _ _ Htake).
      assert (Hget : Dict.get s configs = Some c).
      { destruct k; simpl in Hkey; try discriminate.
        destruct (Dict.get s0 configs) eqn:Hg; [|discriminate].
        now injection Hkey as <- <-. }
      rewrite (values_del _ _ Hget), <- app_assoc. simpl.
      reflexivity.
    + exact (IH _ _ _ _ Htake).
Qed.

Lemma map_fail_inr {A B} (f : A -> Py.exn + B) (l : list A) (ys : list B) :
  map_fail f l = inr ys -> Forall2 (fun x y => f x = inr y) l ys.
Proof.
  revert ys. induction l as [|x l IH]; intros ys H; simpl in H.
  - injection H as <-. constructor.
  - destruct (f x) as [e|y] eqn:Hx; [discriminate|]. simpl in H.
    destruct (map_fail f l) as [e|ys']; [discriminate|]. simpl in H.
    injection H as <-. constructor; [exact Hx | now apply IH].
Qed.

Lemma sort_remaining_perm {V P} (configs : Dict.t (AppConfig V P))
      (rest : list (AppConfig V P)) :
  sort_remaining configs = inr rest ->
  Permutation rest (Dict.values configs).
Proof.
  unfold sort_remaining.
  destruct (map_fail _ (Dict.values configs)) as [e|keyed] eqn:Hkeyed;
    [discriminate|].
  simpl. intros H. injection H as <-.
  unfold sorted_by_key.
  rewrite (Permutation_map snd (sorted_perm _ keyed)).
  apply map_fail_inr in Hkeyed.
  induction Hkeyed as [|c kc l l' Hc _ IH]; [reflexivity|].
  simpl. destruct (attr_lower (name c)); [discriminate|].
  simpl in Hc. injection Hc as <-. simpl. now rewrite IH.
Qed.

Lemma sort_configs_perm {V P} config_dir (configs : Dict.t (AppConfig V P))
      h result :
  fst (_sort_configs E config_dir configs h) = inr result ->
  Permutation result (Dict.values configs).
Proof.
  unfold _sort_configs.
  destruct (load_custom_order_returns config_dir h) as (order & o & Hload & _).
  unfold bind at 1. rewrite Hload.
  unfold bind, lift, ret.
  destruct (iterate order) as [e|items]; [discriminate|].
  destruct (take_ordered items configs []) as [e|[taken rest]] eqn:Htake;
    [discriminate|].
  cbn [fst snd].
  destruct (sort_remaining rest) as [e|remaining] eqn:Hsort; [discriminate|].
  cbn [fst]. intros H. injection H as <-.
  rewrite (sort_remaining_perm _ Hsort).
  exact (take_ordered_perm _ _ _ Htake).
Qed.

(** Whatever the index holds, sorting returns the loaded
    configurations, each once, or raises. *)
Theorem sorting_loses_nothing {V P} config_dir
        (configs : Dict.t (AppConfig V P)) h result :
  fst (_sort_configs E config_dir configs h) = inr result ->
  Permutation result (Dict.values configs).
Proof. apply sort_configs_perm. Qed.

End LoadingMore.

Section LoadingSound.

Import Sys ConfigLoader Vocabulary.

Variable E : env.

Lemma init_config_name f data c :
  AppConfig_init f data = inr c ->
  config_name c = Pathlib.stem f /\ config_path c = f.
Proof.
  unfold AppConfig_init, fail_bind.
  repeat match goal with
         | |- context [match ?x with inl _ => _ | inr _ => _ end] =>
             destruct x; [discriminate|]
         end.
  intros H. injection H as <-. split; reflexivity.
Qed.

Lemma validate_startable {V P} (c : AppConfig V P) :
  fst (validate E c) = true -> startable E c.
Proof.
  unfold validate, startable.
  destruct (script c) as [p|]; [|discriminate].
  destruct (exists_ E p) eqn:Hp; [|discriminate]. simpl.
  intros Hv. exists p. split; [reflexivity|]. split; [exact Hp|].
  intros root Hroot. rewrite Hroot in Hv.
  now destruct (exists_ E (Pathlib.join (Pathlib.join root "Scripts")
                                        "python.exe")).
Qed.

Lemma loaded_from_unique f c c' :
  loaded_from E f c -> loaded_from E f c' -> c = c'.
Proof.
  intros (_ & d & Hd & Hc & _) (_ & d' & Hd' & Hc' & _). congruence.
Qed.

(** One file either adds the record read from it, or changes nothing
    because no valid record can be read from it. *)
Lemma load_one_cases configs f h configs' out :
  load_one E configs f h = (inr configs', out) ->
  (configs' = configs /\ forall c, ~ loaded_from E f c) \/
  (exists c, loaded_from E f c /\
             configs' = Dict.set (config_name c) c configs).
Proof.
  unfold load_one.
  destruct (Pathlib.name f =? "master.json")%string eqn:Hname.
  { intros H. injection H as <- _. left. split; [reflexivity|].
    intros c (Hn & _). congruence. }
  unfold try_except, bind, lift, print, emit, ret.
  destruct (load_json E f) as [e|data] eqn:Hdata.
  { intros H. injection H as <- _. left. split; [reflexivity|].
    intros c (_ & d & Hd & _). congruence. }
  destruct (AppConfig_init f data) as [e|c] eqn:Hinit.
  { intros H. injection H as <- _. left. split; [reflexivity|].
    intros c (_ & d & Hd & Hc & _). congruence. }
  destruct (validate E c) as [[|] err] eqn:Hvalid.
  - intros H. injection H as <- _. right. exists c. split; [|reflexivity].
    split; [exact Hname|]. exists data. now rewrite Hvalid.
  - intros H. injection H as <- _. left. split; [reflexivity|].
    intros c' (_ & d & Hd & Hc & Hv).
    assert (c' = c) by congruence. subst c'.
    rewrite Hvalid in Hv. discriminate.
Qed.

Lemma wf_set {V} (k : string) (v : V) (d : Dict.t V) :
  Dict.wf d -> Dict.wf (Dict.set k v d).
Proof.
  unfold Dict.wf. rewrite keys_set.
  destruct (existsb (String.eqb k) (Dict.keys d)) eqn:Hk; [trivial|].
  intros Hwf. apply NoDup_app; [exact Hwf | repeat constructor; intros [] |].
  intros x Hx [<-|[]].
  assert (existsb (String.eqb k) (Dict.keys d) = true); [|congruence].
  apply existsb_exists. exists k. now rewrite String.eqb_refl.
Qed.

Lemma in_set {V} (k : string) (v : V) (d : Dict.t V) kv :
  In kv (Dict.set k v d) -> kv = (k, v) \/ In kv d.
Proof.
  induction d as [|[k' v'] d IH]; simpl.
  - intros [<-|[]]. now left.
  - destruct (String.eqb k' k); simpl.
    + intros [<-|H]; auto.
    + intros [<-|H]; auto. destruct (IH H); auto.
Qed.

Lemma mem_set {V} (k k' : string) (v : V) (d : Dict.t V) :
  Dict.mem k' (Dict.set k v d) = (k =? k')%string || Dict.mem k' d.
Proof.
  unfold Dict.mem.
  destruct (String.eqb k k') eqn:Hk.
  - apply String.eqb_eq in Hk. subst k'. now rewrite get_set_same.
  - apply String.eqb_neq in Hk. now rewrite get_set_other.
Qed.

(** What holds of the dictionary while the files are read. *)
Lemma load_each_from_files files : forall configs h configs' out seen,
  load_each E files configs h = (inr configs', out) ->
  Dict.wf configs ->
  (forall k c, In (k, c) configs ->
               k = config_name c /\
               exists f, In f seen /\ loaded_from E f c) ->
  (forall f c, In f seen -> loaded_from E f c ->
               Dict.mem (Pathlib.stem f) configs = true) ->
  Dict.wf configs' /\
  (forall k c, In (k, c) configs' ->
               k = config_name c /\
               exists f, In f (seen ++ files)%list /\ loaded_from E f c) /\
  (forall f c, In f (seen ++ files)%list -> loaded_from E f c ->
               Dict.mem (Pathlib.stem f) configs' = true).
Proof.
  induction files as [|f files IH];
    intros configs h configs' out seen Hrun Hwf Hfrom Hall.
  - simpl in Hrun. injection Hrun as <- _. rewrite app_nil_r. auto.
  - cbn [load_each] in Hrun. unfold bind in Hrun.
    destruct (load_one E configs f h) as [[e|c1] o1] eqn:Hone;
      [discriminate|].
    destruct (load_each E files c1 (h ++ o1)%list) as [r2 o2] eqn:Hrest.
    injection Hrun as -> _.
    replace (seen ++ f :: files)%list with ((seen ++ [f]) ++ files)%list
      by now rewrite <- app_assoc.
    apply (IH _ _ _ _ (seen ++ [f])%list Hrest);
      destruct (load_one_cases _ _ _ Hone)
        as [[-> Hnone] | (c & Hc & ->)].
    + exact Hwf.
    + now apply wf_set.
    + intros k c Hin. destruct (Hfrom k c Hin) as (Hk & g & Hg & Hl).
      split; [exact Hk|]. exists g. split; [|exact Hl].
      apply in_or_app. now left.
    + intros k c' Hin. apply in_set in Hin. destruct Hin as [Heq|Hin].
      * injection Heq as -> ->. split; [reflexivity|].
        exists f. split; [|exact Hc]. apply in_or_app. right. now left.
      * destruct (Hfrom k c' Hin) as (Hk & g & Hg & Hl).
        split; [exact Hk|]. exists g. split; [|exact Hl].
        apply in_or_app. now left.
    + intros g c Hg Hl. apply in_app_or in Hg. destruct Hg as [Hg|[<-|[]]].
      * now apply (Hall g c).
      * now destruct (Hnone c).
    + intros g c' Hg Hl. rewrite mem_set.
      apply in_app_or in Hg. destruct Hg as [Hg|[<-|[]]].
      * rewrite (Hall g c' Hg Hl). apply orb_true_r.
      * destruct Hc as (_ & d & _ & Hinit & _).
        destruct (init_config_name _ _ Hinit) as [-> _].
        now rewrite String.eqb_refl.
Qed.

End LoadingSound.

Section LoadingGuarantees.

Import Sys ConfigLoader Vocabulary.

Variable E : env.

(** The list returned holds the values of a dictionary that is keyed
    by identity, holds only records read from the files listed, and
    has an entry for every file a valid record can be read from. *)
Lemma load_all_configs_from_files config_dir h result :
  fst (load_all_configs E config_dir h) = inr result ->
  exists configs : Dict.t RawConfig,
    Permutation result (Dict.values configs) /\
    Dict.wf configs /\
    (forall k c, In (k, c) configs ->
                 k = config_name c /\
                 exists f, In f (glob_json E config_dir) /\
                           loaded_from E f c) /\
    (forall f c, In f (glob_json E config_dir) -> loaded_from E f c ->
                 Dict.mem (Pathlib.stem f) configs = true).
Proof.
  unfold load_all_configs, bind.
  destruct (load_each_returns E (glob_json E config_dir) Dict.empty h)
    as (configs & out & Heach & _).
  rewrite Heach.
  destruct (_sort_configs E config_dir configs (h ++ out)%list)
    as [r o] eqn:Hsort.
  cbn [fst]. intros ->. exists configs.
  split.
  { apply (@sort_configs_perm E _ _ config_dir configs (h ++ out)%list).
    now rewrite Hsort. }
  apply (@load_each_from_files E _ _ _ _ _ [] Heach).
  - constructor.
  - intros k c [].
  - intros f c [].
Qed.

Lemma keys_are_names (configs : Dict.t RawConfig) :
  (forall k c, In (k, c) configs -> k = config_name c) ->
  map (@config_name _ _) (Dict.values configs) = Dict.keys configs.
Proof.
  unfold Dict.values, Dict.keys.
  induction configs as [|[k c] configs IH]; intros Hkeys; [reflexivity|].
  simpl. rewrite IH.
  - now rewrite (Hkeys k c (or_introl eq_refl)).
  - intros k' c' Hin. apply Hkeys. now right.
Qed.

Lemma mem_in {V} (k : string) (d : Dict.t V) :
  Dict.mem k d = true -> exists v, In (k, v) d.
Proof.
  unfold Dict.mem.
  induction d as [|[k' v'] d IH]; simpl; [discriminate|].
  destruct (String.eqb k' k) eqn:Hk.
  - apply String.eqb_eq in Hk. subst k'. intros _. exists v'. now left.
  - intros H. destruct (IH H) as (v & Hv). exists v. now right.
Qed.

(** When the configurations are loaded, every one returned was read
    from a file of the directory other than the index, carries that
    file's path and stem, and can be started; and no two of them have
    the same identity. *)
Theorem loaded_configs_are_sound config_dir h result :
  fst (load_all_configs E config_dir h) = inr result ->
  NoDup (map (@config_name _ _) result) /\
  forall c, In c result ->
    In (config_path c) (glob_json E config_dir) /\
    loaded_from E (config_path c) c /\
    config_name c = Pathlib.stem (config_path c) /\
    startable E c.
Proof.
  intros Hrun.
  destruct (load_all_configs_from_files _ _ Hrun)
    as (configs & Hperm & Hwf & Hfrom & _).
  split.
  - rewrite (Permutation_map (@config_name _ _) Hperm), keys_are_names.
    + exact Hwf.
    + intros k c Hin. now destruct (Hfrom k c Hin).
  - intros c Hc.
    apply (Permutation_in _ Hperm) in Hc.
    unfold Dict.values in Hc. apply in_map_iff in Hc as ([k c'] & Heq & Hin).
    simpl in Heq. subst c'.
    destruct (Hfrom k c Hin) as (_ & f & Hf & Hloaded).
    assert (Hinit := Hloaded).
    destruct Hinit as (_ & data & _ & Hinit & Hvalid).
    destruct (init_config_name _ _ Hinit) as [Hname Hpath].
    rewrite Hpath. split; [exact Hf|]. split; [exact Hloaded|].
    split; [exact Hname|]. now apply validate_startable.
Qed.

(** When the configurations are loaded, a file of the directory that
    holds a valid record, and whose stem no other file of the
    directory has, has its record in the list. *)
Theorem valid_files_are_loaded config_dir h result f c :
  fst (load_all_configs E config_dir h) = inr result ->
  In f (glob_json E config_dir) ->
  loaded_from E f c ->
  (forall g, In g (glob_json E config_dir) ->
             Pathlib.stem g = Pathlib.stem f -> g = f) ->
  In c result.
Proof.
  intros Hrun Hf Hloaded Honly.
  destruct (load_all_configs_from_files _ _ Hrun)
    as (configs & Hperm & _ & Hfrom & Hall).
  apply (Permutation_in _ (Permutation_sym Hperm)).
  destruct (mem_in _ _ (Hall f c Hf Hloaded)) as (c' & Hin).
  destruct (Hfrom _ _ Hin) as (Hname & g & Hg & Hgc).
  assert (g = f).
  { apply Honly; [exact Hg|].
    destruct Hgc as (_ & data & _ & Hinit & _).
    destruct (init_config_name _ _ Hinit) as [<- _]. now symmetry. }
  subst g. rewrite (loaded_from_unique Hloaded Hgc).
  unfold Dict.values. apply in_map_iff. now exists (Pathlib.stem f, c').
Qed.

(** Without an order in the index, the configurations come sorted by
    lower-cased display name; nothing is printed when there is no
    index file or its object has no order, and one warning is printed
    when the index is not an object. *)
Theorem without_index_sorted_by_name {V P} config_dir
        (configs : Dict.t (AppConfig V P)) h :
  without_order E config_dir ->
  (forall c, In c (Dict.values configs) -> exists s, name c = Py.VStr s) ->
  exists result out,
    _sort_configs E config_dir configs h = (inr result, out) /\
    Permutation result (Dict.values configs) /\
    Sorted (fun c1 c2 => String.leb (lower_name c1) (lower_name c2) = true)
           result /\
    ((forall d, load_json E (master_config_path config_dir)
                <> inr (Py.VDict d)) /\
     exists_ E (master_config_path config_dir) = true ->
     exists warning, out = [Print warning]) /\
    ((exists d, load_json E (master_config_path config_dir)
                = inr (Py.VDict d)) \/
     exists_ E (master_config_path config_dir) = false ->
     out = []).
Proof.
  intros Hindex Hnames.
  destruct (@sort_remaining_spec _ _ configs Hnames)
    as (rest & Hsort & Hperm & Hsorted).
  assert (Hrun : forall out,
             load_custom_order E config_dir h = (inr (Py.VList []), out) ->
             _sort_configs E config_dir configs h = (inr rest, out)).
  { intros out Hload. unfold _sort_configs.
    unfold bind at 1. rewrite Hload.
    unfold bind, lift, ret. simpl. rewrite Hsort. simpl.
    now rewrite app_nil_r. }
  unfold without_order in Hindex. cbv zeta in Hindex.
  unfold load_custom_order in Hrun.
  destruct (exists_ E (master_config_path config_dir)) eqn:Hexists.
  - unfold try_except, bind, lift, print, emit, ret in Hrun.
    destruct (load_json E (master_config_path config_dir))
      as [e|data] eqn:Hload.
    + eexists rest, _. split; [apply Hrun; reflexivity|].
      repeat split; auto.
      * intros _. eexists. reflexivity.
      * intros [(d & Hd)|Hd]; discriminate.
    + destruct data as [| | | | |d];
        try (eexists rest, _; split; [apply Hrun; reflexivity|];
             repeat split; auto;
             [ intros _; eexists; reflexivity
             | intros [(d & Hd)|Hd]; discriminate ]).
      destruct Hindex as [Hno | [Hno | (d' & Hd' & Hget)]];
        [discriminate | now destruct (Hno d) |].
      injection Hd' as ->.
      eexists rest, _. split.
      { apply Hrun. simpl. unfold Dict.get_default. rewrite Hget.
        reflexivity. }
      repeat split; auto.
      intros [Hno _]. now destruct (Hno d').
  - eexists rest, _. split; [apply Hrun; reflexivity|].
    repeat split; auto. intros [_ Hd]. discriminate.
Qed.

End LoadingGuarantees.

Lemma sorting_loses_nothing_witness :
  Permutation
    [Scenario.named "b" "Banana"; Scenario.named "a" "Apple";
     Scenario.named "d" "alpha"; Scenario.named "c" "Zed"]
    (Dict.values Scenario.four_configs).
Proof.
  apply (@sorting_loses_nothing Scenario.indexed_world _ _
           Scenario.config_dir Scenario.four_configs []).
  vm_compute. reflexivity.
Defined.

Lemma loaded_configs_are_sound_witness :
  length Examples.library_result = 2 /\
  NoDup (map (@ConfigLoader.config_name _ _) Examples.library_result) /\
  forall c, In c Examples.library_result ->
    In (ConfigLoader.config_path c) Examples.library_files /\
    Vocabulary.loaded_from Examples.library_world
                           (ConfigLoader.config_path c) c /\
    ConfigLoader.config_name c = Pathlib.stem (ConfigLoader.config_path c) /\
    Vocabulary.startable Examples.library_world c.
Proof.
  split; [reflexivity|].
  apply (@loaded_configs_are_sound Examples.library_world
           Scenario.config_dir []).
  vm_compute. reflexivity.
Defined.

Lemma valid_files_are_loaded_witness :
  In (Scenario.named "tool" "alpha") Examples.library_result.
Proof.
  apply (@valid_files_are_loaded Examples.library_world Scenario.config_dir
           [] Examples.library_result Examples.tool_json).
  - vm_compute. reflexivity.
  - vm_compute. auto 6.
  - split; [vm_compute; reflexivity|].
    eexists. split; [vm_compute; reflexivity|].
    split; vm_compute; reflexivity.
  - intros g [<- | [<- | [<- | [<- | [<- | []]]]]];
      vm_compute; intros H; first [reflexivity | discriminate].
Defined.

Lemma without_index_sorted_by_name_witness :
  exists result out,
    ConfigLoader._sort_configs Examples.library_world Scenario.config_dir
      Scenario.four_configs []
    = (inr result, out) /\
    Permutation result (Dict.values Scenario.four_configs) /\
    Sorted (fun c1 c2 =>
              String.leb (ConfigLoader.lower_name c1)
                         (ConfigLoader.lower_name c2) = true) result /\
    ((forall d, Sys.load_json Examples.library_world
                  (ConfigLoader.master_config_path Scenario.config_dir)
                <> inr (Py.VDict d)) /\
     Sys.exists_ Examples.library_world
       (ConfigLoader.master_config_path Scenario.config_dir) = true ->
     exists warning, out = [Sys.Print warning]) /\
    ((exists d, Sys.load_json Examples.library_world
                  (ConfigLoader.master_config_path Scenario.config_dir)
                = inr (Py.VDict d)) \/
     Sys.exists_ Examples.library_world
       (ConfigLoader.master_config_path Scenario.config_dir) = false ->
     out = []).
Proof.
  apply (@without_index_sorted_by_name Examples.library_world _ _
           Scenario.config_dir Scenario.four_configs []).
  - left. vm_compute. reflexivity.
  - intros c [<- | [<- | [<- | [<- | []]]]]; eexists; reflexivity.
Defined.

Lemma load_one_skips_witness :
  exists warning,
    ConfigLoader.load_one Examples.library_world Scenario.four_configs
      Examples.broken_json []
    = (inr Scenario.four_configs, [Sys.Print warning]).
Proof.
  apply (@load_one_skips Examples.library_world Scenario.four_configs
           Examples.broken_json []).
  - vm_compute. reflexivity.
  - right. right. eexists _, _.
    split; [vm_compute; reflexivity|].
    split; vm_compute; reflexivity.
Defined.

(** ** The lines an env file adds to the batch file *)

Section BatchLines.

Import Sys AppLauncher Vocabulary.

Variable E : env.

Lemma dict_by_keys (d : Dict.t string) :
  Dict.wf d ->
  d = map (fun k => (k, Dict.get_default k "" d)) (Dict.keys d).
Proof.
  unfold Dict.wf, Dict.keys, Dict.get_default.
  induction d as [|[k v] d IH]; [reflexivity|].
  simpl. intros Hnodup. inversion Hnodup as [|? ? Hnotin Hrest]; subst.
  rewrite String.eqb_refl. f_equal.
  rewrite (IH Hrest) at 1. apply map_ext_in.
  intros k' Hk'. destruct (String.eqb k k') eqn:Hkk; [|reflexivity].
  apply String.eqb_eq in Hkk. subst k'. contradiction.
Qed.

Lemma parse_lines_wf (lines : list string) : Dict.wf (parse_lines lines).
Proof.
  unfold parse_lines.
  assert (H : forall d, Dict.wf d -> Dict.wf (fold_left parse_line lines d)).
  { induction lines as [|line lines IH]; intros d Hd; [exact Hd|].
    simpl. apply IH. unfold parse_line.
    destruct (line_binding line) as [[k v]|]; [now apply wf_set | exact Hd]. }
  apply H. constructor.
Qed.

Lemma set_lines_of_parsed (lines : list string) :
  map set_line (parse_lines lines) = set_lines_of lines.
Proof.
  unfold set_lines_of.
  rewrite (dict_by_keys (parse_lines_wf lines)) at 1.
  rewrite map_map.
  rewrite parse_lines_keys_eq.
  apply map_ext. intros key. unfold set_line. cbn [fst snd].
  unfold Dict.get_default, parse_lines. rewrite parse_lines_from.
  now destruct (last_binding key lines).
Qed.

(** An env file that exists adds, when it binds a variable at all, a
    remark with its name, one [set] line per variable (in order of
    first appearance, with the last value bound, percent signs
    doubled) and an empty line.  A read that fails part way counts
    for the lines read and prints one warning. *)
Theorem env_file_sets_each_variable_once env_file h lines failure :
  exists_ E env_file = true ->
  read_lines E env_file = (lines, failure) ->
  env_file_lines E env_file h
  = (inr match set_lines_of lines with
         | [] => []
         | sets =>
             ("REM Load environment variables from "
                ++ Pathlib.name env_file)
               :: (sets ++ [""])%list
         end,
     match failure with
     | None => []
     | Some e =>
         [Print ("Warning: Failed to parse " ++ Pathlib.to_str env_file
                 ++ ": " ++ Py.exn_str e)]
     end).
Proof.
  intros Hexists Hread.
  unfold env_file_lines, parse_env_file. rewrite Hexists, Hread.
  rewrite <- set_lines_of_parsed.
  destruct failure as [e|];
    unfold bind, print, emit, ret;
    destruct (parse_lines lines) as [|kv d]; simpl;
      now rewrite ?app_nil_r.
Qed.

End BatchLines.

Lemma env_file_sets_each_variable_once_witness :
  AppLauncher.env_file_lines
    (Scenario.world [Scenario.dot_env] [] [] [] Scenario.no_json
       (fun _ => ["# settings"; "RATE = 50%"; "NAME='Ada'"; "";
                  "RATE=75%"; "not a binding"])
       (fun _ => None) (inr "1234"))
    Scenario.dot_env []
  = (inr ["REM Load environment variables from .env";
          "set RATE=75%%"; "set NAME=Ada"; ""],
     []).
Proof.
  apply (@env_file_sets_each_variable_once
           (Scenario.world [Scenario.dot_env] [] [] [] Scenario.no_json
              (fun _ => ["# settings"; "RATE = 50%"; "NAME='Ada'"; "";
                         "RATE=75%"; "not a binding"])
              (fun _ => None) (inr "1234"))
           Scenario.dot_env []
           ["# settings"; "RATE = 50%"; "NAME='Ada'"; "";
            "RATE=75%"; "not a binding"] None).
  - vm_compute. reflexivity.
  - reflexivity.
Defined.

(** ** Finding env files under a directory *)

Section EnvParserMore.

Import Sys.

Variable E : env.

Lemma endswith_append (a s : string) : Py.endswith s (a ++ s) = true.
Proof. unfold Py.endswith. rewrite rev_append. apply prefix_refl_app. Qed.

Lemma substring_split (s : string) : forall i,
  (i <= String.length s)%nat ->
  s = substring 0 i s ++ substring i (String.length s - i) s.
Proof.
  induction s as [|c s IH]; intros [|i] Hi; simpl in *; try lia.
  - reflexivity.
  - f_equal. specialize (IH 0%nat (Nat.le_0_l _)).
    rewrite Nat.sub_0_r in IH.
    assert (H0 : substring 0 0 s = "") by now destruct s.
    rewrite H0 in IH. exact IH.
  - f_equal. apply IH. lia.
Qed.

(** A file name is its stem followed by its suffix. *)
Lemma name_stem_suffix (p : Pathlib.Path) :
  Pathlib.name p = Pathlib.stem p ++ Pathlib.suffix p.
Proof.
  unfold Pathlib.stem, Pathlib.suffix.
  destruct (Pathlib.suffix_at (Pathlib.name p)) as [i|] eqn:Hat.
  - apply substring_split. unfold Pathlib.suffix_at in Hat.
    destruct (Pathlib.rfind_dot (Pathlib.name p)) as [j|]; [|discriminate].
    destruct ((0 <? j) && (j <? String.length (Pathlib.name p) - 1))%nat
      eqn:Hj; [|discriminate].
    injection Hat as <-. apply andb_prop in Hj as [_ Hj].
    apply Nat.ltb_lt in Hj. lia.
  - now rewrite append_nil_r.
Qed.

(** What the search under a directory accepts, discovery for a
    configuration accepts as well. *)
Lemma matches_env_name (p : Pathlib.Path) :
  EnvParser.matches p = true ->
  ConfigLoader.env_name_matches (Pathlib.name p) = true.
Proof.
  unfold EnvParser.matches, ConfigLoader.env_name_matches.
  intros H. apply orb_prop in H as [H|H].
  - apply String.eqb_eq in H.
    rewrite (name_stem_suffix p), H, endswith_append.
    now rewrite orb_true_r.
  - rewrite H. apply orb_true_r.
Qed.

(** The search returns nothing for what is not an existing directory;
    otherwise the regular files of the recursive listing whose suffix
    is ".env" or whose name contains ".env.", each as often as it is
    listed, in the order of their lower-cased names. *)
Theorem find_env_files_spec (directory : Pathlib.Path) :
  (exists_ E directory && is_dir E directory = false ->
   EnvParser.find_env_files E directory = []) /\
  (exists_ E directory && is_dir E directory = true ->
   Permutation (EnvParser.find_env_files E directory)
               (filter (fun p => is_file E p && EnvParser.matches p)
                       (rglob_all E directory))) /\
  Sorted (fun p q => String.leb (Py.lower (Pathlib.name p))
                                (Py.lower (Pathlib.name q)) = true)
         (EnvParser.find_env_files E directory).
Proof.
  unfold EnvParser.find_env_files.
  assert (Hsorted : forall l,
             Sorted (fun p q => String.leb (Py.lower (Pathlib.name p))
                                           (Py.lower (Pathlib.name q)) = true)
                    (sorted_by_key (fun p => Py.lower (Pathlib.name p)) l)).
  { intros l. apply sorted_sorted. intros x y. apply String.leb_total. }
  destruct (exists_ E directory), (is_dir E directory); simpl;
    (split; [|split]);
    first [ discriminate | reflexivity | constructor | apply Hsorted
          | intros _; apply sorted_perm ].
Qed.

(** Every file the search finds under the env directory of a
    configuration is among the env files of that configuration, as
    its resolved path. *)
Theorem found_env_files_are_discovered {V P}
        (self : ConfigLoader.AppConfig V P) (directory p : Pathlib.Path) :
  ConfigLoader.env_directory self = Some directory ->
  In p (EnvParser.find_env_files E directory) ->
  exists q, In q (ConfigLoader.get_all_env_files E self) /\
            Pathlib.eqb q (resolve E p) = true.
Proof.
  intros Hdir Hp. unfold EnvParser.find_env_files in Hp.
  destruct (exists_ E directory) eqn:Hexists; [|destruct Hp].
  destruct (is_dir E directory); [|destruct Hp]. simpl in Hp.
  apply (Permutation_in _ (sorted_perm _ _)) in Hp.
  apply filter_In in Hp as [Hin Hp]. apply andb_prop in Hp as [Hfile Hm].
  apply matches_env_name in Hm.
  rewrite get_all_env_files_sources.
  destruct (add_all_spec
              (ConfigLoader.explicit_sources E self
                 ++ ConfigLoader.scanned_sources E self)%list
              (s := []) (SSorted_nil _)) as (_ & _ & _ & Hhas).
  destruct (Hhas (resolve E p)) as (q & Hq & Heq).
  { apply in_or_app. right. unfold ConfigLoader.scanned_sources.
    rewrite Hdir, Hexists. apply in_map, filter_In.
    split; [exact Hin|]. now rewrite Hfile, Hm. }
  exists q. split; [|exact Heq].
  apply (Permutation_in _ (Permutation_sym (sorted_perm _ _))). exact Hq.
Qed.

End EnvParserMore.

Lemma find_env_files_spec_witness :
  Permutation (EnvParser.find_env_files Scenario.discovery_world
                                        Scenario.proj_dir)
              [Scenario.a_env; Scenario.z_env].
Proof.
  apply (proj1 (proj2 (@find_env_files_spec Scenario.discovery_world
                         Scenario.proj_dir))).
  vm_compute. reflexivity.
Defined.

Lemma found_env_files_are_discovered_witness :
  exists q,
    In q (ConfigLoader.get_all_env_files Scenario.discovery_world
                                         Scenario.discovery_config) /\
    Pathlib.eqb q Scenario.z_env = true.
Proof.
  apply (@found_env_files_are_discovered Scenario.discovery_world _ _
           Scenario.discovery_config Scenario.proj_dir Scenario.z_env).
  - reflexivity.
  - vm_compute. auto.
Defined.

(** ** Detecting a virtual environment *)

Section VenvDetection.

Import Sys VenvDetector.

Variable E : env.

Lemma first_venv_find directory names :
  first_venv E directory names
  = find (fun venv_path => exists_ E (python_exe venv_path))
         (map (Pathlib.join directory) names).
Proof.
  induction names as [|n names IH]; simpl; [reflexivity|].
  now destruct (exists_ E (python_exe (Pathlib.join directory n))).
Qed.

Lemma find_app {A} (f : A -> bool) (l1 l2 : list A) :
  find f (l1 ++ l2)
  = match find f l1 with Some x => Some x | None => find f l2 end.
Proof.
  induction l1 as [|x l1 IH]; simpl; [reflexivity|].
  now destruct (f x).
Qed.

Lemma detect_venv_find script_path :
  detect_venv E script_path
  = find (fun venv_path => exists_ E (python_exe venv_path))
         (candidates E script_path).
Proof.
  unfold detect_venv, candidates. cbn [flat_map].
  rewrite !find_app, !first_venv_find. cbn [find].
  repeat match goal with
         | |- context [match ?x with Some _ => _ | None => _ end] =>
             destruct x
         end; reflexivity.
Qed.

(** The environment detected is the first of the nine places, parent
    directory before script directory before grandparent directory,
    that has an interpreter; nothing is detected exactly when none of
    them has one. *)
Theorem detect_venv_first_candidate script_path :
  (forall venv_path,
      detect_venv E script_path = Some venv_path ->
      exists_ E (python_exe venv_path) = true /\
      exists before after,
        candidates E script_path = (before ++ venv_path :: after)%list /\
        forall other, In other before ->
                      exists_ E (python_exe other) = false) /\
  (detect_venv E script_path = None <->
   forall venv_path, In venv_path (candidates E script_path) ->
                     exists_ E (python_exe venv_path) = false).
Proof.
  rewrite detect_venv_find.
  generalize (candidates E script_path) as l.
  intros l. split.
  - induction l as [|x l IH]; intros v Hv; simpl in Hv; [discriminate|].
    destruct (exists_ E (python_exe x)) eqn:Hx.
    + injection Hv as <-. split; [exact Hx|].
      exists [], l. split; [reflexivity | intros o []].
    + destruct (IH v Hv) as (Hok & before & after & -> & Hbefore).
      split; [exact Hok|].
      exists (x :: before), after. split; [reflexivity|].
      intros o [<- | Ho]; [exact Hx | now apply Hbefore].
  - split.
    + intros Hnone v Hv. exact (find_none _ _ Hnone v Hv).
    + intros Hall. induction l as [|x l IH]; [reflexivity|]. simpl.
      rewrite (Hall x (or_introl eq_refl)). apply IH.
      intros v Hv. apply Hall. now right.
Qed.

(** A configuration of an existing script with the environment
    detected for it, or with none when none is detected, is valid. *)
Theorem detected_venv_validates {V P} (c : ConfigLoader.AppConfig V P)
        script_path :
  exists_ E script_path = true ->
  ConfigLoader.script c = Some script_path ->
  ConfigLoader.venv c = detect_venv E script_path ->
  ConfigLoader.validate E c = (true, None).
Proof.
  intros Hexists Hscript Hvenv. unfold ConfigLoader.validate.
  rewrite Hscript, Hexists, Hvenv. simpl.
  destruct (detect_venv E script_path) as [v|] eqn:Hv; [|reflexivity].
  rewrite detect_venv_find in Hv. apply find_some in Hv as [_ Hv].
  unfold python_exe in Hv. now rewrite Hv.
Qed.

End VenvDetection.

Lemma detect_venv_first_candidate_witness :
  VenvDetector.detect_venv Examples.venv_world Examples.project_py
  = Some (Pathlib.of_str "C:\work\proj\.venv") /\
  Sys.exists_ Examples.venv_world
    (VenvDetector.python_exe (Pathlib.of_str "C:\work\proj\.venv")) = true.
Proof.
  split; [vm_compute; reflexivity|].
  apply (proj1 (@detect_venv_first_candidate Examples.venv_world
                  Examples.project_py)).
  vm_compute. reflexivity.
Defined.

Lemma detected_venv_validates_witness :
  ConfigLoader.validate Examples.venv_world
    {| ConfigLoader.config_path := Pathlib.of_str "C:\configs\run.json";
       ConfigLoader.config_name := "run";
       ConfigLoader.name := Py.VStr "Run";
       ConfigLoader.script := Some Examples.project_py;
       ConfigLoader.icon := None;
       ConfigLoader.venv :=
         VenvDetector.detect_venv Examples.venv_world Examples.project_py;
       ConfigLoader.working_directory := None;
       ConfigLoader.description := Py.VStr "";
       ConfigLoader.env_files := [];
       ConfigLoader.env_directory := None;
       ConfigLoader.variables := Py.VDict [];
       ConfigLoader.parameter_sets := Py.VList [] |}
  = (true, None).
Proof.
  apply (@detected_venv_validates Examples.venv_world _ _ _
           Examples.project_py).
  - vm_compute. reflexivity.
  - reflexivity.
  - reflexivity.
Defined.

(** ** Paths written with forward slashes *)

Section PathText.

Import Vocabulary.

Lemma append_cons (a : string) (c : ascii) (b : string) :
  (a ++ String c "") ++ b = a ++ String c b.
Proof. now rewrite append_assoc. Qed.

Lemma split_sep_part (part : string) :
  Py.all_chars no_sep part = true ->
  forall rest cur,
    Pathlib.split_sep (part ++ rest) cur
    = Pathlib.split_sep rest (cur ++ part).
Proof.
  induction part as [|c part IH]; intros Hpart rest cur; simpl.
  - now rewrite append_nil_r.
  - simpl in Hpart. apply andb_prop in Hpart as [Hc Hpart].
    unfold no_sep in Hc. apply negb_true_iff in Hc. rewrite Hc.
    rewrite (IH Hpart). now rewrite append_cons.
Qed.

Lemma replace_char_append (c : ascii) (new a b : string) :
  Py.replace_char c new (a ++ b)
  = Py.replace_char c new a ++ Py.replace_char c new b.
Proof.
  induction a as [|x a IH]; simpl; [reflexivity|].
  destruct (x =? c)%char; rewrite IH; [|reflexivity].
  now rewrite append_assoc.
Qed.

Lemma replace_backslash_part (part : string) :
  Py.all_chars no_sep part = true ->
  Py.replace_char "\" "/" part = part.
Proof.
  induction part as [|c part IH]; intros Hpart; simpl; [reflexivity|].
  simpl in Hpart. apply andb_prop in Hpart as [Hc Hpart].
  unfold no_sep, Pathlib.is_sep in Hc.
  apply negb_true_iff, orb_false_elim in Hc as [_ Hc].
  rewrite Hc. now rewrite IH.
Qed.

Lemma clean_path_cons (x : string) (p : Pathlib.Path) :
  clean_path (x :: p) = true ->
  Pathlib.keep_part x = true /\ Py.all_chars no_sep x = true /\
  clean_path p = true.
Proof.
  unfold clean_path. simpl. intros H.
  apply andb_prop in H as [Hx Hp]. apply andb_prop in Hx as [Hk Hn]. auto.
Qed.

Lemma forward_slashes_concat (p : Pathlib.Path) :
  clean_path p = true ->
  AppWizard.forward_slashes p = String.concat "/" p.
Proof.
  unfold AppWizard.forward_slashes, Pathlib.to_str.
  induction p as [|x p IH]; intros Hp; [reflexivity|].
  apply clean_path_cons in Hp as (_ & Hx & Hp).
  destruct p as [|y p].
  - simpl. now apply replace_backslash_part.
  - change (String.concat "\" (x :: y :: p))
      with (x ++ String "\" (String.concat "\" (y :: p))).
    change (String.concat "/" (x :: y :: p))
      with (x ++ String "/" (String.concat "/" (y :: p))).
    rewrite replace_char_append, (replace_backslash_part _ Hx).
    f_equal. cbn [Py.replace_char]. cbn [Ascii.eqb Bool.eqb].
    cbn [append]. f_equal. exact (IH Hp).
Qed.

Lemma of_str_concat (p : Pathlib.Path) :
  clean_path p = true -> Pathlib.of_str (String.concat "/" p) = p.
Proof.
  unfold Pathlib.of_str.
  induction p as [|x p IH]; intros Hp; [reflexivity|].
  apply clean_path_cons in Hp as (Hk & Hx & Hp).
  destruct p as [|y p].
  - simpl String.concat.
    rewrite <- (append_nil_r x) at 1.
    rewrite (split_sep_part _ Hx). simpl. now rewrite Hk.
  - change (String.concat "/" (x :: y :: p))
      with (x ++ String "/" (String.concat "/" (y :: p))).
    rewrite (split_sep_part _ Hx). simpl. rewrite Hk.
    f_equal. exact (IH Hp).
Qed.

(** A path written with forward slashes reads back as itself. *)
Lemma of_str_forward_slashes (p : Pathlib.Path) :
  clean_path p = true ->
  Pathlib.of_str (AppWizard.forward_slashes p) = p.
Proof.
  intros Hp. rewrite (forward_slashes_concat _ Hp). now apply of_str_concat.
Qed.

End PathText.

(** ** The configuration the wizard writes *)

Section WizardConfig.

Import Sys Vocabulary AppWizard.

Lemma length_append (a b : string) :
  String.length (a ++ b) = String.length a + String.length b.
Proof. induction a as [|c a IH]; simpl; [reflexivity | now rewrite IH]. Qed.

Lemma rfind_dot_append (a b : string) (j : nat) :
  Pathlib.rfind_dot b = Some j ->
  Pathlib.rfind_dot (a ++ b) = Some (String.length a + j).
Proof.
  intros Hb. induction a as [|c a IH]; simpl; [exact Hb|].
  now rewrite IH.
Qed.

Lemma substring_prefix (a b : string) :
  substring 0 (String.length a) (a ++ b) = a.
Proof.
  induction a as [|c a IH]; simpl; [now destruct b|]. now rewrite IH.
Qed.

(** The stem of [x.json] is [x], when [x] is not empty. *)
Lemma stem_json (directory : Pathlib.Path) (x : string) :
  Py.truthy x = true ->
  Py.all_chars no_sep x = true ->
  Pathlib.stem (Pathlib.join directory (x ++ ".json")) = x /\
  Pathlib.name (Pathlib.join directory (x ++ ".json")) = x ++ ".json".
Proof.
  intros Hx Hsep.
  assert (Hname : Pathlib.name (Pathlib.join directory (x ++ ".json"))
                  = x ++ ".json").
  { unfold Pathlib.name, Pathlib.join, Pathlib.of_str.
    rewrite <- (append_nil_r (x ++ ".json")) at 1.
    rewrite split_sep_part.
    - simpl.
      assert (Hkeep : Pathlib.keep_part (x ++ ".json") = true).
      { destruct x as [|c [|d x]]; [discriminate | |]; simpl.
        - unfold Pathlib.keep_part. simpl.
          now destruct (c =? ".")%char.
        - unfold Pathlib.keep_part. simpl.
          now destruct (c =? ".")%char. }
      rewrite Hkeep. apply last_last.
    - rewrite all_chars_append, Hsep. reflexivity. }
  split; [|exact Hname].
  unfold Pathlib.stem. rewrite Hname. unfold Pathlib.suffix_at.
  rewrite (@rfind_dot_append x ".json" 0 eq_refl), Nat.add_0_r.
  rewrite length_append. simpl String.length.
  assert (Hpos : (0 <? String.length x)%nat = true).
  { destruct x; [discriminate | reflexivity]. }
  assert (Hlt : (String.length x <? String.length x + 5 - 1)%nat = true).
  { apply Nat.ltb_lt. lia. }
  rewrite Hpos, Hlt. simpl andb. apply substring_prefix.
Qed.

Lemma lower_char_no_sep (c : ascii) :
  no_sep c = true -> no_sep (Py.lower_char c) = true.
Proof.
  destruct c as [[|] [|] [|] [|] [|] [|] [|] [|]];
    vm_compute; intros H; first [exact H | reflexivity].
Qed.

Lemma file_stem_no_sep (app_name : string) :
  Py.all_chars no_sep app_name = true ->
  Py.all_chars no_sep (Py.replace_char " " "_" (Py.lower app_name)) = true.
Proof.
  induction app_name as [|c s IH]; intros H; simpl; [reflexivity|].
  simpl in H. apply andb_prop in H as [Hc Hs].
  destruct (Py.lower_char c =? " ")%char.
  - simpl. now apply IH.
  - simpl. rewrite (lower_char_no_sep _ Hc). now apply IH.
Qed.

Lemma file_stem_truthy (app_name : string) :
  Py.truthy app_name = true ->
  Py.truthy (Py.replace_char " " "_" (Py.lower app_name)) = true.
Proof.
  destruct app_name as [|c s]; [discriminate|]. intros _. simpl.
  now destruct (Py.lower_char c =? " ")%char.
Qed.

(** A configuration is written only under a name, for a script, to
    the file named after the name, and only when the write succeeds. *)
Lemma create_config_dump (E : env) (U : ui) (self : wizard) p config :
  In (Dump p config) (create_config E U self) ->
  Py.truthy (Py.strip (name_entry self)) = true /\
  exists script,
    selected_script self = Some script /\
    p = Pathlib.join (config_dir self)
                     (config_filename (Py.strip (name_entry self))) /\
    config = build_config self (Py.strip (name_entry self)) script /\
    dump U p config = None.
Proof.
  unfold create_config.
  destruct (Py.truthy (Py.strip (name_entry self)));
    [|intros [H|[]]; discriminate].
  destruct (selected_script self) as [script|];
    [|intros [H|[]]; discriminate].
  simpl negb. cbv iota.
  set (path := Pathlib.join (config_dir self)
                 (config_filename (Py.strip (name_entry self)))).
  set (built := build_config self (Py.strip (name_entry self)) script).
  intros Hin.
  assert (Hdump : In (Dump p config)
                     match dump U path built with
                     | Some e =>
                         [ShowError "Error"
                            ("Failed to create config:" ++ nl
                               ++ Py.exn_str e)]
                     | None =>
                         Dump path built
                         :: ShowInfo "Success"
                              ("Configuration created!" ++ nl ++ nl
                                 ++ Pathlib.to_str path ++ nl ++ nl
                                 ++ "Click 'Reload Configs' in the launcher menu to see your new app.")
                         :: match on_complete_callback self with
                            | Some (inl e) =>
                                [Callback;
                                 ShowError "Error"
                                   ("Failed to create config:" ++ nl
                                      ++ Py.exn_str e)]
                            | Some (inr _) => [Callback; Destroy]
                            | None => [Destroy]
                            end
                     end).
  { destruct (exists_ E path); simpl in Hin.
    - destruct (askyesno U "File Exists" _); simpl in Hin.
      + destruct Hin as [H|H]; [discriminate | exact H].
      + destruct Hin as [H|[]]; discriminate.
    - exact Hin. }
  split; [reflexivity|]. exists script. split; [reflexivity|].
  destruct (dump U path built) as [e|] eqn:Hd.
  - destruct Hdump as [H|[]]; discriminate.
  - destruct Hdump as [H|[H|H]]; [| discriminate |].
    + injection H as <- <-. auto.
    + destruct (on_complete_callback self) as [[e|u]|];
        repeat (destruct H as [H|H]; try discriminate); destruct H.
Qed.

End WizardConfig.

Section WizardRoundTrip.

Import Sys Vocabulary AppWizard.

Variable self : wizard.
Variable app_name : string.
Variable script : Pathlib.Path.

Ltac by_cases :=
  unfold build_config;
  destruct (selected_icon self), (selected_venv self),
    (selected_env_files self), (selected_env_directory self);
  reflexivity.

Lemma built_name :
  Dict.get "name" (build_config self app_name script)
  = Some (Py.VStr app_name).
Proof. by_cases. Qed.

Lemma built_script :
  Dict.get "script" (build_config self app_name script)
  = Some (Py.VStr (forward_slashes script)).
Proof. by_cases. Qed.

Lemma built_icon :
  Dict.get "icon" (build_config self app_name script)
  = option_map (fun p => Py.VStr (forward_slashes p)) (selected_icon self).
Proof. by_cases. Qed.

Lemma built_venv :
  Dict.get "venv" (build_config self app_name script)
  = option_map (fun p => Py.VStr (forward_slashes p)) (selected_venv self).
Proof. by_cases. Qed.

Lemma built_env_directory :
  Dict.get "env_directory" (build_config self app_name script)
  = option_map (fun p => Py.VStr (forward_slashes p))
               (selected_env_directory self).
Proof. by_cases. Qed.

Lemma built_env_files :
  Dict.get "env_files" (build_config self app_name script)
  = match selected_env_files self with
    | [] => None
    | files =>
        Some (Py.VList (map (fun f => Py.VStr (forward_slashes f)) files))
    end.
Proof. by_cases. Qed.

Lemma built_nothing_else (key : string) :
  existsb (String.eqb key)
          ["name"; "script"; "icon"; "venv"; "env_files"; "env_directory"]
  = false ->
  Dict.get key (build_config self app_name script) = None.
Proof.
  cbn [existsb]. intros H.
  repeat (apply orb_false_elim in H as [?H H]).
  repeat match goal with
         | Hk : (key =? _)%string = false |- _ =>
             apply String.eqb_neq in Hk
         end.
  unfold build_config.
  destruct (selected_icon self), (selected_venv self),
    (selected_env_files self), (selected_env_directory self);
    repeat (rewrite get_set_other by congruence);
    cbn [Dict.get];
    (destruct (String.eqb_spec "name" key); [congruence|]);
    (destruct (String.eqb_spec "script" key); [congruence|]);
    reflexivity.
Qed.

Lemma optional_path_written (key : string) (d : Dict.t Py.value)
      (p : option Pathlib.Path) :
  Dict.get key d = option_map (fun q => Py.VStr (forward_slashes q)) p ->
  clean_option p = true ->
  ConfigLoader.optional_path key d = inr p.
Proof.
  intros Hget Hclean. unfold ConfigLoader.optional_path. rewrite Hget.
  destruct p as [q|]; simpl; [|reflexivity].
  now rewrite (of_str_forward_slashes _ Hclean).
Qed.

Lemma paths_written (files : list Pathlib.Path) :
  ConfigLoader.map_fail ConfigLoader.to_path
    (map (fun f => Py.VStr (forward_slashes f)) files)
  = inr (map (fun f => Pathlib.of_str (forward_slashes f)) files).
Proof.
  induction files as [|f files IH]; simpl; [reflexivity|].
  now rewrite IH.
Qed.

Lemma paths_read_back (files : list Pathlib.Path) :
  forallb clean_path files = true ->
  map (fun f => Pathlib.of_str (forward_slashes f)) files = files.
Proof.
  induction files as [|f files IH]; intros H; simpl; [reflexivity|].
  simpl in H. apply andb_prop in H as [Hf Hfiles].
  now rewrite (of_str_forward_slashes _ Hf), (IH Hfiles).
Qed.

(** Reading the dictionary built for a name and a script gives back
    the selections. *)
Lemma init_build_config (path : Pathlib.Path) :
  clean_path script = true ->
  clean_option (selected_icon self) = true ->
  clean_option (selected_venv self) = true ->
  clean_option (selected_env_directory self) = true ->
  ConfigLoader.AppConfig_init path
    (Py.VDict (build_config self app_name script))
  = inr {| ConfigLoader.config_path := path;
           ConfigLoader.config_name := Pathlib.stem path;
           ConfigLoader.name := Py.VStr app_name;
           ConfigLoader.script := Some script;
           ConfigLoader.icon := selected_icon self;
           ConfigLoader.venv := selected_venv self;
           ConfigLoader.working_directory := None;
           ConfigLoader.description := Py.VStr "";
           ConfigLoader.env_files :=
             map (fun f => Pathlib.of_str (forward_slashes f))
                 (selected_env_files self);
           ConfigLoader.env_directory := selected_env_directory self;
           ConfigLoader.variables := Py.VDict [];
           ConfigLoader.parameter_sets := Py.VList [] |}.
Proof.
  intros Hscript Hicon Hvenv Hdir.
  unfold ConfigLoader.AppConfig_init, ConfigLoader.attr_get.
  cbn [ConfigLoader.fail_bind].
  rewrite (@optional_path_written "script" _ (Some script) built_script
             Hscript).
  rewrite (@optional_path_written "icon" _ _ built_icon Hicon).
  rewrite (@optional_path_written "venv" _ _ built_venv Hvenv).
  rewrite (@optional_path_written "env_directory" _ _ built_env_directory
             Hdir).
  unfold ConfigLoader.optional_path at 1.
  rewrite (built_nothing_else "working_directory" eq_refl).
  unfold Dict.get_default.
  rewrite built_name, built_env_files.
  rewrite (built_nothing_else "description" eq_refl).
  rewrite (built_nothing_else "variables" eq_refl).
  rewrite (built_nothing_else "parameter_sets" eq_refl).
  cbn [ConfigLoader.fail_bind].
  destruct (selected_env_files self) as [|f files] eqn:Hsel;
    [reflexivity|].
  cbn [ConfigLoader.iterate ConfigLoader.fail_bind].
  rewrite paths_written. reflexivity.
Qed.

End WizardRoundTrip.

Section WizardGuarantees.

Import Sys Vocabulary AppWizard.

Variable E : env.
Variable U : ui.

(** A configuration the wizard writes is read back with the name
    typed, the script, icon, environment, env files and env directory
    selected, and nothing else; its identity is the name in lower
    case with underscores for spaces.  The name is to be the name of
    a file in the configuration directory: it holds no path separator
    and does not begin with a drive (a name such as [c:foo] is written
    to [foo.json], on the drive named). *)
Theorem wizard_config_reads_back (self : wizard) config_path config :
  let app_name := Py.strip (name_entry self) in
  clean_option (selected_script self) = true ->
  clean_option (selected_icon self) = true ->
  clean_option (selected_venv self) = true ->
  forallb clean_path (selected_env_files self) = true ->
  clean_option (selected_env_directory self) = true ->
  Py.all_chars no_sep app_name = true ->
  no_drive app_name = true ->
  In (Dump config_path config) (create_config E U self) ->
  ConfigLoader.AppConfig_init config_path (Py.VDict config)
  = inr {| ConfigLoader.config_path :=
             Pathlib.join (AppWizard.config_dir self)
                          (config_filename app_name);
           ConfigLoader.config_name :=
             Py.replace_char " " "_" (Py.lower app_name);
           ConfigLoader.name := Py.VStr app_name;
           ConfigLoader.script := selected_script self;
           ConfigLoader.icon := selected_icon self;
           ConfigLoader.venv := selected_venv self;
           ConfigLoader.working_directory := None;
           ConfigLoader.description := Py.VStr "";
           ConfigLoader.env_files := selected_env_files self;
           ConfigLoader.env_directory := selected_env_directory self;
           ConfigLoader.variables := Py.VDict [];
           ConfigLoader.parameter_sets := Py.VList [] |}.
Proof.
  intros app_name Hscript Hicon Hvenv Hfiles Hdir Hname _ Hin.
  apply create_config_dump in Hin
    as (Htruthy & script & Hsel & -> & -> & _).
  fold app_name in Htruthy. fold app_name.
  rewrite Hsel in Hscript |- *. simpl in Hscript.
  rewrite (@init_build_config self app_name script _ Hscript Hicon Hvenv
             Hdir).
  rewrite (paths_read_back _ Hfiles).
  unfold config_filename.
  destruct (@stem_json (AppWizard.config_dir self)
              (Py.replace_char " " "_" (Py.lower app_name))
              (file_stem_truthy _ Htruthy) (file_stem_no_sep _ Hname))
    as [-> _].
  reflexivity.
Qed.

End WizardGuarantees.

Section WizardRuns.

Import Sys Vocabulary AppWizard.

Variable E : env.

Lemma split_sep_no_sep (s : string) : forall cur,
  Py.all_chars no_sep cur = true ->
  Forall (fun part => Py.all_chars no_sep part = true)
         (Pathlib.split_sep s cur).
Proof.
  induction s as [|c s IH]; intros cur Hcur; simpl.
  - now repeat constructor.
  - destruct (Pathlib.is_sep c) eqn:Hc.
    + constructor; [exact Hcur | now apply IH].
    + apply IH. rewrite all_chars_append, Hcur. simpl.
      unfold no_sep. now rewrite Hc.
Qed.

Lemma of_str_clean (s : string) : clean_path (Pathlib.of_str s) = true.
Proof.
  unfold clean_path, Pathlib.of_str. apply forallb_forall.
  intros part Hpart. apply filter_In in Hpart as [Hin Hkeep].
  unfold clean_part. rewrite Hkeep. simpl.
  exact (proj1 (Forall_forall _ _) (split_sep_no_sep s "" eq_refl) _ Hin).
Qed.

Lemma parent_clean (p : Pathlib.Path) :
  clean_path p = true -> clean_path (Pathlib.parent p) = true.
Proof.
  unfold clean_path, Pathlib.parent.
  induction p as [|x p IH]; [reflexivity|].
  intros H. simpl in H. apply andb_prop in H as [Hx Hp].
  destruct p as [|y p]; [reflexivity|].
  change (removelast (x :: y :: p)) with (x :: removelast (y :: p)).
  cbn [forallb]. now rewrite Hx, (IH Hp).
Qed.

Lemma join_clean (p : Pathlib.Path) (s : string) :
  clean_path p = true -> clean_path (Pathlib.join p s) = true.
Proof.
  unfold clean_path, Pathlib.join. intros Hp.
  rewrite forallb_app, Hp. exact (of_str_clean s).
Qed.

Lemma first_venv_sound directory names venv_path :
  clean_path directory = true ->
  VenvDetector.first_venv E directory names = Some venv_path ->
  clean_path venv_path = true /\
  exists_ E (VenvDetector.python_exe venv_path) = true.
Proof.
  intros Hdir. induction names as [|n names IH]; simpl; [discriminate|].
  destruct (exists_ E (VenvDetector.python_exe (Pathlib.join directory n)))
    eqn:Hex; [|exact IH].
  intros H. injection H as <-. split; [now apply join_clean | exact Hex].
Qed.

Lemma detect_venv_sound script venv_path :
  clean_path script = true ->
  VenvDetector.detect_venv E script = Some venv_path ->
  clean_path venv_path = true /\
  exists_ E (VenvDetector.python_exe venv_path) = true.
Proof.
  intros Hscript. unfold VenvDetector.detect_venv.
  assert (Hdir : clean_path (VenvDetector.script_dir_of E script) = true).
  { unfold VenvDetector.script_dir_of.
    destruct (is_file E script); [now apply parent_clean | exact Hscript]. }
  destruct (VenvDetector.first_venv E
              (Pathlib.parent (VenvDetector.script_dir_of E script))
              VenvDetector.venv_names) as [v|] eqn:H1.
  { intros H. injection H as <-.
    eapply first_venv_sound; [|exact H1]. now apply parent_clean. }
  destruct (VenvDetector.first_venv E (VenvDetector.script_dir_of E script)
              VenvDetector.venv_names) as [v|] eqn:H2.
  { intros H. injection H as <-.
    eapply first_venv_sound; [|exact H2]. exact Hdir. }
  intros H3. eapply first_venv_sound; [|exact H3].
  now repeat apply parent_clean.
Qed.

End WizardRuns.

Section WizardInvariant.

Import Sys Vocabulary AppWizard.

Variable E : env.

Lemma act_keeps_selections (self : wizard) (a : action) :
  selections_ok E self -> selections_ok E (act E self a).
Proof.
  intros (Hscript & Hicon & Hvenv & Hdir & Hvalid).
  destruct a as [text|filepath|dirpath| |filepath| |filepath|index|dirpath|];
    cbn [act].
  - repeat split; assumption.
  - unfold select_script. destruct (Py.truthy filepath);
      [|repeat split; assumption].
    assert (Hnew := of_str_clean filepath).
    repeat split; cbn; try assumption.
    + destruct (VenvDetector.detect_venv E (Pathlib.of_str filepath))
        as [v|] eqn:Hv; [|reflexivity].
      exact (proj1 (detect_venv_sound E _ Hnew Hv)).
    + intros v Hv. exact (proj2 (detect_venv_sound E _ Hnew Hv)).
  - unfold select_venv. destruct (Py.truthy dirpath);
      [|repeat split; assumption].
    destruct (exists_ E (VenvDetector.python_exe (Pathlib.of_str dirpath)))
      eqn:Hex; [|repeat split; assumption].
    repeat split; cbn; try assumption.
    + apply of_str_clean.
    + intros v Hv. injection Hv as <-. exact Hex.
  - repeat split; cbn; try assumption. intros v Hv. discriminate.
  - unfold select_icon. destruct (Py.truthy filepath);
      repeat split; cbn; try assumption. apply of_str_clean.
  - repeat split; cbn; assumption.
  - unfold add_file. destruct (Py.truthy filepath);
      [|repeat split; assumption].
    destruct (existsb _ _); repeat split; cbn; assumption.
  - repeat split; cbn; assumption.
  - unfold select_dir. destruct (Py.truthy dirpath);
      repeat split; cbn; try assumption. apply of_str_clean.
  - repeat split; cbn; assumption.
Qed.

Lemma run_keeps_selections (actions : list action) : forall self,
  selections_ok E self -> selections_ok E (run E actions self).
Proof.
  unfold run. induction actions as [|a actions IH]; intros self Hok;
    [exact Hok|].
  simpl. apply IH. now apply act_keeps_selections.
Qed.

Lemma init_selections directory callback :
  selections_ok E (init directory callback).
Proof. repeat split. intros v Hv. discriminate. Qed.

(** Whatever the user does with the wizard, the environment it holds,
    detected or selected, has an interpreter. *)
Theorem wizard_venv_is_valid directory callback actions venv_path :
  selected_venv (run E actions (init directory callback)) = Some venv_path ->
  exists_ E (VenvDetector.python_exe venv_path) = true.
Proof.
  apply (run_keeps_selections actions (init_selections directory callback)).
Qed.

(** Whatever the user did with the wizard before, the configuration it
    writes is read back and found valid, when its script exists. *)
Theorem wizard_config_is_accepted (U : ui) directory callback actions
        config_path config script :
  let self := run E actions (init directory callback) in
  In (Dump config_path config) (create_config E U self) ->
  selected_script self = Some script ->
  exists_ E script = true ->
  exists c,
    ConfigLoader.AppConfig_init config_path (Py.VDict config) = inr c /\
    ConfigLoader.script c = Some script /\
    ConfigLoader.venv c = selected_venv self /\
    ConfigLoader.validate E c = (true, None).
Proof.
  intros self Hin Hsel Hexists.
  destruct (run_keeps_selections actions (init_selections directory callback))
    as (Hscript & Hicon & Hvenv & Hdir & Hvalid).
  fold self in Hscript, Hicon, Hvenv, Hdir, Hvalid.
  apply create_config_dump in Hin as (_ & script' & Hsel' & -> & -> & _).
  assert (script' = script) by congruence. subst script'.
  rewrite Hsel in Hscript. simpl in Hscript.
  eexists. split; [|split; [|split]].
  - apply (@init_build_config self _ script _ Hscript Hicon Hvenv Hdir).
  - reflexivity.
  - reflexivity.
  - unfold ConfigLoader.validate. cbn [ConfigLoader.script ConfigLoader.venv].
    rewrite Hexists. simpl negb. cbv iota.
    destruct (selected_venv self) as [v|] eqn:Hv; [|reflexivity].
    specialize (Hvalid v eq_refl). unfold VenvDetector.python_exe in Hvalid.
    now rewrite Hvalid.
Qed.

End WizardInvariant.

Lemma wizard_config_reads_back_witness :
  exists c,
    ConfigLoader.AppConfig_init
      (Pathlib.of_str "C:\configs\my_tool.json")
      (Py.VDict (AppWizard.build_config Examples.wizard_state "My Tool"
                                        Examples.project_py))
    = inr c /\
    ConfigLoader.config_name c = "my_tool" /\
    ConfigLoader.name c = Py.VStr "My Tool" /\
    ConfigLoader.script c = Some Examples.project_py /\
    ConfigLoader.venv c = Some (Pathlib.of_str "C:\work\proj\.venv") /\
    ConfigLoader.env_files c = [Pathlib.of_str "C:\work\proj\.env"].
Proof.
  eexists. split.
  - apply (@wizard_config_reads_back Examples.venv_world Examples.wizard_ui
             Examples.wizard_state).
    + vm_compute. reflexivity.
    + vm_compute. reflexivity.
    + vm_compute. reflexivity.
    + vm_compute. reflexivity.
    + vm_compute. reflexivity.
    + vm_compute. reflexivity.
    + vm_compute. reflexivity.
    + vm_compute. auto.
  - vm_compute. repeat split.
Defined.

Lemma wizard_venv_is_valid_witness :
  Sys.exists_ Examples.venv_world
    (VenvDetector.python_exe (Pathlib.of_str "C:\work\proj\.venv")) = true.
Proof.
  apply (@wizard_venv_is_valid Examples.venv_world Scenario.config_dir None
           Examples.wizard_actions).
  vm_compute. reflexivity.
Defined.

Lemma wizard_config_is_accepted_witness :
  exists c,
    ConfigLoader.AppConfig_init
      (Pathlib.of_str "C:\configs\my_tool.json")
      (Py.VDict (AppWizard.build_config Examples.wizard_state "My Tool"
                                        Examples.project_py))
    = inr c /\
    ConfigLoader.script c = Some Examples.project_py /\
    ConfigLoader.venv c = Some (Pathlib.of_str "C:\work\proj\.venv") /\
    ConfigLoader.validate Examples.venv_world c = (true, None).
Proof.
  apply (@wizard_config_is_accepted Examples.venv_world Examples.wizard_ui
           Scenario.config_dir None Examples.wizard_actions).
  - vm_compute. auto.
  - vm_compute. reflexivity.
  - vm_compute. reflexivity.
Defined.

(** ** The menu of a configuration *)

Section MenuFlow.

Import Sys MenuBuilder.

Variable E : env.

Lemma env_menu_by_sources (app_config : Config) :
  should_show_env_menu E app_config
  = match (ConfigLoader.explicit_sources E app_config
             ++ ConfigLoader.scanned_sources E app_config)%list with
    | [] => false
    | _ :: _ => true
    end.
Proof.
  unfold should_show_env_menu.
  rewrite get_all_env_files_sources.
  rewrite (Permutation_length (sorted_perm _ _)).
  destruct (add_all_spec
              (ConfigLoader.explicit_sources E app_config
                 ++ ConfigLoader.scanned_sources E app_config)%list
              (s := []) (SSorted_nil _)) as (_ & Hin & _ & Hhas).
  destruct (ConfigLoader.explicit_sources E app_config
              ++ ConfigLoader.scanned_sources E app_config)%list
    as [|x l] eqn:Hsrc.
  - reflexivity.
  - destruct (Hhas x (or_introl eq_refl)) as (q & Hq & _).
    destruct (ConfigLoader.add_all (x :: l) []); [destruct Hq | reflexivity].
Qed.

(** Which menus a configuration gets is decided by what the file
    system holds and by the parameter sets: an environment menu
    exactly when an explicit env file exists or the scan of an
    existing env directory lists a regular file with an env name, a
    parameter menu exactly when there is a parameter set. *)
Theorem menu_flow_table (app_config : Config) :
  get_menu_flow E app_config
  = match (ConfigLoader.explicit_sources E app_config
             ++ ConfigLoader.scanned_sources E app_config)%list,
          ConfigLoader.parameter_sets app_config with
    | [], [] => "direct"
    | _ :: _, [] => "env_only"
    | [], _ :: _ => "param_only"
    | _ :: _, _ :: _ => "env_then_param"
    end.
Proof.
  unfold get_menu_flow. rewrite env_menu_by_sources.
  unfold should_show_param_menu.
  destruct (ConfigLoader.explicit_sources E app_config
              ++ ConfigLoader.scanned_sources E app_config)%list,
    (ConfigLoader.parameter_sets app_config); reflexivity.
Qed.

End MenuFlow.

(** ** The callback of a launch *)

Section LaunchCallback.

Import Sys VariableResolver MenuBuilder Vocabulary.

Variable E : env.

Ltac run_prompts :=
  cbv [bind emit ask ret lift print try_except
       _prompt_file_picker _prompt_folder_picker _prompt_input].

Lemma resolve_variable_events self var_name h :
  forallb asks_or_tells (snd (_resolve_variable E self var_name h)) = true.
Proof.
  unfold _resolve_variable.
  destruct (Dict.get var_name (variables_config self)) as [var_config|];
    [|reflexivity].
  repeat match goal with
         | |- context [if String.eqb ?a ?b then _ else _] =>
             destruct (String.eqb a b)
         end; run_prompts.
  all: repeat match goal with
         | |- context [strftime E ?x ?y] => destruct (strftime E x y)
         | |- context [paste E ?x] => destruct (paste E x)
         end.
  all: reflexivity.
Qed.

Lemma resolve_each_events names : forall self h,
  forallb asks_or_tells (snd (resolve_each E names self h)) = true.
Proof.
  induction names as [|x names IH]; intros self h; simpl; [reflexivity|].
  destruct (Dict.mem x (resolved_values self)); [apply IH|].
  unfold bind.
  assert (H1 := resolve_variable_events self x h).
  destruct (_resolve_variable E self x h) as [[e|[v|]] o1];
    cbn [snd] in *.
  - exact H1.
  - assert (H2 := IH (with_value self x v) (h ++ o1)%list).
    destruct (resolve_each E names (with_value self x v) (h ++ o1)%list)
      as [r o2].
    cbn [snd] in *. now rewrite forallb_app, H1, H2.
  - cbv [ret]. now rewrite app_nil_r.
Qed.

Lemma resolve_parameters_events self params h :
  forallb asks_or_tells (snd (resolve_parameters E self params h)) = true.
Proof.
  unfold resolve_parameters, bind.
  assert (H := resolve_each_events (set_iter E (findall (pieces params)))
                                   self h).
  destruct (resolve_each E (set_iter E (findall (pieces params))) self h)
    as [[e|[[|] s']] o]; cbn [snd] in *; cbv [ret];
    rewrite ?app_nil_r; exact H.
Qed.

Lemma quiet_not_started (out : list event) :
  forallb asks_or_tells out = true ->
  existsb is_spawn out = false /\ existsb is_traceback out = false.
Proof.
  induction out as [|ev out IH]; intros H; [split; reflexivity|].
  simpl in H. apply andb_prop in H as [Hev Hout].
  destruct (IH Hout) as [Hs Ht]. simpl. rewrite Hs, Ht.
  destruct ev; try discriminate; split; reflexivity.
Qed.

Lemma process_started_after (quiet out : list event) :
  forallb asks_or_tells quiet = true ->
  process_started (quiet ++ out) = process_started out.
Proof.
  intros H. destruct (quiet_not_started _ H) as [Hs Ht].
  unfold process_started. now rewrite !existsb_app, Hs, Ht.
Qed.

Lemma prints_no_traceback (out : list event) :
  forallb is_print out = true -> existsb is_traceback out = false.
Proof.
  induction out as [|ev out IH]; intros H; [reflexivity|].
  simpl in H. apply andb_prop in H as [Hev Hout]. simpl.
  rewrite (IH Hout). now destruct ev.
Qed.

Lemma starts_process_started script params venv wd out after :
  starts E script params venv wd out after ->
  process_started out = negb (existsb is_traceback after).
Proof.
  intros (tmp & before & content & between & rest & _ & -> & Hb & Hm & _).
  unfold process_started.
  rewrite !existsb_app, (prints_no_traceback _ Hb),
    (prints_no_traceback _ Hm).
  cbn [existsb is_spawn is_traceback orb].
  now rewrite !orb_true_r.
Qed.

(** The verdict of a launch is whether a process was started. *)
Lemma launch_app_verdict script params venv files wd h :
  exists out,
    AppLauncher.launch_app E script params venv files wd h
    = (inr (process_started out), out).
Proof.
  destruct (launch_app_cases E script params venv files wd h)
    as [(Hr & Hs & _) | [(e & Hr & Hst) | (pid & Hr & Hst)]];
    destruct (AppLauncher.launch_app E script params venv files wd h)
      as [r out]; cbn [fst snd] in *; exists out; subst r.
  - unfold process_started. now rewrite Hs.
  - now rewrite (starts_process_started Hst).
  - now rewrite (starts_process_started Hst).
Qed.

End LaunchCallback.

Section CallbackAfterStart.

Import Sys VariableResolver MenuBuilder Vocabulary.

Variable E : env.

Lemma launch_resolved_callback (app_config : Config) env_file params h :
  exists out,
    forall callback,
      launch_resolved E (builder_with callback) app_config env_file params h
      = then_callback callback app_config h out.
Proof.
  unfold launch_resolved.
  destruct (ConfigLoader.script app_config) as [script|].
  - destruct (launch_app_verdict E script params
                (ConfigLoader.venv app_config)
                match env_file with Some f => [f] | None => [] end
                (ConfigLoader.working_directory app_config) h)
      as (out & Hlaunch).
    exists out. intros callback. unfold bind. rewrite Hlaunch.
    unfold then_callback. cbn [on_launch_callback builder_with].
    destruct (process_started out), callback as [cb|];
      cbv [ret]; rewrite ?app_nil_r; reflexivity.
  - exists [Print ("Error launching app: "
                     ++ "'NoneType' object has no attribute 'stem'");
            Traceback
              (Py.AttributeError "'NoneType' object has no attribute 'stem'")].
    intros callback. destruct callback; reflexivity.
Qed.

Lemma then_callback_after (quiet out : list event) callback
      (app_config : Config) h :
  forallb asks_or_tells quiet = true ->
  (let (r, o) := then_callback callback app_config (h ++ quiet)%list out in
   (r, (quiet ++ o)%list))
  = then_callback callback app_config h (quiet ++ out)%list.
Proof.
  intros Hquiet. unfold then_callback.
  rewrite (@process_started_after quiet out Hquiet).
  destruct (process_started out), callback as [cb|]; try reflexivity.
  rewrite <- app_assoc.
  destruct (cb app_config (h ++ quiet ++ out)%list) as [r o].
  now rewrite app_assoc.
Qed.

Lemma launch_with_callback (app_config : Config) env_file param_set h :
  exists out,
    forall callback,
      launch_app_with_config E (builder_with callback) app_config env_file
                             param_set h
      = then_callback callback app_config h out.
Proof.
  unfold launch_app_with_config.
  destruct (chosen param_set) as [ps|];
    [|apply launch_resolved_callback].
  destruct (Py.contains "$" (Dict.get_default "params" "" ps));
    [|apply launch_resolved_callback].
  assert (Hquiet := resolve_parameters_events E
                      (init (ConfigLoader.variables app_config))
                      (Dict.get_default "params" "" ps) h).
  destruct (resolve_parameters_returns E
              (init (ConfigLoader.variables app_config))
              (Dict.get_default "params" "" ps) h)
    as (result & self' & quiet & Hres & _).
  rewrite Hres in Hquiet. cbn [snd] in Hquiet.
  destruct result as [resolved|].
  - destruct (launch_resolved_callback app_config env_file resolved
                (h ++ quiet)%list) as (out & Hout).
    exists (quiet ++ out)%list. intros callback.
    rewrite <- (@then_callback_after quiet out callback app_config h
                  Hquiet), <- Hout.
    unfold bind. rewrite Hres. reflexivity.
  - exists quiet. intros callback. unfold bind. rewrite Hres.
    cbv [fst ret]. rewrite app_nil_r. unfold then_callback.
    destruct (@quiet_not_started quiet Hquiet) as [Hs _].
    unfold process_started. now rewrite Hs.
Qed.

(** With a callback, a launch does what it does without one and then,
    exactly when a process was started, runs the callback on the
    configuration; the callback sees all the launch has done. *)
Theorem callback_follows_start (app_config : Config) env_file param_set h
        callback :
  let plain :=
    launch_app_with_config E (builder_with None) app_config env_file
                           param_set h in
  fst plain = inr tt /\
  launch_app_with_config E (builder_with callback) app_config env_file
                         param_set h
  = then_callback callback app_config h (snd plain).
Proof.
  destruct (launch_with_callback app_config env_file param_set h)
    as (out & Hout).
  cbv zeta. rewrite (Hout None), (Hout callback).
  assert (Hplain : then_callback None app_config h out = (inr tt, out)).
  { unfold then_callback. now destruct (process_started out). }
  rewrite Hplain. split; reflexivity.
Qed.

End CallbackAfterStart.
